(** * Clinic scheduling: slot / appointment lifecycle

    A shallow embedding of the appointment-slot subsystem of the clinic
    application ([models.py] and the routes of [app.py] that write to the
    user, availability-slot, appointment, schedule and notification
    tables), followed by the properties claimed for it.

    Conventions of the embedding:
    - a table is the list of its rows in insertion (rowid) order, so that
      [.first()] is the first row that matches and [.all()] keeps the order;
    - a [db.Date] is its proleptic ordinal ([date.toordinal()]), so that
      [+ timedelta(days=1)] is [+ 1] and [date.weekday()] is
      [(ordinal + 6) mod 7];
    - an integer primary key left out of a constructor is given by SQLite
      when the row is inserted: one more than the largest key in the table;
    - the text of a notification is kept as the template that the f-string
      instantiates together with the values substituted into it;
    - a function that can raise returns an [Outcome], which carries the
      database as committed up to the exception;
    - form and JSON fields arrive parsed: ids and dates as integers, the
      availability flag as a boolean; the columns [created_at], [email],
      [password] and the nurse's department data, which no modelled
      operation reads, are left out of the rows. *)

From Stdlib Require Import ZArith List String Bool Lia.
From Stdlib Require Import Permutation Sorted.
Import ListNotations.

Local Open Scope string_scope.
Local Open Scope list_scope.
Local Open Scope Z_scope.

(** ** Generic query helpers *)

(** The first row satisfying [p] is mutated by [f]: the ORM idiom
    [row = query.first(); row.field = v; commit()]. *)
Fixpoint update_first {A : Type} (p : A -> bool) (f : A -> A) (l : list A) : list A :=
  match l with
  | [] => []
  | x :: rest => if p x then f x :: rest else x :: update_first p f rest
  end.

(** [db.session.delete(row)] for the first row satisfying [p]. *)
Fixpoint remove_first {A : Type} (p : A -> bool) (l : list A) : list A :=
  match l with
  | [] => []
  | x :: rest => if p x then rest else x :: remove_first p rest
  end.

(** Key given by SQLite to a row inserted without one. *)
Definition next_id (ids : list Z) : Z := 1 + fold_right Z.max 0 ids.

(** Python truthiness of an optional integer ([if x:]). *)
Definition truthy (x : option Z) : bool :=
  match x with
  | Some n => negb (n =? 0)
  | None => false
  end.

(** ** Data model ([models.py]) *)

Record User := mkUser {
  user_id : Z;
  user_name : string;
  user_role : string
}.

Record DoctorAvailabilitySlot := mkSlot {
  slot_id : Z;
  slot_doctor_id : Z;
  slot_date : Z;
  slot_time : string;
  slot_is_available : bool
}.

Record Appointment := mkAppointment {
  appt_id : Z;
  appt_patient_id : Z;
  appt_doctor_id : Z;
  appt_nurse_id : option Z;
  appt_date : Z;
  appt_time : string;
  appt_duration : Z;
  appt_status : string;
  appt_reason : option string;
  appt_notes : option string;
  appt_checked_in : bool;
  appt_checked_in_time : option Z
}.

Record DoctorSchedule := mkSchedule {
  sched_id : Z;
  sched_doctor_id : Z;
  sched_date : Z;
  sched_start_time : string;
  sched_end_time : string;
  sched_is_available : bool
}.

(** The message templates of the f-strings in [models.py] and [app.py]. *)
Inductive Message :=
| MsgNewAppointment (patient_name : string) (date : Z) (time : string)
| MsgAppointmentConfirmed (doctor_name : string) (date : Z) (time : string)
| MsgNurseAssigned (patient_name doctor_name : string) (date : Z) (time : string)
| MsgCancelledForDoctor (patient_name : string) (date : Z) (time : string)
| MsgCancelledForPatient (doctor_name : string) (date : Z) (time : string)
| MsgCancelledForNurse (patient_name doctor_name : string) (date : Z) (time : string)
| MsgCheckedIn (patient_name : string) (time : string).

Record Notification := mkNotification {
  notif_id : Z;
  notif_user_id : Z;
  notif_appointment_id : option Z;
  notif_message : Message;
  notif_is_read : bool
}.

Record Database := mkDatabase {
  users : list User;
  slots : list DoctorAvailabilitySlot;
  appointments : list Appointment;
  schedules : list DoctorSchedule;
  notifications : list Notification
}.

Definition empty_db : Database := mkDatabase [] [] [] [] [].

Definition set_users (db : Database) (l : list User) : Database :=
  mkDatabase l (slots db) (appointments db) (schedules db) (notifications db).
Definition set_slots (db : Database) (l : list DoctorAvailabilitySlot) : Database :=
  mkDatabase (users db) l (appointments db) (schedules db) (notifications db).
Definition set_appointments (db : Database) (l : list Appointment) : Database :=
  mkDatabase (users db) (slots db) l (schedules db) (notifications db).
Definition set_schedules (db : Database) (l : list DoctorSchedule) : Database :=
  mkDatabase (users db) (slots db) (appointments db) l (notifications db).
Definition set_notifications (db : Database) (l : list Notification) : Database :=
  mkDatabase (users db) (slots db) (appointments db) (schedules db) l.

Inductive Exn := AttributeError.

(** Result of a call that may raise: the database is the committed one. *)
Inductive Outcome (A : Type) :=
| Returned (db : Database) (v : A)
| Raised (db : Database) (e : Exn).
Arguments Returned {A} db v.
Arguments Raised {A} db e.

Definition outcome_db {A : Type} (o : Outcome A) : Database :=
  match o with
  | Returned db _ => db
  | Raised db _ => db
  end.

(** *** Row predicates and setters *)

Definition slot_has_key (doctor_id date : Z) (time : string)
    (sl : DoctorAvailabilitySlot) : bool :=
  (slot_doctor_id sl =? doctor_id) && (slot_date sl =? date)
  && String.eqb (slot_time sl) time.

Definition slot_set_is_available (b : bool) (sl : DoctorAvailabilitySlot)
    : DoctorAvailabilitySlot :=
  mkSlot (slot_id sl) (slot_doctor_id sl) (slot_date sl) (slot_time sl) b.

Definition appt_has_id (i : Z) (a : Appointment) : bool := appt_id a =? i.

Definition appt_set_status (st : string) (a : Appointment) : Appointment :=
  mkAppointment (appt_id a) (appt_patient_id a) (appt_doctor_id a)
    (appt_nurse_id a) (appt_date a) (appt_time a) (appt_duration a) st
    (appt_reason a) (appt_notes a) (appt_checked_in a) (appt_checked_in_time a).

Definition appt_set_notes (n : string) (a : Appointment) : Appointment :=
  mkAppointment (appt_id a) (appt_patient_id a) (appt_doctor_id a)
    (appt_nurse_id a) (appt_date a) (appt_time a) (appt_duration a)
    (appt_status a) (appt_reason a) (Some n) (appt_checked_in a)
    (appt_checked_in_time a).

Definition appt_set_checked_in (now : Z) (a : Appointment) : Appointment :=
  mkAppointment (appt_id a) (appt_patient_id a) (appt_doctor_id a)
    (appt_nurse_id a) (appt_date a) (appt_time a) (appt_duration a)
    (appt_status a) (appt_reason a) (appt_notes a) true (Some now).

(** [User.query.get(i)], also what the relationships [appointment.patient]
    and [appointment.doctor] load. *)
Definition get_user (db : Database) (i : Z) : option User :=
  find (fun u => user_id u =? i) (users db).

(** [Appointment.query.get(i)]. *)
Definition get_appointment (db : Database) (i : Z) : option Appointment :=
  find (appt_has_id i) (appointments db).

(** [DoctorAvailabilitySlot.query.filter_by(doctor_id, date, time).first()]. *)
Definition first_slot (db : Database) (doctor_id date : Z) (time : string)
    : option DoctorAvailabilitySlot :=
  find (slot_has_key doctor_id date time) (slots db).

(** Insertion of notifications built without a key, in the order of
    [db.session.add]; [is_read] takes its column default [False]. *)
Fixpoint insert_notifications (pending : list (Z * option Z * Message))
    (table : list Notification) : list Notification :=
  match pending with
  | [] => table
  | (uid, aid, msg) :: rest =>
      insert_notifications rest
        (table ++ [mkNotification (next_id (map notif_id table)) uid aid msg false])
  end.

(** [db.session.delete(appointment)]: the row goes, and the one-to-many
    side of the [notifications] backref, which has no delete cascade, has
    the foreign key of its rows set to NULL. *)
Definition delete_appointment (db : Database) (a : Appointment) : Database :=
  mkDatabase (users db) (slots db)
    (remove_first (appt_has_id (appt_id a)) (appointments db))
    (schedules db)
    (map (fun n =>
            match notif_appointment_id n with
            | Some i => if i =? appt_id a
                        then mkNotification (notif_id n) (notif_user_id n) None
                               (notif_message n) (notif_is_read n)
                        else n
            | None => n
            end) (notifications db)).

(** ** [models.py]: helper functions *)

Module Models.

Definition get_available_time_slots (db : Database) (doctor_id date : Z)
    : list string :=
  map slot_time
    (filter (fun sl => (slot_doctor_id sl =? doctor_id) && (slot_date sl =? date)
                       && slot_is_available sl)
            (slots db)).

Definition create_appointment_notifications (db : Database) (appointment : Appointment)
    : Outcome unit :=
  match get_user db (appt_patient_id appointment) with
  | None => Raised db AttributeError
  | Some patient =>
      let doctor_notification :=
        (appt_doctor_id appointment, Some (appt_id appointment),
         MsgNewAppointment (user_name patient) (appt_date appointment)
           (appt_time appointment)) in
      match get_user db (appt_doctor_id appointment) with
      | None => Raised db AttributeError
      | Some doctor =>
          let patient_notification :=
            (appt_patient_id appointment, Some (appt_id appointment),
             MsgAppointmentConfirmed (user_name doctor) (appt_date appointment)
               (appt_time appointment)) in
          let nurse_notification :=
            match appt_nurse_id appointment with
            | Some nurse =>
                if truthy (appt_nurse_id appointment)
                then [(nurse, Some (appt_id appointment),
                       MsgNurseAssigned (user_name patient) (user_name doctor)
                         (appt_date appointment) (appt_time appointment))]
                else []
            | None => []
            end in
          Returned
            (set_notifications db
               (insert_notifications
                  (doctor_notification :: patient_notification :: nurse_notification)
                  (notifications db)))
            tt
      end
  end.

Definition create_appointment (db : Database) (patient_id doctor_id date : Z)
    (time : string) (reason : option string) (nurse_id : option Z)
    : Outcome (option Appointment * string) :=
  let available_slots := get_available_time_slots db doctor_id date in
  if negb (existsb (String.eqb time) available_slots) then
    Returned db (None, "This time slot is not available")
  else
    let appointment :=
      mkAppointment (next_id (map appt_id (appointments db)))
        patient_id doctor_id nurse_id date time 30 "scheduled" reason None
        false None in
    let db1 := set_appointments db (appointments db ++ [appointment]) in
    let db2 :=
      match first_slot db1 doctor_id date time with
      | Some _ =>
          set_slots db1
            (update_first (slot_has_key doctor_id date time)
               (slot_set_is_available false) (slots db1))
      | None => db1
      end in
    match create_appointment_notifications db2 appointment with
    | Returned db3 _ => Returned db3 (Some appointment, "Appointment scheduled successfully")
    | Raised db3 e => Raised db3 e
    end.

Definition cancel_appointment (db : Database) (appointment_id : Z) : Outcome bool :=
  match get_appointment db appointment_id with
  | Some found =>
      let db1 :=
        set_appointments db
          (update_first (appt_has_id appointment_id) (appt_set_status "cancelled")
             (appointments db)) in
      let appointment := appt_set_status "cancelled" found in
      match get_user db1 (appt_patient_id appointment) with
      | None => Raised db1 AttributeError
      | Some patient =>
          let doctor_notification :=
            (appt_doctor_id appointment, Some (appt_id appointment),
             MsgCancelledForDoctor (user_name patient) (appt_date appointment)
               (appt_time appointment)) in
          match get_user db1 (appt_doctor_id appointment) with
          | None => Raised db1 AttributeError
          | Some doctor =>
              let patient_notification :=
                (appt_patient_id appointment, Some (appt_id appointment),
                 MsgCancelledForPatient (user_name doctor) (appt_date appointment)
                   (appt_time appointment)) in
              let nurse_notification :=
                match appt_nurse_id appointment with
                | Some nurse =>
                    if truthy (appt_nurse_id appointment)
                    then [(nurse, Some (appt_id appointment),
                           MsgCancelledForNurse (user_name patient) (user_name doctor)
                             (appt_date appointment) (appt_time appointment))]
                    else []
                | None => []
                end in
              Returned
                (set_notifications db1
                   (insert_notifications
                      (doctor_notification :: patient_notification :: nurse_notification)
                      (notifications db1)))
                true
          end
      end
  | None => Returned db false
  end.

End Models.

(** ** [app.py]: the routes that write to the modelled tables *)

Module App.

(** What [login] stores in the Flask session. *)
Record Session := mkSession {
  session_user_id : Z;
  session_role : string;
  session_name : string
}.

Definition login (u : User) : Session :=
  mkSession (user_id u) (user_role u) (user_name u).

Inductive Response :=
| Redirect (endpoint : string) (flashed : option (string * string))
| JsonSuccess
| NotFound
| ServerError (e : Exn).

(** The [role_required] decorator; [None] is a request without a login. *)
Definition role_required (allowed_roles : list string) (session : option Session)
    (db : Database) (f : Session -> Database * Response) : Database * Response :=
  match session with
  | None =>
      (db, Redirect "login" (Some ("Please log in to access this page", "error")))
  | Some sess =>
      if existsb (String.eqb (session_role sess)) allowed_roles
      then f sess
      else (db, Redirect "homepage"
                  (Some ("You do not have permission to access this page", "error")))
  end.

(** [date.weekday()]: Monday is 0 and Sunday is 6. *)
Definition weekday (d : Z) : Z := (d + 6) mod 7.

Definition new_schedule (doctor_id date : Z) : DoctorSchedule :=
  mkSchedule 0 doctor_id date "09:00" "17:00" true.

(** The [while current_date <= end_date] loop of [create_default_schedule];
    it yields the rows handed to [db.session.add], in order, and [None] when
    [fuel] iterations do not reach the end of the loop. *)
Fixpoint schedule_loop (fuel : nat) (doctor_id current_date end_date : Z)
    : option (list DoctorSchedule) :=
  if current_date <=? end_date then
    match fuel with
    | O => None
    | S fuel' =>
        let added :=
          if weekday current_date <? 5
          then [new_schedule doctor_id current_date]
          else [] in
        option_map (app added)
          (schedule_loop fuel' doctor_id (current_date + 1) end_date)
    end
  else Some [].

(** [db.session.commit()] of rows built without a key. *)
Fixpoint insert_schedules (pending table : list DoctorSchedule) : list DoctorSchedule :=
  match pending with
  | [] => table
  | r :: rest =>
      insert_schedules rest
        (table ++ [mkSchedule (next_id (map sched_id table)) (sched_doctor_id r)
                     (sched_date r) (sched_start_time r) (sched_end_time r)
                     (sched_is_available r)])
  end.

(** [today] stands for [datetime.now().date()]. *)
Definition create_default_schedule (today doctor_id : Z) (db : Database)
    : option Database :=
  let start_date := today in
  let end_date := start_date + 30 in
  match schedule_loop 31 doctor_id start_date end_date with
  | Some pending => Some (set_schedules db (insert_schedules pending (schedules db)))
  | None => None
  end.

(** The part of [signup] that follows a successful validation of the form
    (a rejected form writes nothing); [role] is already lower-cased. *)
Definition signup (name role : string) (today : Z) (db : Database) : Database :=
  let user := mkUser (next_id (map user_id (users db))) name role in
  let db1 := set_users db (users db ++ [user]) in
  if String.eqb role "doctor" then
    match create_default_schedule today (user_id user) db1 with
    | Some db2 => db2
    | None => db1
    end
  else db1.

(** POST [/doctor/appointment/<appointment_id>]. *)
Definition doctor_appointment_detail (session : option Session) (appointment_id : Z)
    (notes status : string) (db : Database) : Database * Response :=
  role_required ["doctor"] session db (fun sess =>
    match get_appointment db appointment_id with
    | None => (db, NotFound)
    | Some appointment =>
        if negb (appt_doctor_id appointment =? session_user_id sess) then
          (db, Redirect "doctor_dashboard" (Some ("Unauthorized access", "error")))
        else
          (set_appointments db
             (update_first (appt_has_id appointment_id)
                (fun a => appt_set_status status (appt_set_notes notes a))
                (appointments db)),
           Redirect "doctor_appointment_detail"
             (Some ("Appointment updated successfully", "success")))
    end).

(** POST [/nurse/check-in/<appointment_id>]; [now] is [datetime.now()]. *)
Definition check_in_patient (session : option Session) (appointment_id now : Z)
    (db : Database) : Database * Response :=
  role_required ["nurse"] session db (fun sess =>
    match get_appointment db appointment_id with
    | None => (db, NotFound)
    | Some found =>
        let db1 :=
          set_appointments db
            (update_first (appt_has_id appointment_id) (appt_set_checked_in now)
               (appointments db)) in
        let appointment := appt_set_checked_in now found in
        match get_user db1 (appt_patient_id appointment) with
        | None => (db1, ServerError AttributeError)
        | Some patient =>
            (set_notifications db1
               (insert_notifications
                  [(appt_doctor_id appointment, None,
                    MsgCheckedIn (user_name patient) (appt_time appointment))]
                  (notifications db1)),
             Redirect "nurse_dashboard" (Some ("Patient checked in successfully", "success")))
        end
    end).

(** The block of [book_appointment] under [if reschedule_id:]. *)
Definition free_old_slot (sess : Session) (reschedule_id : option Z) (db : Database)
    : Database :=
  match reschedule_id with
  | Some rid =>
      if truthy reschedule_id then
        match get_appointment db rid with
        | Some old_appointment =>
            if appt_patient_id old_appointment =? session_user_id sess then
              let db1 :=
                match first_slot db (appt_doctor_id old_appointment)
                        (appt_date old_appointment) (appt_time old_appointment) with
                | Some _ =>
                    set_slots db
                      (update_first
                         (slot_has_key (appt_doctor_id old_appointment)
                            (appt_date old_appointment) (appt_time old_appointment))
                         (slot_set_is_available true) (slots db))
                | None => db
                end in
              delete_appointment db1 old_appointment
            else db
        | None => db
        end
      else db
  | None => db
  end.

(** POST [/patient/book-appointment]. *)
Definition book_appointment (session : option Session) (reschedule_id : option Z)
    (doctor_id date : Z) (time reason : string) (db : Database)
    : Database * Response :=
  role_required ["patient"] session db (fun sess =>
    let db1 := free_old_slot sess reschedule_id db in
    match Models.create_appointment db1 (session_user_id sess) doctor_id date time
            (Some reason) None with
    | Returned db2 (Some _, _) =>
        (db2, Redirect "patient_dashboard" (Some ("Appointment booked successfully", "success")))
    | Returned db2 (None, message) =>
        (db2, Redirect "book_appointment" (Some (message, "error")))
    | Raised db2 e => (db2, ServerError e)
    end).

(** POST [/patient/cancel-appointment/<appointment_id>].  The assignment
    [appointment.status = 'cancelled'] comes after [db.session.delete] of the
    same object, so the commit only issues the DELETE. *)
Definition cancel_appointment (session : option Session) (appointment_id : Z)
    (db : Database) : Database * Response :=
  role_required ["patient"] session db (fun sess =>
    match get_appointment db appointment_id with
    | None => (db, NotFound)
    | Some appointment =>
        if negb (appt_patient_id appointment =? session_user_id sess) then
          (db, Redirect "patient_dashboard" (Some ("Unauthorized action.", "danger")))
        else
          let db1 :=
            match first_slot db (appt_doctor_id appointment) (appt_date appointment)
                    (appt_time appointment) with
            | Some _ =>
                set_slots db
                  (update_first
                     (slot_has_key (appt_doctor_id appointment)
                        (appt_date appointment) (appt_time appointment))
                     (slot_set_is_available true) (slots db))
            | None => db
            end in
          (delete_appointment db1 appointment,
           Redirect "patient_dashboard"
             (Some ("Appointment cancelled successfully.", "success")))
    end).

(** POST [/doctor/toggle-slot]. *)
Definition toggle_slot (session : option Session) (date : Z) (time : string)
    (is_available : bool) (db : Database) : Database * Response :=
  role_required ["doctor"] session db (fun sess =>
    let doctor_id := session_user_id sess in
    match first_slot db doctor_id date time with
    | Some _ =>
        (set_slots db
           (update_first (slot_has_key doctor_id date time)
              (slot_set_is_available is_available) (slots db)),
         JsonSuccess)
    | None =>
        (set_slots db
           (slots db ++ [mkSlot (next_id (map slot_id (slots db))) doctor_id date
                           time is_available]),
         JsonSuccess)
    end).

End App.

(** ** The application as a transition system *)

(** The requests that write to the user, slot or appointment tables. *)
Inductive Request :=
| ReqSignup (name role : string) (today : Z)
| ReqToggleSlot (session : option App.Session) (date : Z) (time : string)
    (is_available : bool)
| ReqBook (session : option App.Session) (reschedule_id : option Z)
    (doctor_id date : Z) (time reason : string)
| ReqCancel (session : option App.Session) (appointment_id : Z)
| ReqDoctorUpdate (session : option App.Session) (appointment_id : Z)
    (notes status : string)
| ReqCheckIn (session : option App.Session) (appointment_id now : Z).

Definition handle (r : Request) (db : Database) : Database :=
  match r with
  | ReqSignup name role today => App.signup name role today db
  | ReqToggleSlot session date time is_available =>
      fst (App.toggle_slot session date time is_available db)
  | ReqBook session reschedule_id doctor_id date time reason =>
      fst (App.book_appointment session reschedule_id doctor_id date time reason db)
  | ReqCancel session appointment_id =>
      fst (App.cancel_appointment session appointment_id db)
  | ReqDoctorUpdate session appointment_id notes status =>
      fst (App.doctor_appointment_detail session appointment_id notes status db)
  | ReqCheckIn session appointment_id now =>
      fst (App.check_in_patient session appointment_id now db)
  end.

Definition request_session (r : Request) : option App.Session :=
  match r with
  | ReqSignup _ _ _ => None
  | ReqToggleSlot s _ _ _ => s
  | ReqBook s _ _ _ _ _ => s
  | ReqCancel s _ => s
  | ReqDoctorUpdate s _ _ _ => s
  | ReqCheckIn s _ _ => s
  end.

(** A session is either absent or was created by [login] from a row of the
    user table (rows of that table are never deleted). *)
Definition session_ok (db : Database) (session : option App.Session) : Prop :=
  match session with
  | None => True
  | Some sess => exists u, In u (users db) /\ sess = App.login u
  end.

(** States the application can be in, starting from the empty database.
    [reach_models_cancel] is a call of the helper of [models.py];
    [reach_other] stands for the remaining routes (notification reading and
    sending, medical records, working hours), which write to the
    notification and schedule tables only. *)
Inductive reachable : Database -> Prop :=
| reach_empty : reachable empty_db
| reach_request (db : Database) (r : Request) :
    reachable db -> session_ok db (request_session r) -> reachable (handle r db)
| reach_models_cancel (db : Database) (appointment_id : Z) :
    reachable db -> reachable (outcome_db (Models.cancel_appointment db appointment_id))
| reach_other (db : Database) (ns : list Notification) (ss : list DoctorSchedule) :
    reachable db -> reachable (set_notifications (set_schedules db ss) ns).

(** ** Predicates used by the statements *)

Definition slot_key (sl : DoctorAvailabilitySlot) : Z * Z * string :=
  (slot_doctor_id sl, slot_date sl, slot_time sl).

Definition appt_key (a : Appointment) : Z * Z * string :=
  (appt_doctor_id a, appt_date a, appt_time a).

(** The slot rows stored under a key. *)
Definition key_slots (db : Database) (doctor_id date : Z) (time : string)
    : list DoctorAvailabilitySlot :=
  filter (slot_has_key doctor_id date time) (slots db).

(** The test made by [create_appointment]: [time in available_slots]. *)
Definition is_open (db : Database) (doctor_id date : Z) (time : string) : bool :=
  existsb (String.eqb time) (Models.get_available_time_slots db doctor_id date).

(** At most one slot row per (doctor, date, time). *)
Definition slot_keys_unique (db : Database) : Prop :=
  NoDup (map slot_key (slots db)).

(** Every slot row belongs to a registered user. *)
Definition slot_doctors_exist (db : Database) : Prop :=
  forall sl, In sl (slots db) ->
    exists u, In u (users db) /\ user_id u = slot_doctor_id sl.

(** The coupling of a scheduled appointment with its slot: exactly one slot
    row has the appointment's key, and that row is closed. *)
Definition coupled (db : Database) : Prop :=
  forall a, In a (appointments db) -> appt_status a = "scheduled" ->
    exists sl,
      key_slots db (appt_doctor_id a) (appt_date a) (appt_time a) = [sl]
      /\ slot_is_available sl = false.

(** The invariant of the reachable states used below. *)
Definition well_formed (db : Database) : Prop :=
  slot_keys_unique db /\ slot_doctors_exist db.

(** The appointment row built by [create_appointment]. *)
Definition booked (db : Database) (patient_id doctor_id date : Z) (time : string)
    (reason : option string) (nurse_id : option Z) : Appointment :=
  mkAppointment (next_id (map appt_id (appointments db)))
    patient_id doctor_id nurse_id date time 30 "scheduled" reason None false None.

(** The database after the two commits of [create_appointment] that come
    before the notifications. *)
Definition booked_db (db : Database) (patient_id doctor_id date : Z) (time : string)
    (reason : option string) (nurse_id : option Z) : Database :=
  mkDatabase (users db)
    (update_first (slot_has_key doctor_id date time) (slot_set_is_available false)
       (slots db))
    (appointments db ++ [booked db patient_id doctor_id date time reason nurse_id])
    (schedules db) (notifications db).

(** The notification rows that a booking hands to the session. *)
Definition booking_notifications (patient doctor : User) (a : Appointment)
    : list (Z * option Z * Message) :=
  (appt_doctor_id a, Some (appt_id a),
   MsgNewAppointment (user_name patient) (appt_date a) (appt_time a))
  :: (appt_patient_id a, Some (appt_id a),
      MsgAppointmentConfirmed (user_name doctor) (appt_date a) (appt_time a))
  :: match appt_nurse_id a with
     | Some nurse =>
         if truthy (appt_nurse_id a)
         then [(nurse, Some (appt_id a),
                MsgNurseAssigned (user_name patient) (user_name doctor)
                  (appt_date a) (appt_time a))]
         else []
     | None => []
     end.

(** The [n] calendar days that start at [start]. *)
Fixpoint days_from (n : nat) (start : Z) : list Z :=
  match n with
  | O => []
  | S k => start :: days_from k (start + 1)
  end.

(** Monday to Friday, as the loop tests it. *)
Definition is_weekday (d : Z) : bool := App.weekday d <? 5.

(** A schedule row without its key. *)
Definition sched_fields (r : DoctorSchedule) : Z * Z * string * string * bool :=
  (sched_doctor_id r, sched_date r, sched_start_time r, sched_end_time r,
   sched_is_available r).

(** No scheduled appointment other than [a] (the first row with its id)
    has the key of [a]. *)
Definition no_other_scheduled (db : Database) (a : Appointment) : Prop :=
  forall a', In a' (remove_first (appt_has_id (appt_id a)) (appointments db)) ->
    appt_status a' = "scheduled" -> appt_key a' <> appt_key a.

(** The requests under which the coupling is kept. *)
Definition keeps_coupling (r : Request) (db : Database) : Prop :=
  match r with
  | ReqToggleSlot s date time is_available =>
      is_available = false
      \/ forall sess a, s = Some sess -> In a (appointments db) ->
           appt_status a = "scheduled" ->
           appt_key a <> (App.session_user_id sess, date, time)
  | ReqDoctorUpdate _ i _ status =>
      status <> "scheduled"
      \/ forall a, get_appointment db i = Some a -> appt_status a = "scheduled"
  | ReqCancel _ i =>
      forall a, get_appointment db i = Some a -> no_other_scheduled db a
  | ReqBook _ rid _ _ _ _ =>
      forall i a, rid = Some i -> get_appointment db i = Some a ->
        no_other_scheduled db a
  | ReqSignup _ _ _ | ReqCheckIn _ _ _ => True
  end.

(** ** A small clinic, built by requests *)

Module Demo.

(** Monday 2024-06-10 as an ordinal. *)
Definition monday : Z := 739047.

Definition dana : User := mkUser 1 "Dana" "doctor".
Definition pat : User := mkUser 2 "Pat" "patient".
Definition quinn : User := mkUser 3 "Quinn" "patient".
Definition nell : User := mkUser 4 "Nell" "nurse".

Definition registered : Database :=
  handle (ReqSignup "Nell" "nurse" monday)
    (handle (ReqSignup "Quinn" "patient" monday)
       (handle (ReqSignup "Pat" "patient" monday)
          (handle (ReqSignup "Dana" "doctor" monday) empty_db))).

(** Dana opens Monday 09:00 and 10:00. *)
Definition opened : Database :=
  handle (ReqToggleSlot (Some (App.login dana)) monday "10:00" true)
    (handle (ReqToggleSlot (Some (App.login dana)) monday "09:00" true) registered).

(** Pat books Monday 09:00. *)
Definition booked_by_pat : Database :=
  handle (ReqBook (Some (App.login pat)) None 1 monday "09:00" "checkup") opened.

(** Dana marks Pat's appointment cancelled. *)
Definition cancelled_by_dana : Database :=
  handle (ReqDoctorUpdate (Some (App.login dana)) 1 "patient called" "cancelled")
    booked_by_pat.

(** Dana re-opens the slot that Pat has booked. *)
Definition reopened_while_booked : Database :=
  handle (ReqToggleSlot (Some (App.login dana)) monday "09:00" true) booked_by_pat.

End Demo.

(** ** The rest of the modelled code *)

(** A Python [dict] as the list of its items in insertion order:
    [d[k] = v] overwrites the value of a key that is present and appends the
    item otherwise. *)
Fixpoint dict_set {K V : Type} (eqb : K -> K -> bool) (k : K) (v : V)
    (d : list (K * V)) : list (K * V) :=
  match d with
  | [] => [(k, v)]
  | (k', v') :: rest =>
      if eqb k' k then (k', v) :: rest else (k', v') :: dict_set eqb k v rest
  end.

(** [d.get(k)]. *)
Definition dict_get {K V : Type} (eqb : K -> K -> bool) (k : K) (d : list (K * V))
    : option V :=
  option_map snd (find (fun kv => eqb (fst kv) k) d).

(** The keys [f"{date}|{time}"] of the slot dictionaries of [app.py].
    The text of a date has a fixed width, so two such strings are equal
    exactly when the dates and the times are; the key is kept as the pair. *)
Definition date_time_eqb (k k' : Z * string) : bool :=
  (fst k =? fst k') && String.eqb (snd k) (snd k').

(** [ORDER BY] as a stable insertion sort: rows that compare equal keep the
    order of the table. *)
Fixpoint insert_by {A : Type} (leb : A -> A -> bool) (x : A) (l : list A) : list A :=
  match l with
  | [] => [x]
  | y :: rest => if leb x y then x :: y :: rest else y :: insert_by leb x rest
  end.

Fixpoint order_by {A : Type} (leb : A -> A -> bool) (l : list A) : list A :=
  match l with
  | [] => []
  | x :: rest => insert_by leb x (order_by leb rest)
  end.

(** The order of [order_by(Appointment.date, Appointment.time)]; times are
    compared as the byte strings they are. *)
Definition date_time_leb (a b : Appointment) : bool :=
  (appt_date a <? appt_date b)
  || ((appt_date a =? appt_date b) && String.leb (appt_time a) (appt_time b)).

(** *** [models.py]: the remaining helpers *)

Module Queries.

Definition notif_has_id (i : Z) (n : Notification) : bool := notif_id n =? i.

Definition notif_set_is_read (b : bool) (n : Notification) : Notification :=
  mkNotification (notif_id n) (notif_user_id n) (notif_appointment_id n)
    (notif_message n) b.

(** [Notification.query.get(i)]. *)
Definition get_notification (db : Database) (i : Z) : option Notification :=
  find (notif_has_id i) (notifications db).

Definition mark_notification_read (db : Database) (notification_id : Z)
    : Database * bool :=
  match get_notification db notification_id with
  | Some _ =>
      (set_notifications db
         (update_first (notif_has_id notification_id) (notif_set_is_read true)
            (notifications db)),
       true)
  | None => (db, false)
  end.

(** [date] is [None] or a [date] object, which is always true in [if date:]. *)
Definition get_doctor_appointments (db : Database) (doctor_id : Z) (date : option Z)
    : list Appointment :=
  let query := filter (fun a => appt_doctor_id a =? doctor_id) (appointments db) in
  let query :=
    match date with
    | Some d => filter (fun a => appt_date a =? d) query
    | None => query
    end in
  order_by date_time_leb query.

(** [today] stands for [datetime.now().date()]. *)
Definition get_patient_appointments (db : Database) (patient_id : Z)
    (include_past : bool) (today : Z) : list Appointment :=
  let query := filter (fun a => appt_patient_id a =? patient_id) (appointments db) in
  let query :=
    if negb include_past
    then filter (fun a => today <=? appt_date a) query
    else query in
  order_by date_time_leb query.

End Queries.

(** *** [app.py]: the routes that read the slot and notification tables *)

Module Views.

(** What a reading route answers: the data it renders, or a response that
    carries none (a redirect, or the page of an uncaught exception). *)
Inductive View (A : Type) :=
| Rendered (payload : A)
| Answered (response : App.Response).
Arguments Rendered {A} payload.
Arguments Answered {A} response.

(** The [role_required] decorator around a reading route. *)
Definition role_required {A : Type} (allowed_roles : list string)
    (session : option App.Session) (f : App.Session -> View A) : View A :=
  match session with
  | None =>
      Answered (App.Redirect "login" (Some ("Please log in to access this page", "error")))
  | Some sess =>
      if existsb (String.eqb (App.session_role sess)) allowed_roles
      then f sess
      else Answered
             (App.Redirect "homepage"
                (Some ("You do not have permission to access this page", "error")))
  end.

Definition get_unread_count (db : Database) (user_id : Z) : nat :=
  List.length
    (filter (fun n => (notif_user_id n =? user_id) && negb (notif_is_read n))
       (notifications db)).

(** The slot rows of a doctor dated from [today] to [today + days]. *)
Definition slots_in_window (db : Database) (doctor_id today days : Z)
    : list DoctorAvailabilitySlot :=
  filter (fun sl => (slot_doctor_id sl =? doctor_id)
                    && (today <=? slot_date sl) && (slot_date sl <=? today + days))
    (slots db).

(** GET [/doctor/availability]: the [slot_map] handed to the template. *)
Definition doctor_availability (session : option App.Session) (today : Z)
    (db : Database) : View (list (Z * string * bool)) :=
  role_required ["doctor"] session (fun sess =>
    let doctor_id := App.session_user_id sess in
    let end_date := today + 13 in
    let slots := slots_in_window db doctor_id today 13 in
    Rendered
      (fold_left
         (fun slot_map slot =>
            dict_set date_time_eqb (slot_date slot, slot_time slot)
              (slot_is_available slot) slot_map)
         slots [])).

(** GET [/api/doctor/slots]: the items of the JSON list. *)
Definition get_doctor_slots (session : option App.Session) (today : Z)
    (db : Database) : View (list (Z * string * bool)) :=
  role_required ["doctor"] session (fun sess =>
    let doctor_id := App.session_user_id sess in
    let slots := slots_in_window db doctor_id today 13 in
    Rendered
      (map (fun slot => (slot_date slot, slot_time slot, slot_is_available slot)) slots)).

(** An item of the JSON list of [get_doctor_weekly_availability]. *)
Record WeeklySlot := mkWeeklySlot {
  ws_date : Z;
  ws_time : string;
  ws_is_available : bool;
  ws_is_booked : bool;
  ws_patient_name : option string
}.

(** The loop that fills [booked_slots]; [None] when [appointment.patient]
    is missing and [.name] raises. *)
Fixpoint fill_booked_slots (db : Database) (appointments : list Appointment)
    (booked_slots : list (Z * string * (string * Z)))
    : option (list (Z * string * (string * Z))) :=
  match appointments with
  | [] => Some booked_slots
  | appointment :: rest =>
      match get_user db (appt_patient_id appointment) with
      | None => None
      | Some patient =>
          fill_booked_slots db rest
            (dict_set date_time_eqb (appt_date appointment, appt_time appointment)
               (user_name patient, appt_id appointment) booked_slots)
      end
  end.

(** GET [/get_doctor_weekly_availability/<doctor_id>]. *)
Definition get_doctor_weekly_availability (session : option App.Session)
    (doctor_id today : Z) (db : Database) : View (list WeeklySlot) :=
  role_required ["nurse"; "doctor"] session (fun _ =>
    let availability_slots := slots_in_window db doctor_id today 7 in
    let appointments :=
      filter (fun a => (appt_doctor_id a =? doctor_id)
                       && (today <=? appt_date a) && (appt_date a <=? today + 7))
        (appointments db) in
    match fill_booked_slots db appointments [] with
    | None => Answered (App.ServerError AttributeError)
    | Some booked_slots =>
        Rendered
          (map (fun slot =>
                  let slot_key := (slot_date slot, slot_time slot) in
                  mkWeeklySlot (slot_date slot) (slot_time slot)
                    (slot_is_available slot)
                    (match dict_get date_time_eqb slot_key booked_slots with
                     | Some _ => true
                     | None => false
                     end)
                    (option_map fst (dict_get date_time_eqb slot_key booked_slots)))
             availability_slots)
    end).

End Views.

(** *** [forms.py]: the two custom validators *)

Module Forms.

Inductive Validation :=
| Valid
| ValidationError (message : string).

(** [AppointmentBookingForm.validate_date]; [today] is the date of
    [datetime.now()], read on one day. *)
Definition validate_date (today date : Z) : Validation :=
  if date <? today then
    ValidationError "Appointment date cannot be in the past."
  else if date >? today + 90 then
    ValidationError "Appointments can only be booked up to 3 months in advance."
  else Valid.

(** A [datetime.time] as a [TimeField] with format [%H:%M] parses it. *)
Record Time := mkTime {
  hour : Z;
  minute : Z
}.

(** [a <= b] on [time] objects: by hour, then by minute. *)
Definition time_leb (a b : Time) : bool :=
  (hour a <? hour b) || ((hour a =? hour b) && (minute a <=? minute b)).

(** [AvailabilityForm.validate_end_time]; an absent field is [None], and a
    [time] object is always true in [if ... and ...]. *)
Definition validate_end_time (start_time end_time : option Time) : Validation :=
  match start_time, end_time with
  | Some start_data, Some end_data =>
      if time_leb end_data start_data then
        ValidationError "End time must be after start time."
      else
        let start_minutes := hour start_data * 60 + minute start_data in
        let end_minutes := hour end_data * 60 + minute end_data in
        if end_minutes - start_minutes >? 480 then
          ValidationError "Availability period cannot exceed 8 hours."
        else Valid
  | _, _ => Valid
  end.

End Forms.

(** ** Lemmas on the query helpers *)

Lemma slot_has_key_iff (d dt : Z) (t : string) (sl : DoctorAvailabilitySlot) :
  slot_has_key d dt t sl = true <-> slot_key sl = (d, dt, t).
Proof.
  unfold slot_has_key, slot_key. rewrite !andb_true_iff, !Z.eqb_eq, String.eqb_eq.
  split.
  - intros [[-> ->] ->]. reflexivity.
  - intros H. injection H as -> -> ->. auto.
Qed.

Lemma slot_has_key_refl (sl : DoctorAvailabilitySlot) :
  slot_has_key (slot_doctor_id sl) (slot_date sl) (slot_time sl) sl = true.
Proof. apply slot_has_key_iff. reflexivity. Qed.

Lemma slot_has_key_other (d dt : Z) (t : string) (d' dt' : Z) (t' : string)
    (sl : DoctorAvailabilitySlot) :
  (d, dt, t) <> (d', dt', t') -> slot_has_key d dt t sl = true ->
  slot_has_key d' dt' t' sl = false.
Proof.
  intros Hne H. destruct (slot_has_key d' dt' t' sl) eqn:E; [|reflexivity].
  apply slot_has_key_iff in H. apply slot_has_key_iff in E. congruence.
Qed.

Lemma slot_key_set (b : bool) (sl : DoctorAvailabilitySlot) :
  slot_key (slot_set_is_available b sl) = slot_key sl.
Proof. reflexivity. Qed.

Lemma slot_has_key_set (d dt : Z) (t : string) (b : bool) (sl : DoctorAvailabilitySlot) :
  slot_has_key d dt t (slot_set_is_available b sl) = slot_has_key d dt t sl.
Proof. reflexivity. Qed.

Lemma find_none_forall {A : Type} (p : A -> bool) (l : list A) :
  find p l = None <-> forall x, In x l -> p x = false.
Proof.
  split.
  - intros H x Hx. exact (find_none p l H x Hx).
  - induction l as [|y l IH]; intros H; [reflexivity|].
    cbn. rewrite (H y (or_introl eq_refl)). apply IH.
    intros x Hx. apply H. right. exact Hx.
Qed.

Lemma update_first_map {A B : Type} (g : A -> B) (p : A -> bool) (f : A -> A)
    (l : list A) :
  (forall x, g (f x) = g x) -> map g (update_first p f l) = map g l.
Proof.
  intros Hg. induction l as [|x l IH]; [reflexivity|].
  cbn. destruct (p x); cbn; [rewrite Hg|rewrite IH]; reflexivity.
Qed.

Lemma update_first_length {A : Type} (p : A -> bool) (f : A -> A) (l : list A) :
  List.length (update_first p f l) = List.length l.
Proof.
  induction l as [|x l IH]; [reflexivity|].
  cbn. destruct (p x); cbn; [|rewrite IH]; reflexivity.
Qed.

Lemma update_first_none {A : Type} (p : A -> bool) (f : A -> A) (l : list A) :
  find p l = None -> update_first p f l = l.
Proof.
  induction l as [|x l IH]; [reflexivity|].
  cbn. destruct (p x); [discriminate|]. intros H. rewrite (IH H). reflexivity.
Qed.

Lemma update_first_in {A : Type} (p : A -> bool) (f : A -> A) (l : list A) (y : A) :
  In y (update_first p f l) ->
  In y l \/ exists x, In x l /\ p x = true /\ y = f x.
Proof.
  induction l as [|x l IH]; cbn; [tauto|].
  destruct (p x) eqn:E; cbn.
  - intros [<-|H]; [right; exists x; auto|left; auto].
  - intros [<-|H]; [left; auto|].
    destruct (IH H) as [H1|[z [H1 [H2 H3]]]]; [left; auto|].
    right. exists z. auto.
Qed.

Lemma update_first_keeps {A : Type} (p : A -> bool) (f : A -> A) (l : list A) (y : A) :
  In y l -> p y = false -> In y (update_first p f l).
Proof.
  induction l as [|x l IH]; cbn; [tauto|].
  intros [->|H] Hp.
  - rewrite Hp. left. reflexivity.
  - destruct (p x); right; auto.
Qed.

Lemma remove_first_in {A : Type} (p : A -> bool) (l : list A) (y : A) :
  In y (remove_first p l) -> In y l.
Proof.
  induction l as [|x l IH]; cbn; [tauto|].
  destruct (p x); cbn; [auto|]. intros [H|H]; auto.
Qed.

Lemma remove_first_keeps {A : Type} (p : A -> bool) (l : list A) (y : A) :
  In y l -> p y = false -> In y (remove_first p l).
Proof.
  induction l as [|x l IH]; cbn; [tauto|].
  intros [->|H] Hp.
  - rewrite Hp. left. reflexivity.
  - destruct (p x); [exact H|right; auto].
Qed.

(** Filtering by another key does not see an update made under a key. *)
Lemma filter_update_first_other (d dt : Z) (t : string) (d' dt' : Z) (t' : string)
    (b : bool) (l : list DoctorAvailabilitySlot) :
  (d, dt, t) <> (d', dt', t') ->
  filter (slot_has_key d' dt' t')
    (update_first (slot_has_key d dt t) (slot_set_is_available b) l)
  = filter (slot_has_key d' dt' t') l.
Proof.
  intros Hne. induction l as [|x l IH]; [reflexivity|].
  cbn. destruct (slot_has_key d dt t x) eqn:E.
  - cbn. rewrite slot_has_key_set.
    rewrite (slot_has_key_other _ _ _ _ _ _ _ Hne E). reflexivity.
  - cbn. rewrite IH. reflexivity.
Qed.

(** Filtering by the key of an update: the first row of the result is the
    one that was updated. *)
Lemma filter_update_first_same (d dt : Z) (t : string) (b : bool)
    (l : list DoctorAvailabilitySlot) :
  filter (slot_has_key d dt t)
    (update_first (slot_has_key d dt t) (slot_set_is_available b) l)
  = match filter (slot_has_key d dt t) l with
    | [] => []
    | x :: rest => slot_set_is_available b x :: rest
    end.
Proof.
  induction l as [|x l IH]; [reflexivity|].
  cbn. destruct (slot_has_key d dt t x) eqn:E.
  - cbn. rewrite slot_has_key_set, E. reflexivity.
  - cbn. rewrite E. exact IH.
Qed.

Lemma find_filter_head {A : Type} (p : A -> bool) (l : list A) :
  find p l = match filter p l with [] => None | x :: _ => Some x end.
Proof.
  induction l as [|x l IH]; [reflexivity|].
  cbn. destruct (p x); [reflexivity|exact IH].
Qed.

(** With unique keys a key holds at most one row. *)
Lemma unique_filter_short (d dt : Z) (t : string) (l : list DoctorAvailabilitySlot) :
  NoDup (map slot_key l) ->
  filter (slot_has_key d dt t) l = []
  \/ exists sl, filter (slot_has_key d dt t) l = [sl].
Proof.
  induction l as [|x l IH]; cbn; [auto|].
  intros Hnd. inversion Hnd as [|k ks Hnotin Hnd']; subst.
  destruct (slot_has_key d dt t x) eqn:E.
  - right. exists x. f_equal.
    destruct (filter (slot_has_key d dt t) l) as [|y r] eqn:F; [reflexivity|].
    exfalso. apply Hnotin.
    assert (Hy : In y (filter (slot_has_key d dt t) l)) by (rewrite F; left; reflexivity).
    apply filter_In in Hy. destruct Hy as [Hy1 Hy2].
    apply slot_has_key_iff in E. apply slot_has_key_iff in Hy2.
    rewrite E, <- Hy2. apply in_map. exact Hy1.
  - apply IH. exact Hnd'.
Qed.

Lemma is_open_iff (db : Database) (d dt : Z) (t : string) :
  is_open db d dt t = true <->
  exists sl, In sl (slots db) /\ slot_key sl = (d, dt, t) /\ slot_is_available sl = true.
Proof.
  unfold is_open, Models.get_available_time_slots. rewrite existsb_exists. split.
  - intros [x [Hin Hx]]. apply in_map_iff in Hin. destruct Hin as [sl [<- Hsl]].
    apply filter_In in Hsl. destruct Hsl as [Hsl Hp].
    rewrite !andb_true_iff, !Z.eqb_eq in Hp. destruct Hp as [[Hd Hdt] Hav].
    apply String.eqb_eq in Hx. exists sl. unfold slot_key. subst. auto.
  - intros [sl [Hin [Hk Hav]]]. unfold slot_key in Hk. injection Hk as Hd Hdt Ht.
    exists (slot_time sl). split.
    + apply in_map. apply filter_In. split; [exact Hin|].
      rewrite !andb_true_iff, !Z.eqb_eq. auto.
    + apply String.eqb_eq. auto.
Qed.

Lemma is_open_key_slots (db : Database) (d dt : Z) (t : string) :
  is_open db d dt t = existsb slot_is_available (key_slots db d dt t).
Proof.
  apply eq_true_iff_eq. rewrite is_open_iff, existsb_exists. unfold key_slots. split.
  - intros [sl [H1 [H2 H3]]]. exists sl. split; [|exact H3].
    apply filter_In. split; [exact H1|]. apply slot_has_key_iff. exact H2.
  - intros [sl [H1 H2]]. apply filter_In in H1. destruct H1 as [H1 H3].
    exists sl. apply slot_has_key_iff in H3. auto.
Qed.

Lemma get_user_some_iff (db : Database) (i : Z) :
  (exists u, get_user db i = Some u) <-> (exists u, In u (users db) /\ user_id u = i).
Proof.
  unfold get_user. split.
  - intros [u H]. apply find_some in H. destruct H as [H1 H2].
    apply Z.eqb_eq in H2. eauto.
  - intros [u [H1 H2]].
    destruct (find (fun u0 => user_id u0 =? i) (users db)) as [v|] eqn:E; [eauto|].
    exfalso. apply (find_none _ _ E) in H1. apply Z.eqb_neq in H1. auto.
Qed.

(** ** What each operation leaves in the tables *)

Lemma create_appointment_closed (db : Database) (p d dt : Z) (t : string)
    (r : option string) (n : option Z) :
  is_open db d dt t = false ->
  Models.create_appointment db p d dt t r n
  = Returned db (None, "This time slot is not available").
Proof.
  intros H. unfold Models.create_appointment. fold (is_open db d dt t).
  rewrite H. reflexivity.
Qed.

Lemma create_appointment_open (db : Database) (p d dt : Z) (t : string)
    (r : option string) (n : option Z) :
  is_open db d dt t = true ->
  Models.create_appointment db p d dt t r n
  = match Models.create_appointment_notifications (booked_db db p d dt t r n)
            (booked db p d dt t r n) with
    | Returned db3 _ =>
        Returned db3 (Some (booked db p d dt t r n), "Appointment scheduled successfully")
    | Raised db3 e => Raised db3 e
    end.
Proof.
  intros H. unfold Models.create_appointment. fold (is_open db d dt t).
  rewrite H. cbn [negb]. fold (booked db p d dt t r n).
  assert (E : match first_slot (set_appointments db (appointments db ++ [booked db p d dt t r n])) d dt t with
              | Some _ =>
                  set_slots (set_appointments db (appointments db ++ [booked db p d dt t r n]))
                    (update_first (slot_has_key d dt t) (slot_set_is_available false)
                       (slots (set_appointments db (appointments db ++ [booked db p d dt t r n]))))
              | None => set_appointments db (appointments db ++ [booked db p d dt t r n])
              end = booked_db db p d dt t r n).
  { unfold first_slot, booked_db, set_slots, set_appointments. cbn [slots users appointments schedules notifications].
    destruct (find (slot_has_key d dt t) (slots db)) eqn:F; [reflexivity|].
    rewrite (update_first_none _ _ _ F). reflexivity. }
  rewrite E. reflexivity.
Qed.

Lemma notifications_frame (db : Database) (a : Appointment) :
  let db' := outcome_db (Models.create_appointment_notifications db a) in
  users db' = users db /\ slots db' = slots db
  /\ appointments db' = appointments db /\ schedules db' = schedules db.
Proof.
  unfold Models.create_appointment_notifications.
  destruct (get_user db (appt_patient_id a)); [|cbn; auto].
  destruct (get_user db (appt_doctor_id a)); cbn; auto.
Qed.

(** The tables other than the notifications after [create_appointment]. *)
Lemma create_appointment_frame (db : Database) (p d dt : Z) (t : string)
    (r : option string) (n : option Z) :
  let db' := outcome_db (Models.create_appointment db p d dt t r n) in
  users db' = users db /\ schedules db' = schedules db
  /\ ((is_open db d dt t = false /\ db' = db)
      \/ (is_open db d dt t = true
          /\ slots db' = update_first (slot_has_key d dt t)
                           (slot_set_is_available false) (slots db)
          /\ appointments db' = appointments db ++ [booked db p d dt t r n])).
Proof.
  cbv zeta. destruct (is_open db d dt t) eqn:E.
  - rewrite (create_appointment_open _ _ _ _ _ _ _ E).
    pose proof (notifications_frame (booked_db db p d dt t r n) (booked db p d dt t r n)) as H.
    cbv zeta in H. destruct H as [H1 [H2 [H3 H4]]].
    destruct (Models.create_appointment_notifications (booked_db db p d dt t r n)
                (booked db p d dt t r n)); cbn [outcome_db] in *;
      rewrite H1, H2, H3, H4; (split; [reflexivity|split; [reflexivity|right; auto]]).
  - rewrite (create_appointment_closed _ _ _ _ _ _ _ E). cbn. auto.
Qed.

Lemma models_cancel_frame (db : Database) (i : Z) :
  let db' := outcome_db (Models.cancel_appointment db i) in
  users db' = users db /\ slots db' = slots db /\ schedules db' = schedules db
  /\ appointments db'
     = match get_appointment db i with
       | Some _ => update_first (appt_has_id i) (appt_set_status "cancelled")
                     (appointments db)
       | None => appointments db
       end.
Proof.
  unfold Models.cancel_appointment.
  destruct (get_appointment db i) as [a|]; [|cbn; auto].
  destruct (get_user _ (appt_patient_id (appt_set_status "cancelled" a))); [|cbn; auto].
  destruct (get_user _ (appt_doctor_id (appt_set_status "cancelled" a))); cbn; auto.
Qed.

(** The slot table after the reschedule block: untouched, or the old slot
    re-opened. *)
Lemma free_old_slot_frame (sess : App.Session) (rid : option Z) (db : Database) :
  let db' := App.free_old_slot sess rid db in
  users db' = users db /\ schedules db' = schedules db
  /\ (db' = db
      \/ exists old,
           get_appointment db (appt_id old) = Some old
           /\ rid = Some (appt_id old)
           /\ appt_patient_id old = App.session_user_id sess
           /\ slots db' = update_first
                            (slot_has_key (appt_doctor_id old) (appt_date old) (appt_time old))
                            (slot_set_is_available true) (slots db)
           /\ appointments db' = remove_first (appt_has_id (appt_id old)) (appointments db)).
Proof.
  unfold App.free_old_slot. destruct rid as [rid|]; [|cbn; auto].
  destruct (truthy (Some rid)); [|cbn; auto].
  destruct (get_appointment db rid) as [old|] eqn:G; [|cbn; auto].
  destruct (appt_patient_id old =? App.session_user_id sess) eqn:O; [|cbn; auto].
  assert (Hid : appt_id old = rid).
  { unfold get_appointment in G. apply find_some in G. destruct G as [_ G].
    apply Z.eqb_eq in G. exact G. }
  cbv zeta. split; [|split].
  - destruct (first_slot db _ _ _); reflexivity.
  - destruct (first_slot db _ _ _); reflexivity.
  - right. exists old. rewrite Hid. repeat split; auto.
    + apply Z.eqb_eq. exact O.
    + unfold first_slot.
      destruct (find _ (slots db)) eqn:F; cbn; [reflexivity|].
      rewrite (update_first_none _ _ _ F). reflexivity.
    + rewrite <- Hid. destruct (first_slot db _ _ _); reflexivity.
Qed.

(** ** Invariants of the reachable states *)

Lemma wf_same_slots (db db' : Database) :
  slots db' = slots db -> incl (users db) (users db') ->
  well_formed db -> well_formed db'.
Proof.
  intros Hs Hu [H1 H2]. split.
  - unfold slot_keys_unique. rewrite Hs. exact H1.
  - intros sl Hsl. rewrite Hs in Hsl. destruct (H2 sl Hsl) as [u [Hu1 Hu2]].
    exists u. split; [apply Hu; exact Hu1|exact Hu2].
Qed.

Lemma wf_updated (db db' : Database) (d dt : Z) (t : string) (b : bool) :
  slots db' = update_first (slot_has_key d dt t) (slot_set_is_available b) (slots db) ->
  users db' = users db ->
  well_formed db -> well_formed db'.
Proof.
  intros Hs Hu [H1 H2]. split.
  - unfold slot_keys_unique. rewrite Hs.
    rewrite (update_first_map slot_key); [exact H1|]. intros x. apply slot_key_set.
  - intros sl Hsl. rewrite Hs in Hsl. rewrite Hu.
    apply update_first_in in Hsl. destruct Hsl as [Hsl|[x [Hx [_ ->]]]].
    + exact (H2 sl Hsl).
    + exact (H2 x Hx).
Qed.

Lemma wf_create_appointment (db : Database) (p d dt : Z) (t : string)
    (r : option string) (n : option Z) :
  well_formed db -> well_formed (outcome_db (Models.create_appointment db p d dt t r n)).
Proof.
  intros Hwf.
  destruct (create_appointment_frame db p d dt t r n) as [Hu [_ [[_ ->]|[_ [Hs _]]]]].
  - exact Hwf.
  - exact (wf_updated _ _ _ _ _ _ Hs Hu Hwf).
Qed.

Lemma wf_free_old_slot (sess : App.Session) (rid : option Z) (db : Database) :
  well_formed db -> well_formed (App.free_old_slot sess rid db).
Proof.
  intros Hwf.
  destruct (free_old_slot_frame sess rid db) as [Hu [_ [->|[old [_ [_ [_ [Hs _]]]]]]]].
  - exact Hwf.
  - exact (wf_updated _ _ _ _ _ _ Hs Hu Hwf).
Qed.

Lemma book_appointment_db (sess : App.Session) (rid : option Z) (d dt : Z)
    (t reason : string) (db : Database) :
  App.session_role sess = "patient" ->
  fst (App.book_appointment (Some sess) rid d dt t reason db)
  = outcome_db (Models.create_appointment (App.free_old_slot sess rid db)
                  (App.session_user_id sess) d dt t (Some reason) None).
Proof.
  intros Hr. unfold App.book_appointment, App.role_required. rewrite Hr. cbn [existsb String.eqb Ascii.eqb Bool.eqb orb].
  destruct (Models.create_appointment _ _ _ _ _ _ _) as [db2 [[a|] m]|db2 e]; reflexivity.
Qed.

(** A request made without the role that the route asks for writes nothing. *)
Lemma role_required_refused (allowed : list string) (session : option App.Session)
    (db : Database) (f : App.Session -> Database * App.Response) :
  (forall sess, session = Some sess ->
     existsb (String.eqb (App.session_role sess)) allowed = false) ->
  fst (App.role_required allowed session db f) = db.
Proof.
  intros H. unfold App.role_required. destruct session as [sess|]; [|reflexivity].
  rewrite (H sess eq_refl). reflexivity.
Qed.

Lemma role_required_cases (allowed : list string) (session : option App.Session)
    (db : Database) (f : App.Session -> Database * App.Response) :
  fst (App.role_required allowed session db f) = db
  \/ exists sess, session = Some sess
       /\ existsb (String.eqb (App.session_role sess)) allowed = true
       /\ App.role_required allowed session db f = f sess.
Proof.
  unfold App.role_required. destruct session as [sess|]; [|left; reflexivity].
  destruct (existsb _ allowed) eqn:E; [|left; reflexivity].
  right. exists sess. auto.
Qed.

Lemma role_single (role : string) (sess : App.Session) :
  existsb (String.eqb (App.session_role sess)) [role] = true ->
  App.session_role sess = role.
Proof.
  cbn. rewrite orb_false_r. apply String.eqb_eq.
Qed.

Lemma signup_frame (name role : string) (today : Z) (db : Database) :
  let db' := App.signup name role today db in
  users db' = users db ++ [mkUser (next_id (map user_id (users db))) name role]
  /\ slots db' = slots db /\ appointments db' = appointments db
  /\ notifications db' = notifications db.
Proof.
  unfold App.signup, App.create_default_schedule.
  destruct (String.eqb role "doctor"); [|cbn; auto].
  destruct (App.schedule_loop _ _ _ _); cbn; auto.
Qed.

Lemma handle_well_formed (r : Request) (db : Database) :
  session_ok db (request_session r) -> well_formed db -> well_formed (handle r db).
Proof.
  intros Hsess Hwf. destruct r as [name role today|s date time b|s rid d dt t reason
                                   |s i|s i notes st|s i now]; cbn [handle request_session] in *.
  - destruct (signup_frame name role today db) as [Hu [Hs _]].
    apply (wf_same_slots db); [exact Hs| |exact Hwf].
    rewrite Hu. apply incl_appl. apply incl_refl.
  - destruct (role_required_cases ["doctor"] s db
                (fun sess =>
                   match first_slot db (App.session_user_id sess) date time with
                   | Some _ =>
                       (set_slots db (update_first (slot_has_key (App.session_user_id sess) date time)
                                        (slot_set_is_available b) (slots db)), App.JsonSuccess)
                   | None =>
                       (set_slots db (slots db ++ [mkSlot (next_id (map slot_id (slots db)))
                                                     (App.session_user_id sess) date time b]),
                        App.JsonSuccess)
                   end)) as [E|[sess [-> [_ E]]]];
      unfold App.toggle_slot; rewrite E; [exact Hwf|].
    unfold first_slot. destruct (find _ (slots db)) eqn:F; cbn [fst].
    + apply (wf_updated db _ (App.session_user_id sess) date time b); [reflexivity|reflexivity|exact Hwf].
    + destruct Hwf as [H1 H2]. split.
      * unfold slot_keys_unique. cbn [slots set_slots]. rewrite map_app. cbn [map].
        apply NoDup_app; [exact H1|repeat constructor; intros []|].
        intros k Hk [<-|[]]. apply in_map_iff in Hk. destruct Hk as [x [Hx1 Hx2]].
        apply (find_none _ _ F) in Hx2.
        assert (Hk : slot_has_key (App.session_user_id sess) date time x = true)
          by (apply slot_has_key_iff; exact Hx1).
        rewrite Hk in Hx2. discriminate.
      * intros sl Hsl. cbn [slots set_slots users] in *. apply in_app_or in Hsl.
        destruct Hsl as [Hsl|[<-|[]]]; [exact (H2 sl Hsl)|].
        destruct Hsess as [u [Hu ->]]. exists u. split; [exact Hu|reflexivity].
  - destruct (role_required_cases ["patient"] s db
                (fun sess =>
                   match Models.create_appointment (App.free_old_slot sess rid db)
                           (App.session_user_id sess) d dt t (Some reason) None with
                   | Returned db2 (Some _, _) =>
                       (db2, App.Redirect "patient_dashboard"
                               (Some ("Appointment booked successfully", "success")))
                   | Returned db2 (None, message) =>
                       (db2, App.Redirect "book_appointment" (Some (message, "error")))
                   | Raised db2 e => (db2, App.ServerError e)
                   end)) as [E|[sess [-> [Hr _]]]].
    + unfold App.book_appointment. rewrite E. exact Hwf.
    + rewrite (book_appointment_db _ _ _ _ _ _ _ (role_single _ _ Hr)).
      apply wf_create_appointment. apply wf_free_old_slot. exact Hwf.
  - unfold App.cancel_appointment.
    match goal with |- well_formed (fst (App.role_required ?a ?s ?d ?f)) =>
      destruct (role_required_cases a s d f) as [E|[sess [-> [_ E]]]]; rewrite E; [exact Hwf|]
    end.
    destruct (get_appointment db i) as [a|]; [|exact Hwf].
    destruct (negb _); [exact Hwf|]. cbn [fst].
    unfold first_slot. destruct (find _ (slots db)) eqn:F.
    + apply (wf_updated db _ (appt_doctor_id a) (appt_date a) (appt_time a) true);
        [reflexivity|reflexivity|exact Hwf].
    + apply (wf_same_slots db); [reflexivity|apply incl_refl|exact Hwf].
  - unfold App.doctor_appointment_detail.
    match goal with |- well_formed (fst (App.role_required ?a ?s ?d ?f)) =>
      destruct (role_required_cases a s d f) as [E|[sess [-> [_ E]]]]; rewrite E; [exact Hwf|]
    end.
    destruct (get_appointment db i) as [a|]; [|exact Hwf].
    destruct (negb _); [exact Hwf|].
    apply (wf_same_slots db); [reflexivity|apply incl_refl|exact Hwf].
  - unfold App.check_in_patient.
    match goal with |- well_formed (fst (App.role_required ?a ?s ?d ?f)) =>
      destruct (role_required_cases a s d f) as [E|[sess [-> [_ E]]]]; rewrite E; [exact Hwf|]
    end.
    destruct (get_appointment db i) as [a|]; [|exact Hwf].
    destruct (get_user _ _);
      (apply (wf_same_slots db); [reflexivity|apply incl_refl|exact Hwf]).
Qed.

Lemma reachable_well_formed (db : Database) : reachable db -> well_formed db.
Proof.
  induction 1 as [|db r _ IH Hs|db i _ IH|db ns ss _ IH].
  - split; [constructor|intros sl []].
  - apply handle_well_formed; assumption.
  - destruct (models_cancel_frame db i) as [Hu [Hs _]].
    apply (wf_same_slots db); [exact Hs|rewrite Hu; apply incl_refl|exact IH].
  - apply (wf_same_slots db); [reflexivity|apply incl_refl|exact IH].
Qed.

(** ** Booking *)

(** With both users on file, a booking of an open slot returns. *)
Lemma create_appointment_succeeds (db : Database) (p d dt : Z) (t : string)
    (r : option string) (n : option Z) (patient doctor : User) :
  get_user db p = Some patient -> get_user db d = Some doctor ->
  is_open db d dt t = true ->
  Models.create_appointment db p d dt t r n
  = Returned
      (set_notifications (booked_db db p d dt t r n)
         (insert_notifications
            (booking_notifications patient doctor (booked db p d dt t r n))
            (notifications db)))
      (Some (booked db p d dt t r n), "Appointment scheduled successfully").
Proof.
  intros Hp Hd Ho. rewrite (create_appointment_open _ _ _ _ _ _ _ Ho).
  unfold Models.create_appointment_notifications.
  assert (Hp' : get_user (booked_db db p d dt t r n)
                  (appt_patient_id (booked db p d dt t r n)) = Some patient) by exact Hp.
  assert (Hd' : get_user (booked_db db p d dt t r n)
                  (appt_doctor_id (booked db p d dt t r n)) = Some doctor) by exact Hd.
  rewrite Hp', Hd'. reflexivity.
Qed.


Lemma key_slots_single (db : Database) (d dt : Z) (t : string)
    (sl : DoctorAvailabilitySlot) :
  slot_keys_unique db -> In sl (slots db) -> slot_key sl = (d, dt, t) ->
  key_slots db d dt t = [sl].
Proof.
  intros Hu Hin Hk. unfold key_slots.
  assert (Hf : In sl (filter (slot_has_key d dt t) (slots db))).
  { apply filter_In. split; [exact Hin|]. apply slot_has_key_iff. exact Hk. }
  destruct (unique_filter_short d dt t (slots db) Hu) as [E|[x E]]; rewrite E in *.
  - destruct Hf.
  - destruct Hf as [->|[]]. reflexivity.
Qed.



(** C10, as the code has it.  For every patient and doctor that are rows of
    the user table, whatever their roles, and for every date, past ones
    included, [create_appointment] returns an appointment exactly when a
    slot row with that (doctor, date, time) exists with [is_available]
    true: no other precondition is checked. *)
Theorem create_appointment_checks_only_the_slot (db : Database)
    (patient doctor : User) (date : Z) (time : string) (reason : option string)
    (nurse_id : option Z) :
  In patient (users db) -> In doctor (users db) ->
  ((exists sl, In sl (slots db) /\ slot_key sl = (user_id doctor, date, time)
               /\ slot_is_available sl = true)
   <-> (exists db' a,
          Models.create_appointment db (user_id patient) (user_id doctor) date time
            reason nurse_id
          = Returned db' (Some a, "Appointment scheduled successfully")
          /\ appt_status a = "scheduled")).
Proof.
  intros Hp Hd.
  assert (Hp' : exists u, get_user db (user_id patient) = Some u)
    by (apply get_user_some_iff; eauto).
  assert (Hd' : exists u, get_user db (user_id doctor) = Some u)
    by (apply get_user_some_iff; eauto).
  destruct Hp' as [p Hp']. destruct Hd' as [d Hd']. split.
  - intros Hopen. apply is_open_iff in Hopen.
    rewrite (create_appointment_succeeds _ _ _ _ _ _ _ _ _ Hp' Hd' Hopen).
    eexists. eexists. split; reflexivity.
  - intros [db' [a [H _]]]. apply is_open_iff.
    destruct (is_open db (user_id doctor) date time) eqn:E; [reflexivity|].
    rewrite (create_appointment_closed _ _ _ _ _ _ _ E) in H. discriminate.
Qed.

(** ** Facts on the small clinic *)

Module DemoFacts.
Import Demo.

Lemma registered_users : users registered = [dana; pat; quinn; nell].
Proof. vm_compute. reflexivity. Defined.

Lemma registered_reachable : reachable registered.
Proof.
  unfold registered.
  do 4 (apply reach_request; [|exact I]). apply reach_empty.
Defined.

Lemma dana_session_ok (db : Database) :
  users db = users registered -> session_ok db (Some (App.login dana)).
Proof.
  intros H. exists dana. rewrite H. split; [vm_compute; left; reflexivity|reflexivity].
Defined.

Lemma pat_session_ok (db : Database) :
  users db = users registered -> session_ok db (Some (App.login pat)).
Proof.
  intros H. exists pat. rewrite H. split; [vm_compute; right; left; reflexivity|reflexivity].
Defined.

Lemma quinn_session_ok (db : Database) :
  users db = users registered -> session_ok db (Some (App.login quinn)).
Proof.
  intros H. exists quinn. rewrite H. split; [vm_compute; right; right; left; reflexivity|reflexivity].
Defined.

Lemma opened_reachable : reachable opened.
Proof.
  unfold opened.
  apply reach_request; [|apply dana_session_ok; vm_compute; reflexivity].
  apply reach_request; [|apply dana_session_ok; vm_compute; reflexivity].
  exact registered_reachable.
Defined.

Lemma booked_by_pat_reachable : reachable booked_by_pat.
Proof.
  unfold booked_by_pat.
  apply reach_request; [|apply pat_session_ok; vm_compute; reflexivity].
  exact opened_reachable.
Defined.

Lemma cancelled_by_dana_reachable : reachable cancelled_by_dana.
Proof.
  unfold cancelled_by_dana.
  apply reach_request; [|apply dana_session_ok; vm_compute; reflexivity].
  exact booked_by_pat_reachable.
Defined.

Lemma reopened_while_booked_reachable : reachable reopened_while_booked.
Proof.
  unfold reopened_while_booked.
  apply reach_request; [|apply dana_session_ok; vm_compute; reflexivity].
  exact booked_by_pat_reachable.
Defined.

End DemoFacts.


(** ** Bookings in the small clinic *)


Lemma monday_nine_open :
  exists sl, In sl (slots Demo.opened) /\ slot_key sl = (1, Demo.monday, "09:00")
             /\ slot_is_available sl = true.
Proof.
  exists (mkSlot 1 1 Demo.monday "09:00" true).
  split; [vm_compute; left; reflexivity|split; reflexivity].
Defined.


Lemma booking_returns (nurse_id : option Z) :
  Models.create_appointment Demo.opened 2 1 Demo.monday "09:00" None nurse_id
  = Returned
      (outcome_db (Models.create_appointment Demo.opened 2 1 Demo.monday "09:00" None
                     nurse_id))
      (Some (booked Demo.opened 2 1 Demo.monday "09:00" None nurse_id),
       "Appointment scheduled successfully").
Proof.
  rewrite (create_appointment_succeeds Demo.opened 2 1 Demo.monday "09:00" None nurse_id
             Demo.pat Demo.dana); reflexivity.
Defined.



(** Patient Pat and doctor Dana. *)
Lemma create_appointment_checks_only_the_slot_witness :
  (exists sl, In sl (slots Demo.opened)
              /\ slot_key sl = (user_id Demo.dana, Demo.monday, "09:00")
              /\ slot_is_available sl = true)
  <-> (exists db' a,
         Models.create_appointment Demo.opened (user_id Demo.pat) (user_id Demo.dana)
           Demo.monday "09:00" None None
         = Returned db' (Some a, "Appointment scheduled successfully")
         /\ appt_status a = "scheduled").
Proof.
  apply (create_appointment_checks_only_the_slot Demo.opened Demo.pat Demo.dana
           Demo.monday "09:00" None None).
  - vm_compute. right; left; reflexivity.
  - vm_compute. left; reflexivity.
Defined.

(** C10 as stated fails: patient id 99 is no row of the user table, the slot
    of Dana is open, and the call raises after it has stored the
    appointment and closed the slot, so no appointment is returned. *)
Lemma create_appointment_unknown_patient_raises :
  (exists sl, In sl (slots Demo.opened) /\ slot_key sl = (1, Demo.monday, "09:00")
              /\ slot_is_available sl = true)
  /\ get_user Demo.opened 99 = None
  /\ Models.create_appointment Demo.opened 99 1 Demo.monday "09:00" None None
     = Raised (booked_db Demo.opened 99 1 Demo.monday "09:00" None None) AttributeError
  /\ ~ (exists db' a msg,
          Models.create_appointment Demo.opened 99 1 Demo.monday "09:00" None None
          = Returned db' (Some a, msg)).
Proof.
  assert (E : Models.create_appointment Demo.opened 99 1 Demo.monday "09:00" None None
              = Raised (booked_db Demo.opened 99 1 Demo.monday "09:00" None None)
                  AttributeError) by (vm_compute; reflexivity).
  split; [exact monday_nine_open|split; [vm_compute; reflexivity|split; [exact E|]]].
  intros [db' [a [msg H]]]. rewrite E in H. discriminate H.
Qed.

(** ** The doctor's slot toggle *)

Lemma toggle_slot_db (sess : App.Session) (date : Z) (time : string) (b : bool)
    (db : Database) :
  App.session_role sess = "doctor" ->
  fst (App.toggle_slot (Some sess) date time b db)
  = match first_slot db (App.session_user_id sess) date time with
    | Some _ =>
        set_slots db
          (update_first (slot_has_key (App.session_user_id sess) date time)
             (slot_set_is_available b) (slots db))
    | None =>
        set_slots db
          (slots db ++ [mkSlot (next_id (map slot_id (slots db)))
                          (App.session_user_id sess) date time b])
    end.
Proof.
  intros Hr. unfold App.toggle_slot, App.role_required. rewrite Hr.
  cbn [existsb String.eqb Ascii.eqb Bool.eqb orb].
  destruct (first_slot db _ _ _); reflexivity.
Qed.

Lemma find_app_none {A : Type} (p : A -> bool) (l1 l2 : list A) :
  find p l1 = None -> find p (l1 ++ l2) = find p l2.
Proof.
  induction l1 as [|x l1 IH]; [reflexivity|].
  cbn. destruct (p x); [discriminate|exact IH].
Qed.

Lemma update_first_app_none {A : Type} (p : A -> bool) (f : A -> A) (l1 l2 : list A) :
  find p l1 = None -> update_first p f (l1 ++ l2) = l1 ++ update_first p f l2.
Proof.
  induction l1 as [|x l1 IH]; [reflexivity|].
  cbn. destruct (p x); [discriminate|]. intros H. rewrite (IH H). reflexivity.
Qed.

Lemma update_first_twice (d dt : Z) (t : string) (b : bool)
    (l : list DoctorAvailabilitySlot) :
  update_first (slot_has_key d dt t) (slot_set_is_available b)
    (update_first (slot_has_key d dt t) (slot_set_is_available b) l)
  = update_first (slot_has_key d dt t) (slot_set_is_available b) l.
Proof.
  induction l as [|x l IH]; [reflexivity|].
  cbn. destruct (slot_has_key d dt t x) eqn:E; cbn.
  - rewrite slot_has_key_set, E. reflexivity.
  - rewrite E, IH. reflexivity.
Qed.

Lemma find_update_first (d dt : Z) (t : string) (b : bool)
    (l : list DoctorAvailabilitySlot) :
  find (slot_has_key d dt t)
    (update_first (slot_has_key d dt t) (slot_set_is_available b) l)
  = option_map (slot_set_is_available b) (find (slot_has_key d dt t) l).
Proof.
  induction l as [|x l IH]; [reflexivity|].
  cbn. destruct (slot_has_key d dt t x) eqn:E; cbn.
  - rewrite slot_has_key_set, E. reflexivity.
  - rewrite E, IH. reflexivity.
Qed.

(** C7.  The doctor's slot toggle is an idempotent upsert.  In every
    reachable state, for a doctor's session and every date, time and flag:
    when no row has the key (doctor, date, time) one row is appended with
    the flag; when a row has it, that row's flag is overwritten and the
    table keeps its length; either way exactly one row has the key
    afterwards and keys stay unique; a second identical toggle changes
    nothing; and afterwards [is_open] equals the flag, where [is_open] is
    true exactly when a row with that key exists with [is_available] true, so
    that a key without a row is not open. *)
Theorem toggle_slot_idempotent_upsert (db : Database) (sess : App.Session)
    (date : Z) (time : string) (flag : bool) :
  reachable db -> App.session_role sess = "doctor" ->
  let doctor := App.session_user_id sess in
  let db' := fst (App.toggle_slot (Some sess) date time flag db) in
  (key_slots db doctor date time = [] ->
     slots db' = slots db ++ [mkSlot (next_id (map slot_id (slots db))) doctor date
                                time flag])
  /\ (forall sl, key_slots db doctor date time = [sl] ->
        slots db' = update_first (slot_has_key doctor date time)
                      (slot_set_is_available flag) (slots db)
        /\ List.length (slots db') = List.length (slots db))
  /\ (exists sl, key_slots db' doctor date time = [sl] /\ slot_is_available sl = flag)
  /\ slot_keys_unique db'
  /\ fst (App.toggle_slot (Some sess) date time flag db') = db'
  /\ is_open db' doctor date time = flag
  /\ (forall db0 d dt t,
        is_open db0 d dt t = true <->
        exists sl, In sl (slots db0) /\ slot_key sl = (d, dt, t)
                   /\ slot_is_available sl = true)
  /\ (forall db0 d dt t, key_slots db0 d dt t = [] -> is_open db0 d dt t = false).
Proof.
  intros Hreach Hrole doctor db'.
  destruct (reachable_well_formed db Hreach) as [Huniq _].
  assert (Hdb' : db' = match first_slot db doctor date time with
                       | Some _ =>
                           set_slots db
                             (update_first (slot_has_key doctor date time)
                                (slot_set_is_available flag) (slots db))
                       | None =>
                           set_slots db
                             (slots db ++ [mkSlot (next_id (map slot_id (slots db)))
                                             doctor date time flag])
                       end) by (apply toggle_slot_db; exact Hrole).
  assert (Hshape :
            (key_slots db doctor date time = []
             /\ db' = set_slots db
                        (slots db ++ [mkSlot (next_id (map slot_id (slots db)))
                                        doctor date time flag]))
            \/ (exists sl, key_slots db doctor date time = [sl]
                  /\ db' = set_slots db
                             (update_first (slot_has_key doctor date time)
                                (slot_set_is_available flag) (slots db)))).
  { rewrite Hdb'. unfold first_slot, key_slots. rewrite find_filter_head.
    destruct (unique_filter_short doctor date time (slots db) Huniq) as [E|[x E]];
      rewrite E; [left; auto|right; exists x; auto]. }
  assert (Hone : exists sl, key_slots db' doctor date time = [sl]
                            /\ slot_is_available sl = flag).
  { destruct Hshape as [[E ->]|[sl [E ->]]]; unfold key_slots in *; cbn [slots set_slots].
    - rewrite filter_app, E. cbn [filter app].
      assert (Hk : slot_has_key doctor date time
                     (mkSlot (next_id (map slot_id (slots db))) doctor date time flag)
                   = true) by (apply slot_has_key_iff; reflexivity).
      rewrite Hk. eexists. split; reflexivity.
    - rewrite filter_update_first_same, E. eexists. split; reflexivity. }
  split; [|split; [|split; [exact Hone|split; [|split; [|split; [|split]]]]]].
  - intros E. destruct Hshape as [[_ ->]|[sl [E' _]]]; [reflexivity|].
    rewrite E in E'. discriminate.
  - intros sl E. destruct Hshape as [[E' _]|[sl' [_ ->]]].
    + rewrite E in E'. discriminate.
    + cbn [slots set_slots]. split; [reflexivity|apply update_first_length].
  - destruct Hshape as [[E ->]|[sl [E ->]]]; unfold slot_keys_unique; cbn [slots set_slots].
    + rewrite map_app. cbn [map]. apply NoDup_app; [exact Huniq|repeat constructor; intros []|].
      intros k Hk [<-|[]]. apply in_map_iff in Hk. destruct Hk as [x [Hx1 Hx2]].
      assert (Hin : In x (key_slots db doctor date time)).
      { apply filter_In. split; [exact Hx2|]. apply slot_has_key_iff. exact Hx1. }
      rewrite E in Hin. destruct Hin.
    + rewrite (update_first_map slot_key); [exact Huniq|]. intros x. apply slot_key_set.
  - rewrite (toggle_slot_db _ _ _ _ _ Hrole). fold doctor.
    destruct Hshape as [[E ->]|[sl [E ->]]]; unfold first_slot, key_slots in *;
      cbn [slots set_slots].
    + assert (Hnone : find (slot_has_key doctor date time) (slots db) = None)
        by (rewrite find_filter_head, E; reflexivity).
      rewrite (find_app_none _ _ _ Hnone). cbn [find].
      assert (Hk : slot_has_key doctor date time
                     (mkSlot (next_id (map slot_id (slots db))) doctor date time flag)
                   = true) by (apply slot_has_key_iff; reflexivity).
      rewrite Hk. unfold set_slots. cbn [users slots appointments schedules notifications].
      f_equal. rewrite (update_first_app_none _ _ _ _ Hnone). cbn [update_first].
      rewrite Hk. reflexivity.
    + rewrite find_update_first, find_filter_head, E. cbn [option_map].
      unfold set_slots. cbn [users slots appointments schedules notifications].
      rewrite update_first_twice. reflexivity.
  - rewrite is_open_key_slots. destruct Hone as [sl [-> <-]]. cbn. apply orb_false_r.
  - intros db0 d dt t. apply is_open_iff.
  - intros db0 d dt t E. rewrite is_open_key_slots, E. reflexivity.
Qed.

(** Dana closes the slot she opened for Monday 09:00. *)
Lemma toggle_slot_idempotent_upsert_witness :
  is_open (fst (App.toggle_slot (Some (App.login Demo.dana)) Demo.monday "09:00" false
                  Demo.opened))
    (App.session_user_id (App.login Demo.dana)) Demo.monday "09:00" = false.
Proof.
  exact (proj1 (proj2 (proj2 (proj2 (proj2 (proj2
           (toggle_slot_idempotent_upsert Demo.opened (App.login Demo.dana) Demo.monday
              "09:00" false DemoFacts.opened_reachable eq_refl))))))).
Defined.

(** ** Seeding of the default schedule *)

Lemma days_from_in (n : nat) (start d : Z) :
  In d (days_from n start) <-> start <= d < start + Z.of_nat n.
Proof.
  revert start. induction n as [|n IH]; intros start.
  - cbn. lia.
  - cbn [days_from In]. rewrite IH. lia.
Qed.

Lemma days_from_nodup (n : nat) (start : Z) : NoDup (days_from n start).
Proof.
  revert start. induction n as [|n IH]; intros start; cbn; constructor.
  - rewrite days_from_in. lia.
  - apply IH.
Qed.

Lemma schedule_loop_days (doctor_id : Z) (n : nat) :
  forall (fuel : nat) (current_date : Z),
    (n <= fuel)%nat ->
    App.schedule_loop fuel doctor_id current_date (current_date + Z.of_nat n - 1)
    = Some (map (App.new_schedule doctor_id)
              (filter is_weekday (days_from n current_date))).
Proof.
  induction n as [|n IH]; intros fuel cur Hfuel.
  - assert (E : (cur <=? cur + Z.of_nat 0 - 1) = false) by (apply Z.leb_gt; lia).
    destruct fuel; cbn [App.schedule_loop]; rewrite E; reflexivity.
  - destruct fuel as [|fuel]; [lia|].
    assert (E : (cur <=? cur + Z.of_nat (S n) - 1) = true) by (apply Z.leb_le; lia).
    cbn [App.schedule_loop]. rewrite E.
    replace (cur + Z.of_nat (S n) - 1) with (cur + 1 + Z.of_nat n - 1) by lia.
    rewrite (IH fuel (cur + 1)) by lia.
    cbn [option_map days_from filter]. unfold is_weekday at 2.
    destruct (App.weekday cur <? 5); reflexivity.
Qed.

Lemma insert_schedules_appends (pending : list DoctorSchedule) :
  forall table, exists created,
    App.insert_schedules pending table = table ++ created
    /\ map sched_fields created = map sched_fields pending.
Proof.
  induction pending as [|r rest IH]; intros table.
  - exists []. cbn. rewrite app_nil_r. auto.
  - cbn [App.insert_schedules].
    destruct (IH (table ++ [mkSchedule (next_id (map sched_id table)) (sched_doctor_id r)
                              (sched_date r) (sched_start_time r) (sched_end_time r)
                              (sched_is_available r)])) as [created [H1 H2]].
    eexists (_ :: created). split.
    + rewrite H1, <- app_assoc. reflexivity.
    + cbn [map]. rewrite H2. reflexivity.
Qed.

Lemma count_occ_filter_nodup (p : Z -> bool) (l : list Z) (d : Z) :
  NoDup l -> In d l ->
  count_occ Z.eq_dec (filter p l) d = if p d then 1%nat else 0%nat.
Proof.
  intros Hnd Hin. destruct (p d) eqn:E.
  - apply (proj1 (NoDup_count_occ' Z.eq_dec (filter p l))).
    + apply NoDup_filter. exact Hnd.
    + apply filter_In. auto.
  - apply count_occ_not_In. intros H. apply filter_In in H. destruct H as [_ H].
    congruence.
Qed.


(** A seeding that starts on Saturday 2024-06-08: the first of the 21 rows
    is dated Monday 2024-06-10. *)
Example create_default_schedule_from_saturday :
  option_map (fun db => map sched_date (schedules db))
    (App.create_default_schedule 739045 1 empty_db)
  = Some [739047; 739048; 739049; 739050; 739051;
          739054; 739055; 739056; 739057; 739058;
          739061; 739062; 739063; 739064; 739065;
          739068; 739069; 739070; 739071; 739072;
          739075].
Proof. vm_compute. reflexivity. Qed.

(** ** Cancellation *)

Lemma find_update_first_same {A : Type} (p : A -> bool) (f : A -> A) (l : list A) :
  (forall x, p (f x) = p x) ->
  find p (update_first p f l) = option_map f (find p l).
Proof.
  intros Hp. induction l as [|x l IH]; [reflexivity|].
  cbn. destruct (p x) eqn:E; cbn.
  - rewrite Hp, E. reflexivity.
  - rewrite E. exact IH.
Qed.

(** Cancelling an appointment id that does not exist fails on both paths
    and writes nothing. *)
Lemma cancel_missing_appointment (db : Database) (session : option App.Session)
    (appointment_id : Z) :
  get_appointment db appointment_id = None ->
  fst (App.cancel_appointment session appointment_id db) = db
  /\ Models.cancel_appointment db appointment_id = Returned db false.
Proof.
  intros H. split.
  - unfold App.cancel_appointment, App.role_required.
    destruct session as [sess|]; [|reflexivity].
    destruct (existsb _ _); [|reflexivity]. rewrite H. reflexivity.
  - unfold Models.cancel_appointment. rewrite H. reflexivity.
Qed.

(** What the patient route does to an appointment of the caller: the slot
    under the appointment's key is opened and the row is deleted. *)
Lemma patient_cancel_db (db : Database) (sess : App.Session) (a : Appointment) :
  App.session_role sess = "patient" ->
  get_appointment db (appt_id a) = Some a ->
  appt_patient_id a = App.session_user_id sess ->
  fst (App.cancel_appointment (Some sess) (appt_id a) db)
  = delete_appointment
      (set_slots db
         (update_first (slot_has_key (appt_doctor_id a) (appt_date a) (appt_time a))
            (slot_set_is_available true) (slots db)))
      a.
Proof.
  intros Hr Hg Ho. unfold App.cancel_appointment, App.role_required. rewrite Hr.
  cbn [existsb String.eqb Ascii.eqb Bool.eqb orb]. rewrite Hg.
  rewrite Ho, Z.eqb_refl. cbn [negb fst]. unfold first_slot.
  destruct (find _ (slots db)) eqn:F; [reflexivity|].
  rewrite (update_first_none _ _ _ F). destruct db; reflexivity.
Qed.

(** C2 on the code.  Pat cancels the scheduled appointment 1 through the
    patient route: the slot is open again but the appointment row is gone,
    so no row carries the status ['cancelled'].  The helper of [models.py]
    on the same state keeps the row with status ['cancelled'] and adds the
    notifications, but leaves the slot closed. *)
Theorem cancel_paths_on_scheduled_appointment :
  let route :=
    fst (App.cancel_appointment (Some (App.login Demo.pat)) 1 Demo.booked_by_pat) in
  let helper := outcome_db (Models.cancel_appointment Demo.booked_by_pat 1) in
  option_map appt_status (get_appointment Demo.booked_by_pat 1) = Some "scheduled"
  /\ is_open Demo.booked_by_pat 1 Demo.monday "09:00" = false
  /\ is_open route 1 Demo.monday "09:00" = true
  /\ appointments route = []
  /\ option_map appt_status (get_appointment helper 1) = Some "cancelled"
  /\ is_open helper 1 Demo.monday "09:00" = false
  /\ List.length (notifications helper)
     = (2 + List.length (notifications Demo.booked_by_pat))%nat.
Proof. vm_compute. repeat split. Qed.

(** ** The doctor's status update *)

Lemma doctor_update_db (db : Database) (sess : App.Session) (a : Appointment)
    (appointment_id : Z) (notes status : string) :
  App.session_role sess = "doctor" ->
  get_appointment db appointment_id = Some a ->
  appt_doctor_id a = App.session_user_id sess ->
  fst (App.doctor_appointment_detail (Some sess) appointment_id notes status db)
  = set_appointments db
      (update_first (appt_has_id appointment_id)
         (fun x => appt_set_status status (appt_set_notes notes x)) (appointments db)).
Proof.
  intros Hr Hg Ho. unfold App.doctor_appointment_detail, App.role_required. rewrite Hr.
  cbn [existsb String.eqb Ascii.eqb Bool.eqb orb]. rewrite Hg, Ho, Z.eqb_refl.
  reflexivity.
Qed.

(** The update writes to the appointment table only. *)
Lemma doctor_update_frame (db : Database) (session : option App.Session)
    (appointment_id : Z) (notes status : string) :
  let db' := fst (App.doctor_appointment_detail session appointment_id notes status db) in
  users db' = users db /\ slots db' = slots db /\ schedules db' = schedules db
  /\ notifications db' = notifications db.
Proof.
  unfold App.doctor_appointment_detail, App.role_required.
  destruct session as [sess|]; [|cbn; auto].
  destruct (existsb _ _); [|cbn; auto].
  destruct (get_appointment db appointment_id); [|cbn; auto].
  destruct (negb _); cbn; auto.
Qed.




(** ** Requests by a patient who does not own the appointment *)

Lemma get_appointment_in (db : Database) (i : Z) (a : Appointment) :
  get_appointment db i = Some a -> In a (appointments db) /\ appt_id a = i.
Proof.
  intros H. apply find_some in H. destruct H as [H1 H2].
  apply Z.eqb_eq in H2. auto.
Qed.

Lemma free_old_slot_not_owner (db : Database) (sess : App.Session) (rid : Z)
    (old : Appointment) :
  get_appointment db rid = Some old ->
  appt_patient_id old <> App.session_user_id sess ->
  App.free_old_slot sess (Some rid) db = db.
Proof.
  intros Hg Hne. unfold App.free_old_slot. destruct (truthy (Some rid)); [|reflexivity].
  rewrite Hg. apply Z.eqb_neq in Hne. rewrite Hne. reflexivity.
Qed.

(** C6, as the code has it.  When the session's user is not the patient of
    the referenced appointment, the cancel route writes nothing at all.  The
    booking route with that appointment as [reschedule_id] leaves the old
    appointment in place and does not free its slot, and then goes on exactly
    as a booking without [reschedule_id]: the rows under the old
    appointment's key are unchanged unless the requested slot is that very
    key. *)
Theorem not_owner_cancel_and_reschedule (db : Database) (sess : App.Session)
    (rid : Z) (old : Appointment) (doctor_id date : Z) (time reason : string) :
  get_appointment db rid = Some old ->
  appt_patient_id old <> App.session_user_id sess ->
  let db' :=
    fst (App.book_appointment (Some sess) (Some rid) doctor_id date time reason db) in
  fst (App.cancel_appointment (Some sess) rid db) = db
  /\ App.book_appointment (Some sess) (Some rid) doctor_id date time reason db
     = App.book_appointment (Some sess) None doctor_id date time reason db
  /\ In old (appointments db')
  /\ get_appointment db' rid = Some old
  /\ ((doctor_id, date, time) <> appt_key old ->
      key_slots db' (appt_doctor_id old) (appt_date old) (appt_time old)
      = key_slots db (appt_doctor_id old) (appt_date old) (appt_time old)).
Proof.
  intros Hg Hne db'.
  assert (Hsame : App.book_appointment (Some sess) (Some rid) doctor_id date time reason db
                  = App.book_appointment (Some sess) None doctor_id date time reason db).
  { unfold App.book_appointment, App.role_required.
    destruct (existsb _ _); [|reflexivity].
    rewrite (free_old_slot_not_owner _ _ _ _ Hg Hne). reflexivity. }
  assert (Hshape : db' = db
                   \/ db' = outcome_db (Models.create_appointment db
                                          (App.session_user_id sess) doctor_id date time
                                          (Some reason) None)).
  { unfold db'. rewrite Hsame. unfold App.book_appointment, App.role_required.
    destruct (existsb _ _); [|left; reflexivity]. right. cbn [App.free_old_slot].
    destruct (Models.create_appointment _ _ _ _ _ _ _) as [db2 [[a|] m]|db2 e];
      reflexivity. }
  pose proof (create_appointment_frame db (App.session_user_id sess) doctor_id date time
                (Some reason) None) as Hframe. cbv zeta in Hframe.
  destruct Hframe as [_ [_ Hframe]].
  destruct (get_appointment_in _ _ _ Hg) as [Hin _].
  split; [|split; [exact Hsame|split; [|split]]].
  - unfold App.cancel_appointment, App.role_required.
    destruct (existsb _ _); [|reflexivity].
    rewrite Hg. apply Z.eqb_neq in Hne. rewrite Hne. reflexivity.
  - destruct Hshape as [->| ->]; [exact Hin|].
    destruct Hframe as [[_ ->]|[_ [_ ->]]]; [exact Hin|].
    apply in_or_app. left. exact Hin.
  - destruct Hshape as [->| ->]; [exact Hg|].
    destruct Hframe as [[_ ->]|[_ [_ Ha]]]; [exact Hg|].
    unfold get_appointment in *. rewrite Ha.
    clear - Hg. induction (appointments db) as [|x l IH]; [discriminate|].
    cbn in *. destruct (appt_has_id rid x); [exact Hg|apply IH; exact Hg].
  - intros Hk. destruct Hshape as [->| ->]; [reflexivity|].
    destruct Hframe as [[_ ->]|[_ [Hs _]]]; [reflexivity|].
    unfold key_slots. rewrite Hs. apply filter_update_first_other. exact Hk.
Qed.

(** Quinn, who is not the patient of appointment 1, asks to cancel it and to
    reschedule it to Monday 10:00. *)
Lemma not_owner_cancel_and_reschedule_witness :
  fst (App.cancel_appointment (Some (App.login Demo.quinn)) 1 Demo.booked_by_pat)
  = Demo.booked_by_pat
  /\ App.book_appointment (Some (App.login Demo.quinn)) (Some 1) 1 Demo.monday "10:00"
       "flu" Demo.booked_by_pat
     = App.book_appointment (Some (App.login Demo.quinn)) None 1 Demo.monday "10:00"
         "flu" Demo.booked_by_pat.
Proof.
  assert (Hg : get_appointment Demo.booked_by_pat 1
               = Some (mkAppointment 1 2 1 None Demo.monday "09:00" 30 "scheduled"
                         (Some "checkup") None false None))
    by (vm_compute; reflexivity).
  assert (Hne : appt_patient_id
                  (mkAppointment 1 2 1 None Demo.monday "09:00" 30 "scheduled"
                     (Some "checkup") None false None)
                <> App.session_user_id (App.login Demo.quinn))
    by (intros E; discriminate E).
  destruct (not_owner_cancel_and_reschedule Demo.booked_by_pat (App.login Demo.quinn)
              1 _ 1 Demo.monday "10:00" "flu" Hg Hne) as [H1 [H2 _]].
  split; [exact H1|exact H2].
Defined.

(** C6 as stated fails for the reschedule.  Quinn's request to reschedule
    Pat's appointment 1 to the open slot Monday 10:00 is answered with a new
    appointment for Quinn and the slot 10:00 closed. *)
Lemma not_owner_reschedule_still_books :
  let db' :=
    fst (App.book_appointment (Some (App.login Demo.quinn)) (Some 1) 1 Demo.monday
           "10:00" "flu" Demo.booked_by_pat) in
  option_map appt_patient_id (get_appointment Demo.booked_by_pat 1) = Some 2
  /\ App.session_user_id (App.login Demo.quinn) = 3
  /\ map appt_id (appointments Demo.booked_by_pat) = [1]
  /\ map (fun a => (appt_id a, appt_patient_id a, appt_status a)) (appointments db')
     = [(1, 2, "scheduled"); (2, 3, "scheduled")]
  /\ is_open Demo.booked_by_pat 1 Demo.monday "10:00" = true
  /\ is_open db' 1 Demo.monday "10:00" = false
  /\ db' <> Demo.booked_by_pat.
Proof.
  cbv zeta. repeat split; try (vm_compute; reflexivity).
  intros H.
  assert (E : is_open
                (fst (App.book_appointment (Some (App.login Demo.quinn)) (Some 1) 1
                        Demo.monday "10:00" "flu" Demo.booked_by_pat))
                1 Demo.monday "10:00" = true) by (rewrite H; vm_compute; reflexivity).
  vm_compute in E. discriminate E.
Qed.

(** ** Which operations write an appointment's status *)

Lemma update_first_in_or {A : Type} (p : A -> bool) (f : A -> A) (l : list A) (y : A) :
  In y l -> In y (update_first p f l) \/ In (f y) (update_first p f l).
Proof.
  induction l as [|x l IH]; cbn; [tauto|].
  intros [E|H]; destruct (p x); cbn; subst; auto.
  destruct (IH H); auto.
Qed.

Lemma create_appointment_keeps (db : Database) (p d dt : Z) (t : string)
    (r : option string) (n : option Z) (a : Appointment) :
  In a (appointments db) ->
  In a (appointments (outcome_db (Models.create_appointment db p d dt t r n))).
Proof.
  intros Hin. destruct (create_appointment_frame db p d dt t r n)
    as [_ [_ [[_ ->]|[_ [_ ->]]]]]; [exact Hin|].
  apply in_or_app. left. exact Hin.
Qed.

Lemma free_old_slot_keeps (sess : App.Session) (rid : option Z) (db : Database)
    (a : Appointment) :
  In a (appointments db) -> rid <> Some (appt_id a) ->
  In a (appointments (App.free_old_slot sess rid db)).
Proof.
  intros Hin Hne.
  destruct (free_old_slot_frame sess rid db)
    as [_ [_ [->|[old [_ [Hrid [_ [_ ->]]]]]]]]; [exact Hin|].
  apply remove_first_keeps; [exact Hin|].
  unfold appt_has_id. apply Z.eqb_neq. intros E. apply Hne. rewrite Hrid, E. reflexivity.
Qed.

Lemma patient_cancel_keeps (session : option App.Session) (i : Z) (db : Database)
    (a : Appointment) :
  In a (appointments db) -> i <> appt_id a ->
  In a (appointments (fst (App.cancel_appointment session i db))).
Proof.
  intros Hin Hne. unfold App.cancel_appointment, App.role_required.
  destruct session as [sess|]; [|exact Hin].
  destruct (existsb _ _); [|exact Hin].
  destruct (get_appointment db i) as [found|] eqn:G; [|exact Hin].
  destruct (negb _); [exact Hin|]. cbn [fst delete_appointment appointments].
  destruct (get_appointment_in _ _ _ G) as [_ Hid].
  assert (Hk : In a (remove_first (appt_has_id (appt_id found)) (appointments db))).
  { apply remove_first_keeps; [exact Hin|].
    unfold appt_has_id. apply Z.eqb_neq. congruence. }
  destruct (first_slot db _ _ _); exact Hk.
Qed.

(** C5, as the code has it.  Take any appointment row [a], whatever its
    status.  Sign-up, the slot toggle, a booking and the check-in leave a row
    with its id and its status; the patient cancel and the reschedule leave
    [a] itself unless it is the appointment they name, which they delete.
    The doctor's update leaves [a] unless it is the appointment named, and
    for the named appointment of that doctor it stores the submitted status
    whatever the current one is; [cancel_appointment] of [models.py] stores
    ['cancelled'] whatever the current status is.  A status that has left
    ['scheduled'] can therefore change again through these two. *)
Theorem appointment_status_writes (db : Database) (r : Request) (a : Appointment) :
  In a (appointments db) ->
  match r with
  | ReqDoctorUpdate s i notes st =>
      (i <> appt_id a -> In a (appointments (handle r db)))
      /\ (forall sess,
            s = Some sess -> App.session_role sess = "doctor" ->
            get_appointment db i = Some a ->
            appt_doctor_id a = App.session_user_id sess ->
            get_appointment (handle r db) i
            = Some (appt_set_status st (appt_set_notes notes a)))
  | ReqCancel _ i => i = appt_id a \/ In a (appointments (handle r db))
  | ReqBook _ rid _ _ _ _ => rid = Some (appt_id a) \/ In a (appointments (handle r db))
  | ReqSignup _ _ _ | ReqToggleSlot _ _ _ _ | ReqCheckIn _ _ _ =>
      exists a', In a' (appointments (handle r db))
                 /\ appt_id a' = appt_id a /\ appt_status a' = appt_status a
  end
  /\ (get_appointment db (appt_id a) = Some a ->
      get_appointment (outcome_db (Models.cancel_appointment db (appt_id a))) (appt_id a)
      = Some (appt_set_status "cancelled" a)).
Proof.
  intros Hin. split.
  - destruct r as [name role today|s date time b|s rid d dt t reason
                  |s i|s i notes st|s i now]; cbn [handle].
    + exists a. destruct (signup_frame name role today db) as [_ [_ [-> _]]]. auto.
    + exists a. split; [|auto]. unfold App.toggle_slot, App.role_required.
      destruct s as [sess|]; [|exact Hin]. destruct (existsb _ _); [|exact Hin].
      destruct (first_slot db _ _ _); exact Hin.
    + assert (Hdec : rid = Some (appt_id a) \/ rid <> Some (appt_id a)).
      { destruct rid as [x|]; [|right; discriminate].
        destruct (Z.eq_dec x (appt_id a)) as [->|Hx]; [left; reflexivity|].
        right. intros E. injection E as E. contradiction. }
      destruct Hdec as [E|E]; [left; exact E|].
      right. unfold App.book_appointment, App.role_required.
      destruct s as [sess|]; [|exact Hin]. destruct (existsb _ _); [|exact Hin].
      pose proof (create_appointment_keeps (App.free_old_slot sess rid db)
                    (App.session_user_id sess) d dt t (Some reason) None a
                    (free_old_slot_keeps sess rid db a Hin E)) as Hk.
      destruct (Models.create_appointment _ _ _ _ _ _ _) as [db2 [[x|] m]|db2 e];
        exact Hk.
    + destruct (Z.eq_dec i (appt_id a)) as [E|E]; [left; exact E|].
      right. apply patient_cancel_keeps; assumption.
    + split.
      * intros Hne. unfold App.doctor_appointment_detail, App.role_required.
        destruct s as [sess|]; [|exact Hin]. destruct (existsb _ _); [|exact Hin].
        destruct (get_appointment db i); [|exact Hin].
        destruct (negb _); [exact Hin|]. cbn [fst appointments set_appointments].
        apply update_first_keeps; [exact Hin|].
        unfold appt_has_id. apply Z.eqb_neq. congruence.
      * intros sess -> Hr Hg Ho. rewrite (doctor_update_db _ _ _ _ _ _ Hr Hg Ho).
        unfold get_appointment in *. cbn [appointments set_appointments].
        rewrite find_update_first_same; [rewrite Hg; reflexivity|]. intros x. reflexivity.
    + unfold App.check_in_patient, App.role_required.
      destruct s as [sess|]; [|exists a; auto].
      destruct (existsb _ _); [|exists a; auto].
      destruct (get_appointment db i) as [found|]; [|exists a; auto].
      assert (Hk : exists a',
                 In a' (update_first (appt_has_id i) (appt_set_checked_in now)
                          (appointments db))
                 /\ appt_id a' = appt_id a /\ appt_status a' = appt_status a).
      { destruct (update_first_in_or (appt_has_id i) (appt_set_checked_in now) _ _ Hin)
          as [H|H]; [exists a; auto|exists (appt_set_checked_in now a); auto]. }
      destruct (get_user _ _); exact Hk.
  - intros Hg. destruct (models_cancel_frame db (appt_id a)) as [_ [_ [_ Ha]]].
    unfold get_appointment in *. rewrite Ha. fold (get_appointment db (appt_id a)).
    unfold get_appointment. rewrite Hg.
    rewrite find_update_first_same; [rewrite Hg; reflexivity|]. intros x. reflexivity.
Qed.

(** Dana sets the cancelled appointment 1 back to ['scheduled']. *)
Lemma appointment_status_writes_witness :
  get_appointment
    (handle (ReqDoctorUpdate (Some (App.login Demo.dana)) 1 "back on" "scheduled")
       Demo.cancelled_by_dana) 1
  = Some (appt_set_status "scheduled"
            (appt_set_notes "back on"
               (mkAppointment 1 2 1 None Demo.monday "09:00" 30 "cancelled"
                  (Some "checkup") (Some "patient called") false None))).
Proof.
  assert (Hin : In (mkAppointment 1 2 1 None Demo.monday "09:00" 30 "cancelled"
                      (Some "checkup") (Some "patient called") false None)
                  (appointments Demo.cancelled_by_dana))
    by (vm_compute; left; reflexivity).
  assert (Hg : get_appointment Demo.cancelled_by_dana 1
               = Some (mkAppointment 1 2 1 None Demo.monday "09:00" 30 "cancelled"
                         (Some "checkup") (Some "patient called") false None))
    by (vm_compute; reflexivity).
  exact (proj2 (proj1 (appointment_status_writes Demo.cancelled_by_dana
                         (ReqDoctorUpdate (Some (App.login Demo.dana)) 1 "back on"
                            "scheduled") _ Hin))
           (App.login Demo.dana) eq_refl eq_refl Hg eq_refl).
Defined.

(** C5 as stated fails.  In a state the application reaches, appointment 1
    has status ['cancelled']; the doctor's update with status ['scheduled']
    brings it back, and an update with ['completed'] followed by the helper
    [cancel_appointment] takes it from ['completed'] to ['cancelled']. *)
Lemma cancelled_appointment_rescheduled_by_update :
  let back :=
    handle (ReqDoctorUpdate (Some (App.login Demo.dana)) 1 "back on" "scheduled")
      Demo.cancelled_by_dana in
  let done :=
    handle (ReqDoctorUpdate (Some (App.login Demo.dana)) 1 "seen" "completed")
      Demo.booked_by_pat in
  reachable Demo.cancelled_by_dana
  /\ option_map appt_status (get_appointment Demo.cancelled_by_dana 1) = Some "cancelled"
  /\ option_map appt_status (get_appointment back 1) = Some "scheduled"
  /\ option_map appt_status (get_appointment done 1) = Some "completed"
  /\ option_map appt_status
       (get_appointment (outcome_db (Models.cancel_appointment done 1)) 1)
     = Some "cancelled".
Proof.
  cbv zeta. split; [exact DemoFacts.cancelled_by_dana_reachable|].
  repeat split; vm_compute; reflexivity.
Qed.

(** ** The coupling of scheduled appointments and closed slots *)

Lemma key_eq_dec (k k' : Z * Z * string) : {k = k'} + {k <> k'}.
Proof.
  decide equality; [apply string_dec|]. decide equality; apply Z.eq_dec.
Qed.

Lemma update_first_in_find {A : Type} (p : A -> bool) (f : A -> A) (l : list A) (y : A) :
  In y (update_first p f l) ->
  In y l \/ exists x, find p l = Some x /\ y = f x.
Proof.
  induction l as [|x l IH]; cbn; [tauto|].
  destruct (p x) eqn:E; cbn.
  - intros [<-|H]; [right; exists x; auto|left; auto].
  - intros [<-|H]; [left; auto|].
    destruct (IH H) as [H1|H1]; [left; auto|right; exact H1].
Qed.

Lemma coupled_same_slots (db db' : Database) :
  slots db' = slots db ->
  (forall a', In a' (appointments db') -> appt_status a' = "scheduled" ->
     exists a, In a (appointments db) /\ appt_status a = "scheduled"
               /\ appt_key a = appt_key a') ->
  coupled db -> coupled db'.
Proof.
  intros Hs Ha Hc a' Hin Hst. destruct (Ha a' Hin Hst) as [a [H1 [H2 H3]]].
  destruct (Hc a H1 H2) as [sl [Hk Hav]]. exists sl. split; [|exact Hav].
  unfold appt_key in H3. injection H3 as E1 E2 E3.
  unfold key_slots in *. rewrite Hs, <- E1, <- E2, <- E3. exact Hk.
Qed.

Lemma coupled_update (db db' : Database) (d dt : Z) (t : string) (b : bool) :
  slot_keys_unique db -> coupled db ->
  slots db' = update_first (slot_has_key d dt t) (slot_set_is_available b) (slots db) ->
  (forall a', In a' (appointments db') -> appt_status a' = "scheduled" ->
     (exists a, In a (appointments db) /\ appt_status a = "scheduled"
                /\ appt_key a = appt_key a'
                /\ (b = true -> appt_key a' <> (d, dt, t)))
     \/ (b = false /\ appt_key a' = (d, dt, t) /\ key_slots db d dt t <> [])) ->
  coupled db'.
Proof.
  intros Hu Hc Hs Ha a' Hin Hst. unfold key_slots. rewrite Hs.
  destruct (key_eq_dec (d, dt, t) (appt_key a')) as [E|E].
  - unfold appt_key in E. injection E as E1 E2 E3. subst d dt t.
    rewrite filter_update_first_same.
    destruct (Ha a' Hin Hst) as [[a [H1 [H2 [H3 H4]]]]|[Hb [_ Hne]]].
    + destruct b; [exfalso; apply (H4 eq_refl); reflexivity|].
      destruct (Hc a H1 H2) as [sl [Hk Hav]].
      unfold appt_key in H3. injection H3 as F1 F2 F3.
      unfold key_slots in Hk. rewrite F1, F2, F3 in Hk. rewrite Hk.
      exists (slot_set_is_available false sl). split; reflexivity.
    + subst b.
      destruct (unique_filter_short (appt_doctor_id a') (appt_date a') (appt_time a')
                  (slots db) Hu) as [F|[x F]]; [contradiction|].
      rewrite F. exists (slot_set_is_available false x). split; reflexivity.
  - rewrite (filter_update_first_other _ _ _ _ _ _ _ _ E).
    destruct (Ha a' Hin Hst) as [[a [H1 [H2 [H3 _]]]]|[_ [Hk _]]].
    + destruct (Hc a H1 H2) as [sl [Hks Hav]]. exists sl. split; [|exact Hav].
      unfold appt_key in H3. injection H3 as E1 E2 E3.
      unfold key_slots in Hks. rewrite <- E1, <- E2, <- E3. exact Hks.
    + exfalso. apply E. symmetry. exact Hk.
Qed.

Lemma coupled_append (db db' : Database) (sl : DoctorAvailabilitySlot) :
  coupled db ->
  key_slots db (slot_doctor_id sl) (slot_date sl) (slot_time sl) = [] ->
  slots db' = slots db ++ [sl] -> appointments db' = appointments db ->
  coupled db'.
Proof.
  intros Hc Hnone Hs Ha a Hin Hst. rewrite Ha in Hin.
  destruct (Hc a Hin Hst) as [x [Hk Hav]]. exists x. split; [|exact Hav].
  unfold key_slots in *. rewrite Hs, filter_app, Hk. cbn [filter].
  destruct (slot_has_key (appt_doctor_id a) (appt_date a) (appt_time a) sl) eqn:E;
    [|reflexivity].
  exfalso. apply slot_has_key_iff in E. unfold slot_key in E. injection E as E1 E2 E3.
  rewrite E1, E2, E3, Hk in Hnone. discriminate.
Qed.

Lemma coupled_create_appointment (db : Database) (p d dt : Z) (t : string)
    (r : option string) (n : option Z) :
  slot_keys_unique db -> coupled db ->
  coupled (outcome_db (Models.create_appointment db p d dt t r n)).
Proof.
  intros Hu Hc.
  destruct (create_appointment_frame db p d dt t r n)
    as [_ [_ [[_ ->]|[Ho [Hs Ha]]]]]; [exact Hc|].
  apply (coupled_update db _ d dt t false Hu Hc Hs).
  intros a' Hin Hst. rewrite Ha in Hin. apply in_app_or in Hin.
  destruct Hin as [Hin|[<-|[]]].
  - left. exists a'. repeat split; auto. discriminate.
  - right. repeat split. intros E. rewrite is_open_key_slots, E in Ho. discriminate.
Qed.

Lemma coupled_reopen_and_delete (db db' : Database) (a : Appointment) :
  slot_keys_unique db -> coupled db -> no_other_scheduled db a ->
  slots db' = update_first (slot_has_key (appt_doctor_id a) (appt_date a) (appt_time a))
                (slot_set_is_available true) (slots db) ->
  appointments db' = remove_first (appt_has_id (appt_id a)) (appointments db) ->
  coupled db'.
Proof.
  intros Hu Hc Hno Hs Ha.
  apply (coupled_update db _ _ _ _ true Hu Hc Hs).
  intros a' Hin Hst. left. rewrite Ha in Hin. exists a'.
  split; [exact (remove_first_in _ _ _ Hin)|].
  split; [exact Hst|]. split; [reflexivity|]. intros _. exact (Hno a' Hin Hst).
Qed.

Lemma patient_cancel_frame (session : option App.Session) (i : Z) (db : Database) :
  let db' := fst (App.cancel_appointment session i db) in
  db' = db
  \/ exists a, get_appointment db i = Some a
       /\ slots db' = update_first
                        (slot_has_key (appt_doctor_id a) (appt_date a) (appt_time a))
                        (slot_set_is_available true) (slots db)
       /\ appointments db' = remove_first (appt_has_id (appt_id a)) (appointments db).
Proof.
  unfold App.cancel_appointment, App.role_required.
  destruct session as [sess|]; [|left; reflexivity].
  destruct (existsb _ _); [|left; reflexivity].
  destruct (get_appointment db i) as [a|]; [|left; reflexivity].
  destruct (negb _); [left; reflexivity|]. right. exists a.
  split; [reflexivity|]. cbn [fst]. unfold first_slot.
  destruct (find _ (slots db)) eqn:F; cbn; [auto|].
  rewrite (update_first_none _ _ _ F). auto.
Qed.

Lemma coupled_free_old_slot (sess : App.Session) (rid : option Z) (db : Database) :
  slot_keys_unique db -> coupled db ->
  (forall i a, rid = Some i -> get_appointment db i = Some a -> no_other_scheduled db a) ->
  coupled (App.free_old_slot sess rid db).
Proof.
  intros Hu Hc Hg.
  destruct (free_old_slot_frame sess rid db)
    as [_ [_ [->|[old [Hget [Hrid [_ [Hs Ha]]]]]]]]; [exact Hc|].
  exact (coupled_reopen_and_delete db _ old Hu Hc (Hg _ _ Hrid Hget) Hs Ha).
Qed.

(** C3, as the code has it.  Write the invariant as [coupled]: every
    scheduled appointment has exactly one slot row under its key, and that
    row is closed.  Together with the uniqueness of slot keys it is kept by
    sign-up, booking, check-in, the closing of a slot and
    [cancel_appointment] of [models.py]; by the opening of a slot when no
    scheduled appointment has the slot's key; by the doctor's update when
    the submitted status is not ['scheduled'] or the appointment already is
    scheduled; and by the patient cancel and the reschedule when no other
    scheduled appointment has the key of the appointment they remove. *)
Theorem coupling_kept_by_guarded_requests (db : Database) (r : Request) :
  session_ok db (request_session r) ->
  well_formed db -> coupled db -> keeps_coupling r db ->
  (well_formed (handle r db) /\ coupled (handle r db))
  /\ (forall i, coupled (outcome_db (Models.cancel_appointment db i))).
Proof.
  intros Hsess Hwf Hc Hguard. split; [split; [exact (handle_well_formed r db Hsess Hwf)|]|].
  - destruct Hwf as [Hu _].
    destruct r as [name role today|s date time b|s rid d dt t reason
                  |s i|s i notes st|s i now]; cbn [handle keeps_coupling] in *.
    + destruct (signup_frame name role today db) as [_ [Hs [Ha _]]].
      apply (coupled_same_slots db _ Hs); [|exact Hc].
      intros a' Hin Hst. rewrite Ha in Hin. exists a'. auto.
    + unfold App.toggle_slot, App.role_required.
      destruct s as [sess|]; [|exact Hc]. destruct (existsb _ _); [|exact Hc].
      unfold first_slot. destruct (find _ (slots db)) eqn:F; cbn [fst].
      * apply (coupled_update db _ (App.session_user_id sess) date time b Hu Hc);
          [reflexivity|].
        intros a' Hin Hst. left. exists a'. repeat split; auto.
        intros ->. destruct Hguard as [Hg|Hg]; [discriminate|].
        exact (Hg sess a' eq_refl Hin Hst).
      * apply (coupled_append db _
                 (mkSlot (next_id (map slot_id (slots db))) (App.session_user_id sess)
                    date time b) Hc); [|reflexivity|reflexivity].
        unfold key_slots. cbn [slot_doctor_id slot_date slot_time].
        pose proof (find_filter_head (slot_has_key (App.session_user_id sess) date time)
                      (slots db)) as Hh. rewrite F in Hh.
        destruct (filter _ (slots db)); [reflexivity|discriminate].
    + unfold App.book_appointment, App.role_required.
      destruct s as [sess|]; [|exact Hc]. destruct (existsb _ _); [|exact Hc].
      assert (Hc1 : coupled (App.free_old_slot sess rid db))
        by (apply coupled_free_old_slot; assumption).
      assert (Hu1 : slot_keys_unique (App.free_old_slot sess rid db)).
      { destruct (free_old_slot_frame sess rid db)
          as [_ [_ [->|[old [_ [_ [_ [Hs _]]]]]]]]; [exact Hu|].
        unfold slot_keys_unique. rewrite Hs.
        rewrite (update_first_map slot_key); [exact Hu|]. intros x. apply slot_key_set. }
      pose proof (coupled_create_appointment (App.free_old_slot sess rid db)
                    (App.session_user_id sess) d dt t (Some reason) None Hu1 Hc1) as Hk.
      destruct (Models.create_appointment _ _ _ _ _ _ _) as [db2 [[x|] m]|db2 e];
        exact Hk.
    + destruct (patient_cancel_frame s i db) as [->|[a [Hget [Hs Ha]]]]; [exact Hc|].
      exact (coupled_reopen_and_delete db _ a Hu Hc (Hguard a Hget) Hs Ha).
    + unfold App.doctor_appointment_detail, App.role_required.
      destruct s as [sess|]; [|exact Hc]. destruct (existsb _ _); [|exact Hc].
      destruct (get_appointment db i) as [found|] eqn:G; [|exact Hc].
      destruct (negb _); [exact Hc|]. cbn [fst].
      apply (coupled_same_slots db); [reflexivity| |exact Hc].
      cbn [appointments set_appointments]. intros a' Hin Hst.
      apply update_first_in_find in Hin. destruct Hin as [Hin|[x [Hx ->]]].
      * exists a'. auto.
      * fold (get_appointment db i) in Hx. rewrite G in Hx. injection Hx as <-.
        cbn [appt_status appt_set_status] in Hst.
        destruct Hguard as [Hg|Hg]; [contradiction|].
        exists found. destruct (get_appointment_in _ _ _ G) as [Hfin _].
        split; [exact Hfin|]. split; [exact (Hg found eq_refl)|reflexivity].
    + unfold App.check_in_patient, App.role_required.
      destruct s as [sess|]; [|exact Hc]. destruct (existsb _ _); [|exact Hc].
      destruct (get_appointment db i) as [found|] eqn:G; [|exact Hc].
      assert (Hk : forall a',
                 In a' (update_first (appt_has_id i) (appt_set_checked_in now)
                          (appointments db)) ->
                 appt_status a' = "scheduled" ->
                 exists a, In a (appointments db) /\ appt_status a = "scheduled"
                           /\ appt_key a = appt_key a').
      { intros a' Hin Hst. apply update_first_in in Hin.
        destruct Hin as [Hin|[x [Hx [_ ->]]]]; [exists a'; auto|exists x; auto]. }
      destruct (get_user _ _);
        (apply (coupled_same_slots db); [reflexivity|exact Hk|exact Hc]).
  - intros i. destruct (models_cancel_frame db i) as [_ [Hs [_ Ha]]].
    apply (coupled_same_slots db _ Hs); [|exact Hc].
    intros a' Hin Hst. rewrite Ha in Hin.
    destruct (get_appointment db i); [|exists a'; auto].
    apply update_first_in in Hin. destruct Hin as [Hin|[x [_ [_ ->]]]]; [exists a'; auto|].
    cbn [appt_status appt_set_status] in Hst. discriminate Hst.
Qed.

Lemma opened_coupled : coupled Demo.opened.
Proof.
  intros a Hin. vm_compute in Hin. destruct Hin.
Defined.

(** Pat's booking in [Demo.opened]. *)
Lemma coupling_kept_by_guarded_requests_witness :
  coupled (handle (ReqBook (Some (App.login Demo.pat)) None 1 Demo.monday "09:00"
                     "checkup") Demo.opened).
Proof.
  refine (proj2 (proj1
    (coupling_kept_by_guarded_requests Demo.opened
       (ReqBook (Some (App.login Demo.pat)) None 1 Demo.monday "09:00" "checkup")
       (DemoFacts.pat_session_ok Demo.opened _)
       (reachable_well_formed Demo.opened DemoFacts.opened_reachable)
       opened_coupled _))).
  - vm_compute. reflexivity.
  - intros i a E. discriminate E.
Defined.

(** C3 as stated fails.  After Pat's booking the invariant holds; Dana then
    toggles the booked slot open, which the route accepts, and in the state
    reached the scheduled appointment 1 has an open slot. *)
Lemma reopened_slot_breaks_coupling :
  reachable Demo.reopened_while_booked
  /\ coupled Demo.booked_by_pat
  /\ option_map appt_status (get_appointment Demo.reopened_while_booked 1)
     = Some "scheduled"
  /\ is_open Demo.reopened_while_booked 1 Demo.monday "09:00" = true
  /\ ~ coupled Demo.reopened_while_booked.
Proof.
  split; [exact DemoFacts.reopened_while_booked_reachable|].
  split; [|split; [vm_compute; reflexivity|split; [vm_compute; reflexivity|]]].
  - intros a Hin Hst. vm_compute in Hin. destruct Hin as [<-|[]].
    exists (mkSlot 1 1 Demo.monday "09:00" false). split; vm_compute; reflexivity.
  - intros Hc.
    destruct (Hc (mkAppointment 1 2 1 None Demo.monday "09:00" 30 "scheduled"
                    (Some "checkup") None false None)) as [sl [Hk Hav]].
    + vm_compute. left. reflexivity.
    + reflexivity.
    + vm_compute in Hk. injection Hk as <-. discriminate Hav.
Qed.

(** ** User ids *)

Lemma next_id_positive (ids : list Z) : 0 < next_id ids.
Proof.
  unfold next_id. assert (H : 0 <= fold_right Z.max 0 ids); [|lia].
  induction ids as [|x ids IH]; cbn [fold_right]; lia.
Qed.

Lemma handle_users (r : Request) (db : Database) :
  users (handle r db) = users db
  \/ exists name role,
       users (handle r db)
       = users db ++ [mkUser (next_id (map user_id (users db))) name role].
Proof.
  destruct r as [name role today|s date time b|s rid d dt t reason
                |s i|s i notes st|s i now]; cbn [handle].
  - right. exists name, role. apply signup_frame.
  - left. unfold App.toggle_slot, App.role_required.
    destruct s as [sess|]; [|reflexivity]. destruct (existsb _ _); [|reflexivity].
    destruct (first_slot db _ _ _); reflexivity.
  - left. unfold App.book_appointment, App.role_required.
    destruct s as [sess|]; [|reflexivity]. destruct (existsb _ _); [|reflexivity].
    destruct (create_appointment_frame (App.free_old_slot sess rid db)
                (App.session_user_id sess) d dt t (Some reason) None) as [Hu _].
    destruct (free_old_slot_frame sess rid db) as [Hu' _].
    destruct (Models.create_appointment _ _ _ _ _ _ _) as [db2 [[x|] m]|db2 e];
      cbn [fst outcome_db] in *; congruence.
  - left. destruct (patient_cancel_frame s i db) as [->|[a [_ _]]]; [reflexivity|].
    unfold App.cancel_appointment, App.role_required.
    destruct s as [sess|]; [|reflexivity]. destruct (existsb _ _); [|reflexivity].
    destruct (get_appointment db i); [|reflexivity].
    destruct (negb _); [reflexivity|]. destruct (first_slot db _ _ _); reflexivity.
  - left. apply doctor_update_frame.
  - left. unfold App.check_in_patient, App.role_required.
    destruct s as [sess|]; [|reflexivity]. destruct (existsb _ _); [|reflexivity].
    destruct (get_appointment db i); [|reflexivity].
    destruct (get_user _ _); reflexivity.
Qed.

(** No registered user has the id 0: keys are handed out from 1 upwards. *)
Lemma reachable_user_ids_positive (db : Database) :
  reachable db -> forall u, In u (users db) -> 0 < user_id u.
Proof.
  induction 1 as [|db r _ IH _|db i _ IH|db ns ss _ IH]; intros u Hu.
  - destruct Hu.
  - destruct (handle_users r db) as [E|[name [role E]]]; rewrite E in Hu.
    + exact (IH u Hu).
    + apply in_app_or in Hu. destruct Hu as [Hu|[<-|[]]]; [exact (IH u Hu)|].
      apply next_id_positive.
  - destruct (models_cancel_frame db i) as [E _]. rewrite E in Hu. exact (IH u Hu).
  - exact (IH u Hu).
Qed.

(** ** Notifications: marking as read *)

Lemma unread_after_update (i u : Z) (l : list Notification) (n : Notification) :
  find (Queries.notif_has_id i) l = Some n ->
  List.length
    (filter (fun x => (notif_user_id x =? u) && negb (notif_is_read x))
       (update_first (Queries.notif_has_id i) (Queries.notif_set_is_read true) l))
  = Nat.sub
      (List.length (filter (fun x => (notif_user_id x =? u) && negb (notif_is_read x)) l))
      (if (notif_user_id n =? u) && negb (notif_is_read n) then 1%nat else 0%nat).
Proof.
  induction l as [|x l IH]; [discriminate|].
  cbn [find update_first]. destruct (Queries.notif_has_id i x) eqn:E.
  - intros H. injection H as <-. cbn [filter notif_user_id notif_is_read
      Queries.notif_set_is_read].
    rewrite andb_false_r.
    destruct ((notif_user_id x =? u) && negb (notif_is_read x)); cbn [List.length]; lia.
  - intros H. cbn [filter]. specialize (IH H).
    destruct ((notif_user_id x =? u) && negb (notif_is_read x)) eqn:F; cbn [List.length].
    + rewrite IH.
      assert (Hin : In n l) by (apply find_some in H; tauto).
      destruct ((notif_user_id n =? u) && negb (notif_is_read n)) eqn:G; [|lia].
      assert (Hpos : le 1 (List.length
                             (filter (fun x0 => (notif_user_id x0 =? u)
                                                && negb (notif_is_read x0)) l))).
      { assert (Hf : In n (filter (fun x0 => (notif_user_id x0 =? u)
                                             && negb (notif_is_read x0)) l))
          by (apply filter_In; auto).
        destruct (filter _ l); [destruct Hf|cbn; lia]. }
      lia.
    + exact IH.
Qed.



(** X2.  After [mark_notification_read] of a notification, the unread
    count of the user it is addressed to is one less when the notification
    was unread and the same when it was read already; the unread count of
    every other user is the same. *)
Theorem unread_count_after_mark_read (db : Database) (notification_id : Z)
    (n : Notification) :
  Queries.get_notification db notification_id = Some n ->
  let db' := fst (Queries.mark_notification_read db notification_id) in
  Views.get_unread_count db' (notif_user_id n)
  = Nat.sub (Views.get_unread_count db (notif_user_id n))
      (if notif_is_read n then 0%nat else 1%nat)
  /\ (notif_is_read n = false -> le 1 (Views.get_unread_count db (notif_user_id n)))
  /\ (forall u, u <> notif_user_id n ->
        Views.get_unread_count db' u = Views.get_unread_count db u).
Proof.
  intros Hg db'. unfold db', Queries.mark_notification_read. rewrite Hg. cbn [fst].
  unfold Views.get_unread_count, Queries.get_notification in *.
  cbn [notifications set_notifications]. split; [|split].
  - rewrite (unread_after_update _ _ _ _ Hg). rewrite Z.eqb_refl. cbn [andb].
    destruct (notif_is_read n); reflexivity.
  - intros Hu.
    assert (Hf : In n (filter (fun x => (notif_user_id x =? notif_user_id n)
                                        && negb (notif_is_read x)) (notifications db))).
    { apply filter_In. split; [apply find_some in Hg; tauto|].
      rewrite Z.eqb_refl, Hu. reflexivity. }
    destruct (filter _ (notifications db)); [destruct Hf|cbn; lia].
  - intros u Hne. rewrite (unread_after_update _ _ _ _ Hg).
    assert (E : (notif_user_id n =? u) = false) by (apply Z.eqb_neq; congruence).
    rewrite E. cbn [andb]. lia.
Qed.

(** Dana has one unread notification after Pat's booking; reading it leaves
    none. *)
Lemma unread_count_after_mark_read_witness :
  Views.get_unread_count (fst (Queries.mark_notification_read Demo.booked_by_pat 1)) 1
  = Nat.sub (Views.get_unread_count Demo.booked_by_pat 1) 1%nat.
Proof.
  assert (Hg : Queries.get_notification Demo.booked_by_pat 1
               = Some (mkNotification 1 1 (Some 1)
                         (MsgNewAppointment "Pat" Demo.monday "09:00") false))
    by (vm_compute; reflexivity).
  exact (proj1 (unread_count_after_mark_read Demo.booked_by_pat 1 _ Hg)).
Defined.

(** ** Ordered appointment queries *)

Lemma insert_by_perm {A : Type} (leb : A -> A -> bool) (x : A) (l : list A) :
  Permutation (insert_by leb x l) (x :: l).
Proof.
  induction l as [|y l IH]; cbn [insert_by]; [apply Permutation_refl|].
  destruct (leb x y); [apply Permutation_refl|].
  apply Permutation_trans with (y :: x :: l); [|apply perm_swap].
  apply perm_skip. exact IH.
Qed.

Lemma order_by_perm {A : Type} (leb : A -> A -> bool) (l : list A) :
  Permutation (order_by leb l) l.
Proof.
  induction l as [|x l IH]; cbn [order_by]; [apply Permutation_refl|].
  apply Permutation_trans with (x :: order_by leb l); [apply insert_by_perm|].
  apply perm_skip. exact IH.
Qed.

Lemma insert_by_sorted {A : Type} (leb : A -> A -> bool) (x : A) (l : list A) :
  (forall a b, leb a b = true \/ leb b a = true) ->
  Sorted (fun a b => leb a b = true) l ->
  Sorted (fun a b => leb a b = true) (insert_by leb x l).
Proof.
  intros Htot. induction l as [|y l IH]; intros Hs; cbn [insert_by].
  - repeat constructor.
  - destruct (leb x y) eqn:E.
    + constructor; [exact Hs|constructor; exact E].
    + inversion Hs as [|y' l' Hs' Hhd]; subst. constructor; [exact (IH Hs')|].
      destruct l as [|z l]; cbn [insert_by].
      * constructor. destruct (Htot x y) as [H|H]; [congruence|exact H].
      * destruct (leb x z).
        -- constructor. destruct (Htot x y) as [H|H]; [congruence|exact H].
        -- inversion Hhd; subst. constructor. assumption.
Qed.

Lemma order_by_sorted {A : Type} (leb : A -> A -> bool) (l : list A) :
  (forall a b, leb a b = true \/ leb b a = true) ->
  Sorted (fun a b => leb a b = true) (order_by leb l).
Proof.
  intros Htot. induction l as [|x l IH]; cbn [order_by]; [constructor|].
  apply insert_by_sorted; assumption.
Qed.

Lemma date_time_leb_iff (a b : Appointment) :
  date_time_leb a b = true <->
  appt_date a < appt_date b
  \/ (appt_date a = appt_date b /\ String.leb (appt_time a) (appt_time b) = true).
Proof.
  unfold date_time_leb. rewrite orb_true_iff, andb_true_iff, Z.ltb_lt, Z.eqb_eq.
  tauto.
Qed.

Lemma date_time_leb_total (a b : Appointment) :
  date_time_leb a b = true \/ date_time_leb b a = true.
Proof.
  rewrite !date_time_leb_iff.
  destruct (Z.lt_trichotomy (appt_date a) (appt_date b)) as [H|[H|H]]; [auto| |auto].
  destruct (String.leb_total (appt_time a) (appt_time b)); [left|right]; right; auto.
Qed.

Lemma sorted_by_date_time (l : list Appointment) :
  Sorted (fun a b => date_time_leb a b = true) l ->
  Sorted (fun a b => appt_date a < appt_date b
                     \/ (appt_date a = appt_date b
                         /\ String.leb (appt_time a) (appt_time b) = true)) l.
Proof.
  induction 1 as [|a l Hs IH Hhd]; constructor; [exact IH|].
  destruct Hhd; constructor. apply date_time_leb_iff. assumption.
Qed.

Lemma filter_filter_and {A : Type} (p q : A -> bool) (l : list A) :
  filter q (filter p l) = filter (fun x => p x && q x) l.
Proof.
  induction l as [|x l IH]; [reflexivity|].
  cbn [filter]. destruct (p x); cbn [filter andb]; [|exact IH].
  destruct (q x); rewrite IH; reflexivity.
Qed.

Lemma filter_perm {A : Type} (p : A -> bool) (l l' : list A) :
  Permutation l l' -> Permutation (filter p l) (filter p l').
Proof.
  induction 1 as [|x l l' _ IH|x y l|l l' l'' _ IH1 _ IH2]; cbn [filter].
  - constructor.
  - destruct (p x); [apply perm_skip|]; exact IH.
  - destruct (p x), (p y); try apply Permutation_refl. apply perm_swap.
  - exact (Permutation_trans IH1 IH2).
Qed.

(** X3.  [get_doctor_appointments] returns the appointments of the doctor,
    those of the given date when a date is given, each row once and no
    other row, ordered by date and, within a date, by time. *)
Theorem get_doctor_appointments_sorted (db : Database) (doctor_id : Z)
    (date : option Z) :
  let result := Queries.get_doctor_appointments db doctor_id date in
  Sorted (fun a b => appt_date a < appt_date b
                     \/ (appt_date a = appt_date b
                         /\ String.leb (appt_time a) (appt_time b) = true)) result
  /\ Permutation result
       (filter (fun a => (appt_doctor_id a =? doctor_id)
                         && match date with
                            | Some d => appt_date a =? d
                            | None => true
                            end) (appointments db))
  /\ (forall a, In a result <->
        In a (appointments db) /\ appt_doctor_id a = doctor_id
        /\ (forall d, date = Some d -> appt_date a = d)).
Proof.
  cbv zeta. unfold Queries.get_doctor_appointments.
  assert (Hq : match date with
               | Some d => filter (fun a => appt_date a =? d)
                             (filter (fun a => appt_doctor_id a =? doctor_id)
                                (appointments db))
               | None => filter (fun a => appt_doctor_id a =? doctor_id) (appointments db)
               end
               = filter (fun a => (appt_doctor_id a =? doctor_id)
                                  && match date with
                                     | Some d => appt_date a =? d
                                     | None => true
                                     end) (appointments db)).
  { destruct date as [d|]; [apply filter_filter_and|].
    apply filter_ext. intros a. rewrite andb_true_r. reflexivity. }
  rewrite Hq. split; [|split].
  - apply sorted_by_date_time, order_by_sorted. exact date_time_leb_total.
  - apply order_by_perm.
  - intros a. split.
    + intros H. apply (Permutation_in _ (order_by_perm _ _)) in H.
      apply filter_In in H. destruct H as [H1 H2]. apply andb_true_iff in H2.
      destruct H2 as [H2 H3]. apply Z.eqb_eq in H2. repeat split; auto.
      intros d ->. apply Z.eqb_eq. exact H3.
    + intros [H1 [H2 H3]].
      apply (Permutation_in _ (Permutation_sym (order_by_perm _ _))).
      apply filter_In. split; [exact H1|]. apply andb_true_iff. split.
      * apply Z.eqb_eq. exact H2.
      * destruct date as [d|]; [|reflexivity]. apply Z.eqb_eq. exact (H3 d eq_refl).
Qed.

(** X4.  [get_patient_appointments] without [include_past] returns, in
    date-and-time order, exactly the patient's appointments dated today or
    later: the rows of the call with [include_past] whose date is not before
    today, each once; an appointment dated today is kept. *)
Theorem get_patient_appointments_upcoming (db : Database) (patient_id today : Z) :
  let upcoming := Queries.get_patient_appointments db patient_id false today in
  let every := Queries.get_patient_appointments db patient_id true today in
  Sorted (fun a b => appt_date a < appt_date b
                     \/ (appt_date a = appt_date b
                         /\ String.leb (appt_time a) (appt_time b) = true)) upcoming
  /\ Permutation upcoming (filter (fun a => today <=? appt_date a) every)
  /\ (forall a, In a upcoming <-> In a every /\ today <= appt_date a)
  /\ (forall a, In a every <-> In a (appointments db) /\ appt_patient_id a = patient_id).
Proof.
  cbv zeta. unfold Queries.get_patient_appointments. cbn [negb].
  assert (Hperm : Permutation
                    (order_by date_time_leb
                       (filter (fun a => today <=? appt_date a)
                          (filter (fun a => appt_patient_id a =? patient_id)
                             (appointments db))))
                    (filter (fun a => today <=? appt_date a)
                       (order_by date_time_leb
                          (filter (fun a => appt_patient_id a =? patient_id)
                             (appointments db))))).
  { apply Permutation_trans with
      (filter (fun a => today <=? appt_date a)
         (filter (fun a => appt_patient_id a =? patient_id) (appointments db)));
      [apply order_by_perm|].
    apply filter_perm. apply Permutation_sym. apply order_by_perm. }
  split; [|split; [exact Hperm|split]].
  - apply sorted_by_date_time, order_by_sorted. exact date_time_leb_total.
  - intros a. split.
    + intros H. apply (Permutation_in _ Hperm) in H. apply filter_In in H.
      destruct H as [H1 H2]. apply Z.leb_le in H2. auto.
    + intros [H1 H2]. apply (Permutation_in _ (Permutation_sym Hperm)).
      apply filter_In. split; [exact H1|]. apply Z.leb_le. exact H2.
  - intros a. split.
    + intros H. apply (Permutation_in _ (order_by_perm _ _)) in H.
      apply filter_In in H. destruct H as [H1 H2]. apply Z.eqb_eq in H2. auto.
    + intros [H1 H2]. apply (Permutation_in _ (Permutation_sym (order_by_perm _ _))).
      apply filter_In. split; [exact H1|]. apply Z.eqb_eq. exact H2.
Qed.

(** ** Who may write *)

(** X5.  A request made without a login, or with a login whose role is not
    the one the route asks for (doctor for the slot toggle and the
    appointment update, patient for booking and cancelling, nurse for the
    check-in), leaves the database as it was. *)
Theorem wrong_role_writes_nothing (r : Request) (db : Database) :
  match r with
  | ReqSignup _ _ _ => False
  | ReqToggleSlot (Some sess) _ _ _ | ReqDoctorUpdate (Some sess) _ _ _ =>
      App.session_role sess <> "doctor"
  | ReqBook (Some sess) _ _ _ _ _ | ReqCancel (Some sess) _ =>
      App.session_role sess <> "patient"
  | ReqCheckIn (Some sess) _ _ => App.session_role sess <> "nurse"
  | _ => True
  end ->
  handle r db = db.
Proof.
  assert (Hrole : forall (role : string) sess,
             App.session_role sess <> role ->
             existsb (String.eqb (App.session_role sess)) [role] = false).
  { intros role sess H. cbn. rewrite orb_false_r. apply String.eqb_neq. exact H. }
  destruct r as [name role today|s date time b|s rid d dt t reason
                |s i|s i notes st|s i now]; cbn [handle]; intros H;
    [destruct H| | | | |];
    (destruct s as [sess|]; [|reflexivity]).
  - unfold App.toggle_slot, App.role_required. rewrite (Hrole _ _ H). reflexivity.
  - unfold App.book_appointment, App.role_required. rewrite (Hrole _ _ H). reflexivity.
  - unfold App.cancel_appointment, App.role_required. rewrite (Hrole _ _ H). reflexivity.
  - unfold App.doctor_appointment_detail, App.role_required.
    rewrite (Hrole _ _ H). reflexivity.
  - unfold App.check_in_patient, App.role_required. rewrite (Hrole _ _ H). reflexivity.
Qed.

(** Pat, a patient, posts to the doctor's slot toggle. *)
Lemma wrong_role_writes_nothing_witness :
  handle (ReqToggleSlot (Some (App.login Demo.pat)) Demo.monday "09:00" true)
    Demo.booked_by_pat
  = Demo.booked_by_pat.
Proof.
  apply (wrong_role_writes_nothing
           (ReqToggleSlot (Some (App.login Demo.pat)) Demo.monday "09:00" true)).
  intros E. discriminate E.
Defined.

(** X6.  The appointment update of a doctor answers an id that is absent
    with not-found and an appointment of another doctor with the
    unauthorized redirect; in both cases nothing is written. *)
Theorem doctor_update_of_foreign_appointment (db : Database) (sess : App.Session)
    (appointment_id : Z) (notes status : string) :
  App.session_role sess = "doctor" ->
  (forall a, get_appointment db appointment_id = Some a ->
     appt_doctor_id a <> App.session_user_id sess) ->
  App.doctor_appointment_detail (Some sess) appointment_id notes status db
  = (db, match get_appointment db appointment_id with
         | None => App.NotFound
         | Some _ =>
             App.Redirect "doctor_dashboard" (Some ("Unauthorized access", "error"))
         end).
Proof.
  intros Hr Hne. unfold App.doctor_appointment_detail, App.role_required. rewrite Hr.
  cbn [existsb String.eqb Ascii.eqb Bool.eqb orb].
  destruct (get_appointment db appointment_id) as [a|]; [|reflexivity].
  assert (E : (appt_doctor_id a =? App.session_user_id sess) = false)
    by (apply Z.eqb_neq; exact (Hne a eq_refl)).
  rewrite E. reflexivity.
Qed.

(** A session of user 3 with the role of a doctor asks for Dana's
    appointment 1. *)
Lemma doctor_update_of_foreign_appointment_witness :
  App.doctor_appointment_detail
    (Some (App.mkSession 3 "doctor" "Quinn")) 1 "mine now" "completed"
    Demo.booked_by_pat
  = (Demo.booked_by_pat,
     match get_appointment Demo.booked_by_pat 1 with
     | None => App.NotFound
     | Some _ => App.Redirect "doctor_dashboard" (Some ("Unauthorized access", "error"))
     end).
Proof.
  apply (doctor_update_of_foreign_appointment Demo.booked_by_pat
           (App.mkSession 3 "doctor" "Quinn") 1 "mine now" "completed" eq_refl).
  intros a Ha.
  assert (Hg : get_appointment Demo.booked_by_pat 1
               = Some (mkAppointment 1 2 1 None Demo.monday "09:00" 30 "scheduled"
                         (Some "checkup") None false None))
    by (vm_compute; reflexivity).
  rewrite Hg in Ha. injection Ha as <-. intros E. discriminate E.
Defined.

(** ** What no request removes *)

Lemma update_first_id_key (d dt : Z) (t : string) (b : bool)
    (l : list DoctorAvailabilitySlot) :
  map (fun sl => (slot_id sl, slot_key sl))
    (update_first (slot_has_key d dt t) (slot_set_is_available b) l)
  = map (fun sl => (slot_id sl, slot_key sl)) l.
Proof. apply update_first_map. intros x. reflexivity. Qed.

(** X7.  No request deletes a slot row or changes the id or the key
    (doctor, date, time) of one: the rows after a request are the rows
    before it, in the same order, followed by at most one new row, and only
    the slot toggle adds a row.  [cancel_appointment] of [models.py] leaves
    the slot table as it is. *)
Theorem slot_rows_persist (r : Request) (db : Database) :
  (exists added,
     map (fun sl => (slot_id sl, slot_key sl)) (slots (handle r db))
     = map (fun sl => (slot_id sl, slot_key sl)) (slots db) ++ added
     /\ (List.length added <= 1)%nat
     /\ match r with
        | ReqToggleSlot _ _ _ _ => True
        | _ => added = []
        end)
  /\ (forall i, slots (outcome_db (Models.cancel_appointment db i)) = slots db).
Proof.
  split; [|intros i; apply models_cancel_frame].
  assert (Hsame : forall db', slots db' = slots db ->
            exists added,
              map (fun sl => (slot_id sl, slot_key sl)) (slots db')
              = map (fun sl => (slot_id sl, slot_key sl)) (slots db) ++ added
              /\ (List.length added <= 1)%nat /\ added = []).
  { intros db' E. exists []. rewrite E, app_nil_r. cbn. auto. }
  assert (Hupd : forall db' d dt t b,
            slots db' = update_first (slot_has_key d dt t) (slot_set_is_available b)
                          (slots db) ->
            exists added,
              map (fun sl => (slot_id sl, slot_key sl)) (slots db')
              = map (fun sl => (slot_id sl, slot_key sl)) (slots db) ++ added
              /\ (List.length added <= 1)%nat /\ added = []).
  { intros db' d dt t b E. exists []. rewrite E, update_first_id_key, app_nil_r.
    cbn. auto. }
  destruct r as [name role today|s date time b|s rid d dt t reason
                |s i|s i notes st|s i now]; cbn [handle].
  - apply Hsame. apply signup_frame.
  - unfold App.toggle_slot, App.role_required.
    destruct s as [sess|];
      [|exists []; cbn [fst]; rewrite app_nil_r; cbn; auto].
    destruct (existsb _ _); [|exists []; cbn [fst]; rewrite app_nil_r; cbn; auto].
    destruct (first_slot db _ _ _); cbn [fst slots set_slots].
    + exists []. rewrite update_first_id_key, app_nil_r. cbn. auto.
    + eexists. rewrite map_app. split; [reflexivity|]. cbn. auto.
  - unfold App.book_appointment, App.role_required.
    destruct s as [sess|]; [|apply Hsame; reflexivity].
    destruct (existsb _ _); [|apply Hsame; reflexivity].
    pose proof (create_appointment_frame (App.free_old_slot sess rid db)
                  (App.session_user_id sess) d dt t (Some reason) None) as Hc.
    cbv zeta in Hc. destruct Hc as [_ [_ Hc]].
    assert (Hfree : map (fun sl => (slot_id sl, slot_key sl))
                      (slots (App.free_old_slot sess rid db))
                    = map (fun sl => (slot_id sl, slot_key sl)) (slots db)).
    { destruct (free_old_slot_frame sess rid db)
        as [_ [_ [->|[old [_ [_ [_ [Hs _]]]]]]]]; [reflexivity|].
      rewrite Hs. apply update_first_id_key. }
    assert (Hout : map (fun sl => (slot_id sl, slot_key sl))
                     (slots (outcome_db
                               (Models.create_appointment (App.free_old_slot sess rid db)
                                  (App.session_user_id sess) d dt t (Some reason) None)))
                   = map (fun sl => (slot_id sl, slot_key sl)) (slots db)).
    { destruct Hc as [[_ ->]|[_ [Hs _]]]; [exact Hfree|].
      rewrite Hs, update_first_id_key. exact Hfree. }
    exists []. rewrite app_nil_r. split; [|cbn; auto].
    destruct (Models.create_appointment _ _ _ _ _ _ _) as [db2 [[x|] m]|db2 e];
      exact Hout.
  - destruct (patient_cancel_frame s i db) as [->|[a [_ [Hs _]]]];
      [apply Hsame; reflexivity|exact (Hupd _ _ _ _ _ Hs)].
  - apply Hsame. apply doctor_update_frame.
  - apply Hsame. unfold App.check_in_patient, App.role_required.
    destruct s as [sess|]; [|reflexivity]. destruct (existsb _ _); [|reflexivity].
    destruct (get_appointment db i); [|reflexivity].
    destruct (get_user _ _); reflexivity.
Qed.

(** X8.  The slot toggle of a doctor writes under the key (that doctor,
    date, time) only: the rows under every other key, those of other
    doctors among them, are as before, and so are the user and the
    appointment tables. *)
Theorem toggle_slot_touches_one_key (db : Database) (sess : App.Session) (date : Z)
    (time : string) (flag : bool) (d' dt' : Z) (t' : string) :
  (d', dt', t') <> (App.session_user_id sess, date, time) ->
  let db' := fst (App.toggle_slot (Some sess) date time flag db) in
  key_slots db' d' dt' t' = key_slots db d' dt' t'
  /\ users db' = users db /\ appointments db' = appointments db
  /\ notifications db' = notifications db.
Proof.
  intros Hne. cbv zeta. unfold App.toggle_slot, App.role_required.
  destruct (existsb _ _); [|auto].
  destruct (first_slot db _ _ _); cbn [fst]; (split; [|auto]); unfold key_slots;
    cbn [slots set_slots].
  - apply filter_update_first_other. congruence.
  - rewrite filter_app. cbn [filter].
    assert (E : slot_has_key d' dt' t'
                  (mkSlot (next_id (map slot_id (slots db))) (App.session_user_id sess)
                     date time flag) = false).
    { destruct (slot_has_key d' dt' t' _) eqn:E; [|reflexivity].
      apply slot_has_key_iff in E. unfold slot_key in E. cbn in E. congruence. }
    rewrite E. apply app_nil_r.
Qed.

(** Dana closes her 10:00 slot; the rows under 09:00 are not touched. *)
Lemma toggle_slot_touches_one_key_witness :
  key_slots
    (fst (App.toggle_slot (Some (App.login Demo.dana)) Demo.monday "10:00" false
            Demo.booked_by_pat)) 1 Demo.monday "09:00"
  = key_slots Demo.booked_by_pat 1 Demo.monday "09:00".
Proof.
  refine (proj1 (toggle_slot_touches_one_key Demo.booked_by_pat (App.login Demo.dana)
                   Demo.monday "10:00" false 1 Demo.monday "09:00" _)).
  intros E. discriminate E.
Defined.

(** ** Primary keys and references in the reachable states *)

Lemma next_id_above (ids : list Z) (x : Z) : In x ids -> x < next_id ids.
Proof.
  unfold next_id. induction ids as [|y ids IH]; cbn [In fold_right]; [tauto|].
  intros [->|H]; [lia|]. specialize (IH H). lia.
Qed.

Lemma next_id_fresh (ids : list Z) : ~ In (next_id ids) ids.
Proof. intros H. apply next_id_above in H. lia. Qed.

Lemma nodup_app_fresh (ids : list Z) : NoDup ids -> NoDup (ids ++ [next_id ids]).
Proof.
  intros H. apply NoDup_app; [exact H|repeat constructor; intros []|].
  intros x Hx [<-|[]]. exact (next_id_fresh ids Hx).
Qed.

Lemma remove_first_nodup {A : Type} (f : A -> Z) (p : A -> bool) (l : list A) :
  NoDup (map f l) -> NoDup (map f (remove_first p l)).
Proof.
  induction l as [|x l IH]; cbn [map remove_first]; [auto|].
  intros H. inversion H as [|y ys Hnin Hnd]; subst.
  destruct (p x); [exact Hnd|]. cbn [map]. constructor; [|exact (IH Hnd)].
  intros Hin. apply Hnin. apply in_map_iff in Hin. destruct Hin as [z [Hz1 Hz2]].
  apply in_map_iff. exists z. split; [exact Hz1|]. exact (remove_first_in _ _ _ Hz2).
Qed.

(** The appointment table after a request, against the table before. *)
Lemma handle_appointments (r : Request) (db : Database) :
  exists base,
    (base = appointments db
     \/ (exists p, base = remove_first p (appointments db))
     \/ (exists p f, (forall x, appt_id (f x) = appt_id x
                                /\ appt_patient_id (f x) = appt_patient_id x
                                /\ appt_doctor_id (f x) = appt_doctor_id x)
                     /\ base = update_first p f (appointments db)))
    /\ (appointments (handle r db) = base
        \/ exists sess rid d dt t reason,
             r = ReqBook (Some sess) rid d dt t reason
             /\ is_open (App.free_old_slot sess rid db) d dt t = true
             /\ base = appointments (App.free_old_slot sess rid db)
             /\ appointments (handle r db)
                = base ++ [booked (App.free_old_slot sess rid db)
                             (App.session_user_id sess) d dt t (Some reason) None]).
Proof.
  destruct r as [name role today|s date time b|s rid d dt t reason
                |s i|s i notes st|s i now]; cbn [handle].
  - exists (appointments db). split; [auto|]. left. apply signup_frame.
  - exists (appointments db). split; [auto|]. left.
    unfold App.toggle_slot, App.role_required.
    destruct s as [sess|]; [|reflexivity]. destruct (existsb _ _); [|reflexivity].
    destruct (first_slot db _ _ _); reflexivity.
  - unfold App.book_appointment, App.role_required.
    destruct s as [sess|]; [|exists (appointments db); auto].
    destruct (existsb _ _); [|exists (appointments db); auto].
    exists (appointments (App.free_old_slot sess rid db)). split.
    + destruct (free_old_slot_frame sess rid db)
        as [_ [_ [->|[old [_ [_ [_ [_ Ha]]]]]]]]; [auto|].
      right. left. eexists. exact Ha.
    + pose proof (create_appointment_frame (App.free_old_slot sess rid db)
                    (App.session_user_id sess) d dt t (Some reason) None) as Hc.
      cbv zeta in Hc. destruct Hc as [_ [_ Hc]].
      assert (Hfst : fst (match Models.create_appointment (App.free_old_slot sess rid db)
                                  (App.session_user_id sess) d dt t (Some reason) None with
                          | Returned db2 (Some _, _) =>
                              (db2, App.Redirect "patient_dashboard"
                                      (Some ("Appointment booked successfully", "success")))
                          | Returned db2 (None, message) =>
                              (db2, App.Redirect "book_appointment" (Some (message, "error")))
                          | Raised db2 e => (db2, App.ServerError e)
                          end)
                     = outcome_db (Models.create_appointment (App.free_old_slot sess rid db)
                                     (App.session_user_id sess) d dt t (Some reason) None)).
      { destruct (Models.create_appointment _ _ _ _ _ _ _) as [db2 [[x|] m]|db2 e];
          reflexivity. }
      rewrite Hfst. destruct Hc as [[_ ->]|[Ho [_ Ha]]]; [left; reflexivity|].
      right. exists sess, rid, d, dt, t, reason. auto.
  - destruct (patient_cancel_frame s i db) as [->|[a [_ [_ Ha]]]].
    + exists (appointments db). auto.
    + eexists. split; [right; left; eexists; reflexivity|left; exact Ha].
  - unfold App.doctor_appointment_detail, App.role_required.
    destruct s as [sess|]; [|exists (appointments db); auto].
    destruct (existsb _ _); [|exists (appointments db); auto].
    destruct (get_appointment db i); [|exists (appointments db); auto].
    destruct (negb _); [exists (appointments db); auto|].
    eexists. split; [right; right; eexists; eexists; split; [|reflexivity]|left; reflexivity].
    intros x. auto.
  - unfold App.check_in_patient, App.role_required.
    destruct s as [sess|]; [|exists (appointments db); auto].
    destruct (existsb _ _); [|exists (appointments db); auto].
    destruct (get_appointment db i); [|exists (appointments db); auto].
    exists (update_first (appt_has_id i) (appt_set_checked_in now) (appointments db)).
    split.
    + right; right. eexists; eexists. split; [|reflexivity]. intros x. auto.
    + left. destruct (get_user _ _); reflexivity.
Qed.

Lemma handle_slot_ids (r : Request) (db : Database) :
  map slot_id (slots (handle r db)) = map slot_id (slots db)
  \/ map slot_id (slots (handle r db))
     = map slot_id (slots db) ++ [next_id (map slot_id (slots db))].
Proof.
  assert (Hupd : forall d dt t b l,
            map slot_id (update_first (slot_has_key d dt t) (slot_set_is_available b) l)
            = map slot_id l).
  { intros. apply update_first_map. intros x. reflexivity. }
  destruct r as [name role today|s date time b|s rid d dt t reason
                |s i|s i notes st|s i now]; cbn [handle].
  - left. f_equal. apply signup_frame.
  - unfold App.toggle_slot, App.role_required.
    destruct s as [sess|]; [|left; reflexivity].
    destruct (existsb _ _); [|left; reflexivity].
    destruct (first_slot db _ _ _); cbn [fst slots set_slots].
    + left. apply Hupd.
    + right. rewrite map_app. reflexivity.
  - left. unfold App.book_appointment, App.role_required.
    destruct s as [sess|]; [|reflexivity]. destruct (existsb _ _); [|reflexivity].
    pose proof (create_appointment_frame (App.free_old_slot sess rid db)
                  (App.session_user_id sess) d dt t (Some reason) None) as Hc.
    cbv zeta in Hc. destruct Hc as [_ [_ Hc]].
    assert (Hfree : map slot_id (slots (App.free_old_slot sess rid db))
                    = map slot_id (slots db)).
    { destruct (free_old_slot_frame sess rid db)
        as [_ [_ [->|[old [_ [_ [_ [Hs _]]]]]]]]; [reflexivity|].
      rewrite Hs. apply Hupd. }
    assert (Hout : map slot_id
                     (slots (outcome_db
                               (Models.create_appointment (App.free_old_slot sess rid db)
                                  (App.session_user_id sess) d dt t (Some reason) None)))
                   = map slot_id (slots db)).
    { destruct Hc as [[_ ->]|[_ [Hs _]]]; [exact Hfree|]. rewrite Hs, Hupd. exact Hfree. }
    destruct (Models.create_appointment _ _ _ _ _ _ _) as [db2 [[x|] m]|db2 e];
      exact Hout.
  - left. destruct (patient_cancel_frame s i db) as [->|[a [_ [Hs _]]]]; [reflexivity|].
    rewrite Hs. apply Hupd.
  - left. f_equal. apply doctor_update_frame.
  - left. unfold App.check_in_patient, App.role_required.
    destruct s as [sess|]; [|reflexivity]. destruct (existsb _ _); [|reflexivity].
    destruct (get_appointment db i); [|reflexivity].
    destruct (get_user _ _); reflexivity.
Qed.

Lemma reachable_ids_nodup (db : Database) :
  reachable db ->
  NoDup (map user_id (users db))
  /\ NoDup (map slot_id (slots db))
  /\ NoDup (map appt_id (appointments db)).
Proof.
  induction 1 as [|db r _ IH _|db i _ IH|db ns ss _ IH].
  - cbn. repeat split; constructor.
  - destruct IH as [Hu [Hs Ha]]. split; [|split].
    + destruct (handle_users r db) as [E|[name [role E]]]; rewrite E; [exact Hu|].
      rewrite map_app. cbn [map user_id]. apply nodup_app_fresh. exact Hu.
    + destruct (handle_slot_ids r db) as [E|E]; rewrite E; [exact Hs|].
      apply nodup_app_fresh. exact Hs.
    + destruct (handle_appointments r db) as [base [Hbase Hafter]].
      assert (Hnd : NoDup (map appt_id base)).
      { destruct Hbase as [->|[[p ->]|[p [f [Hf ->]]]]].
        - exact Ha.
        - apply remove_first_nodup. exact Ha.
        - rewrite (update_first_map appt_id); [exact Ha|]. intros x. apply Hf. }
      destruct Hafter as [->|[sess [rid [d [dt [t [reason [_ [_ [Hb ->]]]]]]]]]];
        [exact Hnd|].
      rewrite map_app. cbn [map booked appt_id]. rewrite <- Hb.
      apply nodup_app_fresh. exact Hnd.
  - destruct IH as [Hu [Hs Ha]].
    destruct (models_cancel_frame db i) as [Eu [Es [_ Ea]]].
    rewrite Eu, Es, Ea. repeat split; try assumption.
    destruct (get_appointment db i); [|exact Ha].
    rewrite (update_first_map appt_id); [exact Ha|]. intros x. reflexivity.
  - exact IH.
Qed.

(** X9.  In every state the application reaches, the ids of the user rows
    are pairwise distinct, and so are the ids of the slot rows and of the
    appointment rows: a key is only given again after the row that had it is
    gone. *)
Theorem reachable_ids_unique (db : Database) :
  reachable db ->
  NoDup (map user_id (users db))
  /\ NoDup (map slot_id (slots db))
  /\ NoDup (map appt_id (appointments db)).
Proof. exact (reachable_ids_nodup db). Qed.

Lemma reachable_ids_unique_witness :
  NoDup (map user_id (users Demo.booked_by_pat))
  /\ NoDup (map slot_id (slots Demo.booked_by_pat))
  /\ NoDup (map appt_id (appointments Demo.booked_by_pat)).
Proof.
  exact (reachable_ids_unique Demo.booked_by_pat DemoFacts.booked_by_pat_reachable).
Defined.

Lemma users_kept (r : Request) (db : Database) : incl (users db) (users (handle r db)).
Proof.
  destruct (handle_users r db) as [E|[name [role E]]]; rewrite E;
    [apply incl_refl|apply incl_appl; apply incl_refl].
Qed.




(** ** Booking, cancelling and rescheduling in sequence *)

Lemma find_fresh_appointment (l : list Appointment) :
  find (appt_has_id (next_id (map appt_id l))) l = None.
Proof.
  apply find_none_forall. intros x Hx. unfold appt_has_id. apply Z.eqb_neq.
  intros E. apply (next_id_fresh (map appt_id l)). rewrite <- E. apply in_map. exact Hx.
Qed.

Lemma remove_first_app_none {A : Type} (p : A -> bool) (l1 l2 : list A) :
  find p l1 = None -> remove_first p (l1 ++ l2) = l1 ++ remove_first p l2.
Proof.
  induction l1 as [|x l1 IH]; [reflexivity|].
  cbn. destruct (p x); [discriminate|]. intros H. rewrite (IH H). reflexivity.
Qed.

Lemma find_after_remove_first (i : Z) (l : list Appointment) :
  NoDup (map appt_id l) -> find (appt_has_id i) (remove_first (appt_has_id i) l) = None.
Proof.
  induction l as [|x l IH]; [reflexivity|].
  cbn [map remove_first]. intros H. inversion H as [|y ys Hnin Hnd]; subst.
  destruct (appt_has_id i x) eqn:E.
  - apply find_none_forall. intros z Hz. unfold appt_has_id in *.
    apply Z.eqb_eq in E. apply Z.eqb_neq. intros Ez. apply Hnin.
    rewrite E, <- Ez. apply in_map. exact Hz.
  - cbn [find]. rewrite E. exact (IH Hnd).
Qed.

(** Closing and then opening the first row under a key gives the table back
    when that row was open. *)
Lemma reopen_after_close (d dt : Z) (t : string) (l : list DoctorAvailabilitySlot) :
  (forall sl, find (slot_has_key d dt t) l = Some sl -> slot_is_available sl = true) ->
  update_first (slot_has_key d dt t) (slot_set_is_available true)
    (update_first (slot_has_key d dt t) (slot_set_is_available false) l)
  = l.
Proof.
  induction l as [|x l IH]; [reflexivity|].
  cbn [find update_first]. destruct (slot_has_key d dt t x) eqn:E.
  - intros H. cbn [update_first]. rewrite slot_has_key_set, E.
    specialize (H x eq_refl). destruct x as [i dd ddt tt av]. cbn in H. subst av.
    reflexivity.
  - intros H. cbn [update_first]. rewrite E, (IH H). reflexivity.
Qed.

Lemma first_slot_open (db : Database) (d dt : Z) (t : string)
    (sl : DoctorAvailabilitySlot) :
  slot_keys_unique db -> is_open db d dt t = true ->
  find (slot_has_key d dt t) (slots db) = Some sl -> slot_is_available sl = true.
Proof.
  intros Hu Ho Hf. rewrite is_open_key_slots in Ho. unfold key_slots in Ho.
  rewrite find_filter_head in Hf.
  destruct (unique_filter_short d dt t (slots db) Hu) as [E|[x E]]; rewrite E in *.
  - discriminate.
  - injection Hf as <-. cbn in Ho. rewrite orb_false_r in Ho. exact Ho.
Qed.

Lemma closed_after_update (db db' : Database) (d dt : Z) (t : string) :
  slot_keys_unique db ->
  slots db' = update_first (slot_has_key d dt t) (slot_set_is_available false) (slots db) ->
  is_open db' d dt t = false.
Proof.
  intros Hu Hs. rewrite is_open_key_slots. unfold key_slots. rewrite Hs.
  rewrite filter_update_first_same.
  destruct (unique_filter_short d dt t (slots db) Hu) as [E|[x E]]; rewrite E;
    reflexivity.
Qed.

(** X11.  In a reachable state, once a booking of (doctor, date, time) has
    succeeded the time is no longer among the available times of that doctor
    and date, and a further booking of the same slot, by any patient, is
    refused with the slot-unavailable message and writes nothing. *)
Theorem second_booking_is_refused (db db' : Database) (patient_id doctor_id date : Z)
    (time : string) (reason : option string) (nurse_id : option Z) (a : Appointment)
    (msg : string) :
  reachable db ->
  Models.create_appointment db patient_id doctor_id date time reason nurse_id
  = Returned db' (Some a, msg) ->
  ~ In time (Models.get_available_time_slots db' doctor_id date)
  /\ (forall patient' reason' nurse',
        Models.create_appointment db' patient' doctor_id date time reason' nurse'
        = Returned db' (None, "This time slot is not available")).
Proof.
  intros Hreach H. destruct (reachable_well_formed db Hreach) as [Hu _].
  assert (Hclosed : is_open db' doctor_id date time = false).
  { pose proof (create_appointment_frame db patient_id doctor_id date time reason nurse_id)
      as Hc. cbv zeta in Hc. rewrite H in Hc. cbn [outcome_db] in Hc.
    destruct Hc as [_ [_ [[Ho E]|[Ho [Hs _]]]]].
    - rewrite (create_appointment_closed _ _ _ _ _ _ _ Ho) in H. discriminate.
    - exact (closed_after_update db db' _ _ _ Hu Hs). }
  split.
  - intros Hin. unfold is_open in Hclosed.
    assert (Ht : existsb (String.eqb time)
                   (Models.get_available_time_slots db' doctor_id date) = true).
    { apply existsb_exists. exists time. split; [exact Hin|apply String.eqb_refl]. }
    congruence.
  - intros p' r' n'. apply create_appointment_closed. exact Hclosed.
Qed.

Lemma second_booking_is_refused_witness :
  ~ In "09:00"
      (Models.get_available_time_slots
         (outcome_db (Models.create_appointment Demo.opened 2 1 Demo.monday "09:00" None
                        None)) 1 Demo.monday).
Proof.
  exact (proj1 (second_booking_is_refused Demo.opened _ 2 1 Demo.monday "09:00" None None
                  _ _ DemoFacts.opened_reachable (booking_returns None))).
Defined.

(** X12.  In a reachable state, when a logged-in patient books an open slot
    and then cancels the appointment just made, the slot table and the
    appointment table are exactly what they were before the booking; the
    user and the schedule tables were never touched. *)
Theorem book_then_cancel_restores (db : Database) (sess : App.Session)
    (doctor_id date : Z) (time reason : string) :
  reachable db -> session_ok db (Some sess) ->
  App.session_role sess = "patient" ->
  is_open db doctor_id date time = true ->
  let a := booked db (App.session_user_id sess) doctor_id date time (Some reason) None in
  let db1 := fst (App.book_appointment (Some sess) None doctor_id date time reason db) in
  let db2 := fst (App.cancel_appointment (Some sess) (appt_id a) db1) in
  get_appointment db1 (appt_id a) = Some a
  /\ is_open db1 doctor_id date time = false
  /\ slots db2 = slots db /\ appointments db2 = appointments db
  /\ users db2 = users db /\ schedules db2 = schedules db.
Proof.
  intros Hreach Hsess Hrole Ho a db1 db2.
  destruct (reachable_well_formed db Hreach) as [Hu _].
  assert (Hdb1 : db1 = outcome_db (Models.create_appointment db (App.session_user_id sess)
                                     doctor_id date time (Some reason) None))
    by (unfold db1; rewrite (book_appointment_db _ _ _ _ _ _ _ Hrole); reflexivity).
  pose proof (create_appointment_frame db (App.session_user_id sess) doctor_id date time
                (Some reason) None) as Hc.
  cbv zeta in Hc. rewrite <- Hdb1 in Hc.
  destruct Hc as [Hus [Hsch [[Hf _]|[_ [Hs Ha]]]]]; [congruence|]. fold a in Ha.
  assert (Hget : get_appointment db1 (appt_id a) = Some a).
  { unfold get_appointment. rewrite Ha.
    rewrite (find_app_none _ _ _ (find_fresh_appointment (appointments db))).
    cbn [find]. unfold appt_has_id. rewrite Z.eqb_refl. reflexivity. }
  assert (Hdb2 : db2 = delete_appointment
                         (set_slots db1
                            (update_first (slot_has_key doctor_id date time)
                               (slot_set_is_available true) (slots db1))) a)
    by (unfold db2; apply (patient_cancel_db db1 sess a Hrole Hget); reflexivity).
  split; [exact Hget|split; [|split; [|split; [|split]]]].
  - exact (closed_after_update db db1 _ _ _ Hu Hs).
  - rewrite Hdb2. cbn [delete_appointment slots set_slots]. rewrite Hs.
    apply reopen_after_close. intros sl Hsl. exact (first_slot_open db _ _ _ sl Hu Ho Hsl).
  - rewrite Hdb2. cbn [delete_appointment appointments set_slots]. rewrite Ha.
    rewrite (remove_first_app_none _ _ _ (find_fresh_appointment (appointments db))).
    cbn [remove_first]. unfold appt_has_id. rewrite Z.eqb_refl. apply app_nil_r.
  - rewrite Hdb2. cbn [delete_appointment users set_slots]. exact Hus.
  - rewrite Hdb2. cbn [delete_appointment schedules set_slots]. exact Hsch.
Qed.

(** Pat books Dana's Monday 09:00 and cancels the appointment at once. *)
Lemma book_then_cancel_restores_witness :
  slots
    (fst (App.cancel_appointment (Some (App.login Demo.pat))
            (appt_id (booked Demo.opened (App.session_user_id (App.login Demo.pat)) 1
                        Demo.monday "09:00" (Some "checkup") None))
            (fst (App.book_appointment (Some (App.login Demo.pat)) None 1 Demo.monday
                    "09:00" "checkup" Demo.opened))))
  = slots Demo.opened.
Proof.
  refine (proj1 (proj2 (proj2
    (book_then_cancel_restores Demo.opened (App.login Demo.pat) 1 Demo.monday "09:00"
       "checkup" DemoFacts.opened_reachable (DemoFacts.pat_session_ok Demo.opened _)
       eq_refl _)))).
  - vm_compute. reflexivity.
  - vm_compute. reflexivity.
Defined.

(** X13.  In a reachable state the cancel route, called by the patient of
    an appointment, deletes the row whatever its status is: the id no longer
    resolves, no notification refers to it any more, and when a slot row
    exists under the appointment's key that slot is open afterwards. *)
Theorem patient_cancel_deletes (db : Database) (sess : App.Session)
    (appointment_id : Z) (a : Appointment) :
  reachable db -> App.session_role sess = "patient" ->
  get_appointment db appointment_id = Some a ->
  appt_patient_id a = App.session_user_id sess ->
  let db' := fst (App.cancel_appointment (Some sess) appointment_id db) in
  get_appointment db' appointment_id = None
  /\ appointments db' = remove_first (appt_has_id appointment_id) (appointments db)
  /\ (forall n, In n (notifications db') -> notif_appointment_id n <> Some appointment_id)
  /\ (key_slots db (appt_doctor_id a) (appt_date a) (appt_time a) <> [] ->
      is_open db' (appt_doctor_id a) (appt_date a) (appt_time a) = true).
Proof.
  intros Hreach Hrole Hg Ho db'.
  destruct (get_appointment_in _ _ _ Hg) as [_ Hid]. subst appointment_id.
  destruct (reachable_ids_nodup db Hreach) as [_ [_ Hnd]].
  assert (Hdb' : db' = delete_appointment
                         (set_slots db
                            (update_first
                               (slot_has_key (appt_doctor_id a) (appt_date a) (appt_time a))
                               (slot_set_is_available true) (slots db))) a)
    by (apply patient_cancel_db; assumption).
  rewrite Hdb'. split; [|split; [reflexivity|split]].
  - unfold get_appointment. cbn [delete_appointment appointments set_slots].
    apply find_after_remove_first. exact Hnd.
  - intros n Hn. cbn [delete_appointment notifications set_slots] in Hn.
    apply in_map_iff in Hn. destruct Hn as [m [<- _]].
    destruct (notif_appointment_id m) as [j|] eqn:E; [|rewrite E; discriminate].
    destruct (j =? appt_id a) eqn:F; cbn [notif_appointment_id]; [discriminate|].
    rewrite E. apply Z.eqb_neq in F. congruence.
  - intros Hne. rewrite is_open_key_slots. unfold key_slots in *.
    cbn [delete_appointment slots set_slots]. rewrite filter_update_first_same.
    destruct (filter _ (slots db)) as [|x rest]; [contradiction|reflexivity].
Qed.

(** Pat cancels the appointment that Dana has marked cancelled. *)
Lemma patient_cancel_deletes_witness :
  get_appointment
    (fst (App.cancel_appointment (Some (App.login Demo.pat)) 1 Demo.cancelled_by_dana)) 1
  = None.
Proof.
  refine (proj1 (patient_cancel_deletes Demo.cancelled_by_dana (App.login Demo.pat) 1
                   (mkAppointment 1 2 1 None Demo.monday "09:00" 30 "cancelled"
                      (Some "checkup") (Some "patient called") false None)
                   DemoFacts.cancelled_by_dana_reachable eq_refl _ eq_refl)).
  vm_compute. reflexivity.
Defined.







(** ** Reading the slot table back *)

Lemma date_time_eqb_iff (k k' : Z * string) : date_time_eqb k k' = true <-> k = k'.
Proof.
  destruct k as [d t], k' as [d' t']. unfold date_time_eqb. cbn [fst snd].
  rewrite andb_true_iff, Z.eqb_eq, String.eqb_eq. split.
  - intros [-> ->]. reflexivity.
  - intros H. injection H as -> ->. auto.
Qed.

Lemma dict_get_set {V : Type} (k k' : Z * string) (v : V) (d : list (Z * string * V)) :
  dict_get date_time_eqb k (dict_set date_time_eqb k' v d)
  = if date_time_eqb k' k then Some v else dict_get date_time_eqb k d.
Proof.
  unfold dict_get. induction d as [|[k0 v0] d IH]; cbn [dict_set find fst].
  - destruct (date_time_eqb k' k); reflexivity.
  - destruct (date_time_eqb k0 k') eqn:E0; cbn [find fst].
    + apply date_time_eqb_iff in E0. subst k0.
      destruct (date_time_eqb k' k); reflexivity.
    + destruct (date_time_eqb k0 k) eqn:E1.
      * destruct (date_time_eqb k' k) eqn:E2; [|reflexivity].
        apply date_time_eqb_iff in E1. apply date_time_eqb_iff in E2. subst.
        assert (Hrefl : date_time_eqb k k = true) by (apply date_time_eqb_iff; reflexivity).
        congruence.
      * exact IH.
Qed.

(** The value of a key in [slot_map] when all rows under the key carry the
    same flag. *)
Lemma slot_map_get (k : Z * string) (b : bool) (l : list DoctorAvailabilitySlot) :
  forall acc,
    (forall x, In x l -> (slot_date x, slot_time x) = k -> slot_is_available x = b) ->
    dict_get date_time_eqb k
      (fold_left
         (fun slot_map slot =>
            dict_set date_time_eqb (slot_date slot, slot_time slot)
              (slot_is_available slot) slot_map) l acc)
    = if existsb (fun x => date_time_eqb (slot_date x, slot_time x) k) l
      then Some b else dict_get date_time_eqb k acc.
Proof.
  induction l as [|x l IH]; intros acc H; [reflexivity|].
  cbn [fold_left existsb]. rewrite IH by (intros y Hy; apply H; right; exact Hy).
  rewrite dict_get_set.
  destruct (date_time_eqb (slot_date x, slot_time x) k) eqn:E; cbn [orb].
  - apply date_time_eqb_iff in E. rewrite (H x (or_introl eq_refl) E).
    destruct (existsb _ l); reflexivity.
  - reflexivity.
Qed.

Lemma find_some_updated {A : Type} (p : A -> bool) (f : A -> A) (l : list A) (x : A) :
  find p l = Some x -> In (f x) (update_first p f l).
Proof.
  induction l as [|y l IH]; [discriminate|].
  cbn. destruct (p y); intros H.
  - injection H as <-. left. reflexivity.
  - right. exact (IH H).
Qed.

(** The row that the toggle leaves under its key. *)
Lemma toggle_slot_row (db : Database) (sess : App.Session) (date : Z) (time : string)
    (flag : bool) :
  App.session_role sess = "doctor" ->
  exists sl,
    In sl (slots (fst (App.toggle_slot (Some sess) date time flag db)))
    /\ slot_key sl = (App.session_user_id sess, date, time)
    /\ slot_is_available sl = flag.
Proof.
  intros Hrole. rewrite (toggle_slot_db _ _ _ _ _ Hrole). unfold first_slot.
  destruct (find _ (slots db)) as [x|] eqn:F; cbn [slots set_slots].
  - exists (slot_set_is_available flag x). split; [exact (find_some_updated _ _ _ _ F)|].
    apply find_some in F. destruct F as [_ F]. apply slot_has_key_iff in F.
    split; [exact F|reflexivity].
  - eexists. split; [apply in_or_app; right; left; reflexivity|]. split; reflexivity.
Qed.

(** X16.  In a reachable state, after a doctor has toggled the slot
    (date, time) to a flag, with the date between today and today + 13, the
    doctor's availability page has exactly that flag under the key of the
    slot in its [slot_map], and the JSON list of [/api/doctor/slots] holds
    the item (date, time, flag) and no item for that date and time with the
    other flag. *)
Theorem toggle_slot_is_read_back (db : Database) (sess : App.Session) (today date : Z)
    (time : string) (flag : bool) :
  reachable db -> session_ok db (Some sess) ->
  App.session_role sess = "doctor" ->
  today <= date <= today + 13 ->
  let db' := fst (App.toggle_slot (Some sess) date time flag db) in
  (exists slot_map,
     Views.doctor_availability (Some sess) today db' = Views.Rendered slot_map
     /\ dict_get date_time_eqb (date, time) slot_map = Some flag)
  /\ (exists items,
        Views.get_doctor_slots (Some sess) today db' = Views.Rendered items
        /\ In (date, time, flag) items /\ ~ In (date, time, negb flag) items).
Proof.
  intros Hreach Hsess Hrole Hwin db'.
  assert (Hreach' : reachable db')
    by (exact (reach_request db (ReqToggleSlot (Some sess) date time flag) Hreach Hsess)).
  destruct (reachable_well_formed db' Hreach') as [Hu _].
  destruct (toggle_slot_row db sess date time flag Hrole) as [sl [Hin [Hk Hfl]]].
  fold db' in Hin.
  pose proof (key_slots_single db' _ _ _ sl Hu Hin Hk) as Hone.
  assert (Hsame : forall x, In x (Views.slots_in_window db' (App.session_user_id sess) today 13) ->
            (slot_date x, slot_time x) = (date, time) -> x = sl).
  { intros x Hx Hxk. unfold Views.slots_in_window in Hx. apply filter_In in Hx.
    destruct Hx as [Hx Hp]. rewrite !andb_true_iff in Hp. destruct Hp as [[Hd _] _].
    apply Z.eqb_eq in Hd. injection Hxk as Hxd Hxt.
    assert (Hf : In x (key_slots db' (App.session_user_id sess) date time)).
    { apply filter_In. split; [exact Hx|]. apply slot_has_key_iff. unfold slot_key.
      congruence. }
    rewrite Hone in Hf. destruct Hf as [<-|[]]. reflexivity. }
  assert (Hwinsl : In sl (Views.slots_in_window db' (App.session_user_id sess) today 13)).
  { unfold Views.slots_in_window. apply filter_In. split; [exact Hin|].
    unfold slot_key in Hk. injection Hk as -> -> _.
    rewrite Z.eqb_refl. cbn [andb]. apply andb_true_iff. split; apply Z.leb_le; lia. }
  assert (Hkd : (slot_date sl, slot_time sl) = (date, time))
    by (unfold slot_key in Hk; congruence).
  split.
  - unfold Views.doctor_availability, Views.role_required. rewrite Hrole.
    cbn [existsb String.eqb Ascii.eqb Bool.eqb orb]. eexists. split; [reflexivity|].
    rewrite (slot_map_get (date, time) flag).
    + assert (E : existsb (fun x => date_time_eqb (slot_date x, slot_time x) (date, time))
                    (Views.slots_in_window db' (App.session_user_id sess) today 13) = true).
      { apply existsb_exists. exists sl. split; [exact Hwinsl|].
        apply date_time_eqb_iff. exact Hkd. }
      rewrite E. reflexivity.
    + intros x Hx Hxk. rewrite (Hsame x Hx Hxk). exact Hfl.
  - unfold Views.get_doctor_slots, Views.role_required. rewrite Hrole.
    cbn [existsb String.eqb Ascii.eqb Bool.eqb orb]. eexists. split; [reflexivity|].
    split.
    + apply in_map_iff. exists sl. split; [|exact Hwinsl].
      injection Hkd as -> ->. rewrite Hfl. reflexivity.
    + intros H. apply in_map_iff in H. destruct H as [x [Hx1 Hx2]].
      injection Hx1 as Hd Ht Hf.
      assert (Hxk : (slot_date x, slot_time x) = (date, time)) by congruence.
      rewrite (Hsame x Hx2 Hxk), Hfl in Hf. destruct flag; discriminate.
Qed.

(** Dana closes Monday 09:00 and looks at her availability page on
    Monday. *)
Lemma toggle_slot_is_read_back_witness :
  exists slot_map,
    Views.doctor_availability (Some (App.login Demo.dana)) Demo.monday
      (fst (App.toggle_slot (Some (App.login Demo.dana)) Demo.monday "09:00" false
              Demo.opened))
    = Views.Rendered slot_map
    /\ dict_get date_time_eqb (Demo.monday, "09:00") slot_map = Some false.
Proof.
  refine (proj1 (toggle_slot_is_read_back Demo.opened (App.login Demo.dana) Demo.monday
                   Demo.monday "09:00" false DemoFacts.opened_reachable
                   (DemoFacts.dana_session_ok Demo.opened _) eq_refl _)).
  - vm_compute. reflexivity.
  - unfold Demo.monday. lia.
Defined.

(** ** The weekly availability view *)

Lemma fill_booked_slots_keys (db : Database) (appts : list Appointment) :
  forall acc filled,
    Views.fill_booked_slots db appts acc = Some filled ->
    forall k,
      (exists v, dict_get date_time_eqb k filled = Some v) <->
      (exists v, dict_get date_time_eqb k acc = Some v)
      \/ (exists a, In a appts /\ (appt_date a, appt_time a) = k).
Proof.
  induction appts as [|a appts IH]; intros acc filled H k.
  - cbn in H. injection H as <-. split; [auto|]. intros [H|[a [[] _]]]. exact H.
  - cbn [Views.fill_booked_slots] in H.
    destruct (get_user db (appt_patient_id a)) as [p|]; [|discriminate].
    rewrite (IH _ _ H k), dict_get_set. split.
    + intros [[v Hv]|[x [Hx Hk]]].
      * destruct (date_time_eqb (appt_date a, appt_time a) k) eqn:E.
        -- right. exists a. split; [left; reflexivity|].
           apply date_time_eqb_iff. exact E.
        -- left. eauto.
      * right. exists x. split; [right; exact Hx|exact Hk].
    + intros [[v Hv]|[x [[<-|Hx] Hk]]].
      * left. destruct (date_time_eqb (appt_date a, appt_time a) k); eauto.
      * left. apply date_time_eqb_iff in Hk. rewrite Hk. eauto.
      * right. eauto.
Qed.


(** X17.  When [get_doctor_weekly_availability] renders, its list has one
    item for each slot row of the doctor dated from today to today + 7, in
    table order and with the row's flag.  An item is marked booked exactly
    when some appointment row of that doctor has the item's date and time,
    whatever the status of that appointment is, and exactly then it carries
    a patient name. *)
Theorem weekly_availability_items (db : Database) (session : option App.Session)
    (doctor_id today : Z) (items : list Views.WeeklySlot) :
  Views.get_doctor_weekly_availability session doctor_id today db
  = Views.Rendered items ->
  map (fun e => (Views.ws_date e, Views.ws_time e, Views.ws_is_available e)) items
  = map (fun sl => (slot_date sl, slot_time sl, slot_is_available sl))
      (Views.slots_in_window db doctor_id today 7)
  /\ (forall e, In e items ->
        today <= Views.ws_date e <= today + 7
        /\ (Views.ws_is_booked e = true <->
            exists a, In a (appointments db) /\ appt_doctor_id a = doctor_id
                      /\ appt_date a = Views.ws_date e /\ appt_time a = Views.ws_time e)
        /\ (Views.ws_is_booked e = true <-> exists name, Views.ws_patient_name e = Some name)).
Proof.
  unfold Views.get_doctor_weekly_availability, Views.role_required.
  destruct session as [sess|]; [|discriminate].
  destruct (existsb _ _); [|discriminate].
  destruct (Views.fill_booked_slots db _ []) as [filled|] eqn:F; [|discriminate].
  intros H. injection H as <-. split.
  - rewrite map_map. reflexivity.
  - intros e He. apply in_map_iff in He. destruct He as [sl [<- Hsl]].
    cbn [Views.ws_date Views.ws_time Views.ws_is_booked Views.ws_patient_name].
    unfold Views.slots_in_window in Hsl. apply filter_In in Hsl.
    destruct Hsl as [_ Hp]. rewrite !andb_true_iff, !Z.leb_le in Hp.
    destruct Hp as [[_ Hlo] Hhi].
    pose proof (fill_booked_slots_keys db _ _ _ F (slot_date sl, slot_time sl)) as Hkeys.
    split; [lia|split].
    + split.
      * intros Hb.
        destruct (dict_get date_time_eqb (slot_date sl, slot_time sl) filled) as [v|];
          [|discriminate].
        destruct (proj1 Hkeys (ex_intro _ v eq_refl)) as [[w Hw]|[a [Ha Hk]]];
          [discriminate|].
        apply filter_In in Ha. destruct Ha as [Ha Hq].
        rewrite !andb_true_iff in Hq. destruct Hq as [[Hd _] _]. apply Z.eqb_eq in Hd.
        injection Hk as Hk1 Hk2. exists a. auto.
      * intros [a [Ha [Hd [Hdt Ht]]]].
        assert (Hex : exists v, dict_get date_time_eqb (slot_date sl, slot_time sl) filled
                                = Some v).
        { apply Hkeys. right. exists a. split; [|congruence].
          apply filter_In. split; [exact Ha|].
          rewrite !andb_true_iff, !Z.leb_le, Z.eqb_eq. rewrite Hdt. auto. }
        destruct Hex as [v ->]. reflexivity.
    + destruct (dict_get date_time_eqb (slot_date sl, slot_time sl) filled) as [v|];
        cbn [option_map]; split; eauto; try discriminate.
      intros [name H]. discriminate.
Qed.

(** Nell looks at Dana's week after Dana has marked Pat's appointment
    cancelled: the slot still shows as booked. *)
Lemma weekly_availability_items_witness :
  Views.ws_is_booked (Views.mkWeeklySlot Demo.monday "09:00" false true (Some "Pat"))
  = true <->
  exists a, In a (appointments Demo.cancelled_by_dana) /\ appt_doctor_id a = 1
            /\ appt_date a
               = Views.ws_date
                   (Views.mkWeeklySlot Demo.monday "09:00" false true (Some "Pat"))
            /\ appt_time a
               = Views.ws_time
                   (Views.mkWeeklySlot Demo.monday "09:00" false true (Some "Pat")).
Proof.
  assert (H : Views.get_doctor_weekly_availability (Some (App.login Demo.nell)) 1
                Demo.monday Demo.cancelled_by_dana
              = Views.Rendered
                  [Views.mkWeeklySlot Demo.monday "09:00" false true (Some "Pat");
                   Views.mkWeeklySlot Demo.monday "10:00" true false None])
    by (vm_compute; reflexivity).
  exact (proj1 (proj2 (proj2 (weekly_availability_items Demo.cancelled_by_dana _ 1
                                Demo.monday _ H) _ (or_introl eq_refl)))).
Defined.



(** ** The nurse's check-in *)




(** ** Seeding again *)

Lemma create_default_schedule_appends (today doctor_id : Z) (db : Database) :
  exists created,
    App.create_default_schedule today doctor_id db
    = Some (set_schedules db (schedules db ++ created))
    /\ map sched_fields created
       = map (fun d => (doctor_id, d, "09:00", "17:00", true))
           (filter is_weekday (days_from 31 today)).
Proof.
  unfold App.create_default_schedule.
  pose proof (schedule_loop_days doctor_id 31 31 today (le_n _)) as Hloop.
  replace (today + Z.of_nat 31 - 1) with (today + 30) in Hloop by lia.
  rewrite Hloop.
  destruct (insert_schedules_appends
              (map (App.new_schedule doctor_id) (filter is_weekday (days_from 31 today)))
              (schedules db)) as [created [Hins Hfields]].
  rewrite map_map in Hfields. exists created. rewrite Hins. split; [reflexivity|].
  exact Hfields.
Qed.

(** X20.  [create_default_schedule] does not look at the rows that exist:
    run a second time for the same doctor and day it appends the same
    weekday rows again, so that every weekday of the window then has two
    rows of that doctor among the rows added, and nothing but the schedule
    table is written. *)
Theorem create_default_schedule_twice (today doctor_id : Z) (db : Database) :
  exists db1 first second,
    App.create_default_schedule today doctor_id db = Some db1
    /\ App.create_default_schedule today doctor_id db1
       = Some (set_schedules db (schedules db ++ first ++ second))
    /\ map sched_fields first = map sched_fields second
    /\ (forall d, today <= d <= today + 30 -> App.weekday d < 5 ->
          count_occ Z.eq_dec (map sched_date (first ++ second)) d = 2%nat).
Proof.
  destruct (create_default_schedule_appends today doctor_id db) as [c1 [H1 F1]].
  destruct (create_default_schedule_appends today doctor_id
              (set_schedules db (schedules db ++ c1))) as [c2 [H2 F2]].
  exists (set_schedules db (schedules db ++ c1)), c1, c2.
  split; [exact H1|split; [|split]].
  - rewrite H2. cbn [schedules set_schedules]. rewrite <- app_assoc.
    unfold set_schedules. reflexivity.
  - rewrite F1, F2. reflexivity.
  - intros d Hd Hwk.
    assert (Hdates : forall c, map sched_fields c
                               = map (fun d0 => (doctor_id, d0, "09:00", "17:00", true))
                                   (filter is_weekday (days_from 31 today)) ->
                     map sched_date c = filter is_weekday (days_from 31 today)).
    { intros c Hc.
      transitivity (map (fun f : Z * Z * string * string * bool => snd (fst (fst (fst f))))
                      (map sched_fields c)).
      - rewrite map_map. reflexivity.
      - rewrite Hc, map_map. cbn [fst snd]. apply map_id. }
    rewrite map_app, count_occ_app, (Hdates c1 F1), (Hdates c2 F2).
    rewrite (count_occ_filter_nodup is_weekday);
      [|apply days_from_nodup|apply days_from_in; lia].
    unfold is_weekday. apply Z.ltb_lt in Hwk. rewrite Hwk. reflexivity.
Qed.

(** ** The validators of [forms.py] *)

(** X21.  [validate_date] accepts exactly the dates from today to
    today + 90, both included; an earlier date gets the in-the-past
    message and a later one the three-months message. *)
Theorem validate_date_window (today date : Z) :
  (Forms.validate_date today date = Forms.Valid <-> today <= date <= today + 90)
  /\ (date < today ->
      Forms.validate_date today date
      = Forms.ValidationError "Appointment date cannot be in the past.")
  /\ (today + 90 < date ->
      Forms.validate_date today date
      = Forms.ValidationError
          "Appointments can only be booked up to 3 months in advance.").
Proof.
  unfold Forms.validate_date.
  destruct (date <? today) eqn:E1; [apply Z.ltb_lt in E1|apply Z.ltb_ge in E1].
  - split; [split; [discriminate|lia]|split; [reflexivity|lia]].
  - destruct (date >? today + 90) eqn:E2.
    + apply Z.gtb_lt in E2. split; [split; [discriminate|lia]|split; [lia|reflexivity]].
    + assert (date <= today + 90).
      { destruct (Z.le_gt_cases date (today + 90)) as [H|H]; [exact H|].
        apply Z.gtb_lt in H. congruence. }
      split; [split; [lia|reflexivity]|split; lia].
Qed.

(** X22.  For times of day with minutes from 0 to 59, [validate_end_time]
    accepts a start and an end exactly when the end is later than the start
    by at least one minute and at most 480 minutes; an end that is not
    later is rejected with the must-be-after message and a longer period
    with the eight-hours message.  With either field absent it accepts. *)
Theorem validate_end_time_window (start_data end_data : Forms.Time) :
  0 <= Forms.minute start_data < 60 -> 0 <= Forms.minute end_data < 60 ->
  let start_minutes := Forms.hour start_data * 60 + Forms.minute start_data in
  let end_minutes := Forms.hour end_data * 60 + Forms.minute end_data in
  (Forms.validate_end_time (Some start_data) (Some end_data) = Forms.Valid
   <-> 0 < end_minutes - start_minutes <= 480)
  /\ (end_minutes <= start_minutes ->
      Forms.validate_end_time (Some start_data) (Some end_data)
      = Forms.ValidationError "End time must be after start time.")
  /\ (480 < end_minutes - start_minutes ->
      Forms.validate_end_time (Some start_data) (Some end_data)
      = Forms.ValidationError "Availability period cannot exceed 8 hours.")
  /\ Forms.validate_end_time None (Some end_data) = Forms.Valid
  /\ Forms.validate_end_time (Some start_data) None = Forms.Valid.
Proof.
  intros Hs He. cbv zeta. unfold Forms.validate_end_time.
  assert (Hleb : Forms.time_leb end_data start_data = true
                 <-> Forms.hour end_data * 60 + Forms.minute end_data
                     <= Forms.hour start_data * 60 + Forms.minute start_data).
  { unfold Forms.time_leb. rewrite orb_true_iff, andb_true_iff, Z.ltb_lt, Z.eqb_eq,
      Z.leb_le. lia. }
  destruct (Forms.time_leb end_data start_data) eqn:E.
  - pose proof (proj1 Hleb eq_refl) as H.
    split; [split; [discriminate|lia]|]. split; [reflexivity|]. split; [lia|auto].
  - assert (H : ~ (Forms.hour end_data * 60 + Forms.minute end_data
                   <= Forms.hour start_data * 60 + Forms.minute start_data))
      by (intros H; apply Hleb in H; discriminate).
    destruct (_ >? 480) eqn:G.
    + apply Z.gtb_lt in G.
      split; [split; [discriminate|lia]|]. split; [lia|]. split; [reflexivity|auto].
    + assert (Forms.hour end_data * 60 + Forms.minute end_data
              - (Forms.hour start_data * 60 + Forms.minute start_data) <= 480).
      { destruct (Z.le_gt_cases
                    (Forms.hour end_data * 60 + Forms.minute end_data
                     - (Forms.hour start_data * 60 + Forms.minute start_data)) 480)
          as [K|K]; [exact K|]. apply Z.gtb_lt in K. congruence. }
      split; [split; [lia|reflexivity]|]. split; [lia|]. split; [lia|auto].
Qed.

(** 09:00 to 17:00 is accepted, being 480 minutes. *)
Lemma validate_end_time_window_witness :
  Forms.validate_end_time (Some (Forms.mkTime 9 0)) (Some (Forms.mkTime 17 0))
  = Forms.Valid.
Proof.
  refine (proj2 (proj1 (validate_end_time_window (Forms.mkTime 9 0) (Forms.mkTime 17 0)
                          _ _)) _); cbn; lia.
Defined.

(** ** Sign-up *)

Lemma window_has_weekday (today : Z) : filter is_weekday (days_from 31 today) <> [].
Proof.
  assert (Hex : exists d, today <= d < today + 3 /\ App.weekday d < 5).
  { unfold App.weekday.
    assert (H : 0 <= (today + 6) mod 7 < 7) by (apply Z.mod_pos_bound; lia).
    destruct (Z.lt_ge_cases ((today + 6) mod 7) 5) as [Hlt|Hge].
    - exists today. split; [lia|exact Hlt].
    - destruct (Z.eq_dec ((today + 6) mod 7) 5) as [E|E].
      + exists (today + 2). split; [lia|]. Z.div_mod_to_equations. lia.
      + exists (today + 1). split; [lia|]. Z.div_mod_to_equations. lia. }
  destruct Hex as [d [Hd Hwk]]. intros E.
  assert (Hin : In d (filter is_weekday (days_from 31 today))).
  { apply filter_In. split; [apply days_from_in; lia|].
    unfold is_weekday. apply Z.ltb_lt. exact Hwk. }
  rewrite E in Hin. destruct Hin.
Qed.

(** X23.  A sign-up appends one user row whose id is not the id of any
    existing row and leaves the slot, appointment and notification tables as
    they are.  For the role ['doctor'] it also appends schedule rows, at
    least one and all of them for the new user; for every other role the
    schedule table is unchanged. *)
Theorem signup_effect (name role : string) (today : Z) (db : Database) :
  let db' := App.signup name role today db in
  let new_id := next_id (map user_id (users db)) in
  users db' = users db ++ [mkUser new_id name role]
  /\ ~ In new_id (map user_id (users db))
  /\ slots db' = slots db /\ appointments db' = appointments db
  /\ notifications db' = notifications db
  /\ (role <> "doctor" -> schedules db' = schedules db)
  /\ (role = "doctor" ->
      exists created,
        schedules db' = schedules db ++ created /\ created <> []
        /\ Forall (fun r => sched_doctor_id r = new_id) created).
Proof.
  cbv zeta. destruct (signup_frame name role today db) as [Hu [Hs [Ha Hn]]].
  split; [exact Hu|split; [apply next_id_fresh|]].
  split; [exact Hs|split; [exact Ha|split; [exact Hn|split]]].
  - intros Hne. unfold App.signup. apply String.eqb_neq in Hne. rewrite Hne. reflexivity.
  - intros ->. unfold App.signup. cbn [String.eqb Ascii.eqb Bool.eqb user_id].
    destruct (create_default_schedule_appends today (next_id (map user_id (users db)))
                (set_users db
                   (users db ++ [mkUser (next_id (map user_id (users db))) name "doctor"])))
      as [created [-> Hf]].
    exists created. split; [reflexivity|split].
    + intros ->. cbn [map] in Hf. symmetry in Hf. apply map_eq_nil in Hf.
      exact (window_has_weekday today Hf).
    + apply Forall_forall. intros r Hr.
      assert (Hin : In (sched_fields r) (map sched_fields created))
        by (apply in_map; exact Hr).
      rewrite Hf in Hin. apply in_map_iff in Hin. destruct Hin as [d [Hd _]].
      unfold sched_fields in Hd. congruence.
Qed.

(** X24.  No request deletes or rewrites a user row, so a session that was
    created by a login stays the session of a registered user after every
    request. *)
Theorem sessions_stay_valid (r : Request) (db : Database)
    (session : option App.Session) :
  session_ok db session ->
  session_ok (handle r db) session
  /\ (forall u, In u (users db) -> In u (users (handle r db))).
Proof.
  intros H. split; [|intros u Hu; exact (users_kept r db u Hu)].
  destruct session as [sess|]; [|exact I].
  destruct H as [u [Hu ->]]. exists u. split; [exact (users_kept r db u Hu)|reflexivity].
Qed.

Lemma sessions_stay_valid_witness :
  session_ok
    (handle (ReqCancel (Some (App.login Demo.pat)) 1) Demo.booked_by_pat)
    (Some (App.login Demo.dana)).
Proof.
  refine (proj1 (sessions_stay_valid (ReqCancel (Some (App.login Demo.pat)) 1)
                   Demo.booked_by_pat (Some (App.login Demo.dana))
                   (DemoFacts.dana_session_ok Demo.booked_by_pat _))).
  vm_compute. reflexivity.
Defined.

(** ** [cancel_appointment] of [models.py] *)



(** ** Opening a slot that has appointments *)

(** X26.  The slot toggle does not look at the appointment table: once a
    doctor on file has toggled a slot to available, a booking of that slot by
    any registered patient succeeds, whatever appointments, scheduled ones
    included, already exist for that doctor, date and time. *)
Theorem opened_slot_is_bookable (db : Database) (sess : App.Session) (date : Z)
    (time : string) (patient : User) (reason : option string) (nurse_id : option Z) :
  session_ok db (Some sess) -> App.session_role sess = "doctor" ->
  In patient (users db) ->
  let db' := fst (App.toggle_slot (Some sess) date time true db) in
  appointments db' = appointments db
  /\ exists db'' a,
       Models.create_appointment db' (user_id patient) (App.session_user_id sess) date
         time reason nurse_id
       = Returned db'' (Some a, "Appointment scheduled successfully")
       /\ appt_status a = "scheduled"
       /\ appointments db'' = appointments db ++ [a].
Proof.
  intros Hsess Hrole Hpat db'.
  assert (Hfr : users db' = users db /\ appointments db' = appointments db).
  { unfold db'. rewrite (toggle_slot_db _ _ _ _ _ Hrole).
    destruct (first_slot db _ _ _); auto. }
  destruct Hfr as [Hus Has]. split; [exact Has|].
  destruct (toggle_slot_row db sess date time true Hrole) as [sl [Hin [Hk Hfl]]].
  fold db' in Hin.
  assert (Ho : is_open db' (App.session_user_id sess) date time = true)
    by (apply is_open_iff; eauto).
  assert (Hp : exists u, get_user db' (user_id patient) = Some u)
    by (apply get_user_some_iff; rewrite Hus; eauto).
  assert (Hd : exists u, get_user db' (App.session_user_id sess) = Some u).
  { apply get_user_some_iff. rewrite Hus. destruct Hsess as [u [Hu ->]]. eauto. }
  destruct Hp as [p Hp]. destruct Hd as [d Hd].
  rewrite (create_appointment_succeeds _ _ _ _ _ _ _ _ _ Hp Hd Ho).
  eexists. eexists. split; [reflexivity|]. split; [reflexivity|].
  cbn [appointments set_notifications booked_db]. rewrite Has.
  unfold booked. rewrite Has. reflexivity.
Qed.

(** Dana re-opens the slot that Pat holds, and Quinn books it. *)
Lemma opened_slot_is_bookable_witness :
  exists db'' a,
    Models.create_appointment
      (fst (App.toggle_slot (Some (App.login Demo.dana)) Demo.monday "09:00" true
              Demo.booked_by_pat))
      (user_id Demo.quinn) (App.session_user_id (App.login Demo.dana)) Demo.monday
      "09:00" None None
    = Returned db'' (Some a, "Appointment scheduled successfully")
    /\ appt_status a = "scheduled"
    /\ appointments db'' = appointments Demo.booked_by_pat ++ [a].
Proof.
  refine (proj2 (opened_slot_is_bookable Demo.booked_by_pat (App.login Demo.dana)
                   Demo.monday "09:00" Demo.quinn None None
                   (DemoFacts.dana_session_ok Demo.booked_by_pat _) eq_refl _)).
  - vm_compute. reflexivity.
  - vm_compute. right; right; left; reflexivity.
Defined.
